(** * Agentic Clearinghouse: the contract lifecycle engine

    A shallow embedding of the escrow state machine
    ([domain/state_machine.py]), the repositories
    ([infrastructure/database/repositories.py]), the escrow,
    verification and payment services ([services/]), the verifier
    strategies and their factory ([verifiers/]), the submit-verify-settle
    workflow ([orchestration/escrow_graph.py]), the error middleware
    ([api/middleware.py]) and the [create_escrow] tool
    ([mcp_server/tools.py]), followed by the properties the
    specification states about them and by further properties of the
    code itself.

    Modelling conventions.
    - Python [str] is [string]; the text handled here is ASCII, so
      [upper] acts on the letters a-z and [strip] removes the ASCII
      characters for which [str.isspace] holds.
    - A Python [dict] with string keys is a [gmap string pyval].
    - The SQLAlchemy session is an explicit [Session] value threaded
      through every call; rows keep their insertion order, which stands
      for the [created_at] / [submitted_at] columns.  A raised exception
      leaves the session as it was at the point of the raise: the
      session itself never rolls back, its owner does.
    - [uuid.uuid4] is a counter that never repeats.
    - Calls to the logger, the timestamp columns and the CHECK
      constraints the database enforces on flush are left out.
    - The E2B sandbox, the LLM client, [json.loads], the JSON Schema
      validator, the wallet provider, the rendering of identifiers and
      decimals, and the builtins [str] and [float] are not code of this
      repository: they enter as section variables, and every property
      holds for all of them.
    - A contract id reaches the workflow as text; the embedding starts
      from the parsed id. *)

From Stdlib Require Import ZArith QArith Ascii String Sorted.
From stdpp Require Import gmap strings list fin_maps pretty.

Set Warnings "-register-all".
Open Scope string_scope.

(* ===================================================================== *)
(** * Part I. Definitions *)
(* ===================================================================== *)

(** ** Python strings *)

(** [str.isspace] on one ASCII character: TAB, LF, VT, FF, CR, the four
    separators FS, GS, RS, US, and the space. *)
Definition py_isspace (c : ascii) : bool :=
  let n := nat_of_ascii c in
  ((9 <=? n)%nat && (n <=? 13)%nat) || ((28 <=? n)%nat && (n <=? 32)%nat).

Definition py_upper_char (c : ascii) : ascii :=
  let n := nat_of_ascii c in
  if ((97 <=? n)%nat && (n <=? 122)%nat) then ascii_of_nat (n - 32) else c.

(** [s.upper()] *)
Fixpoint py_upper (s : string) : string :=
  match s with
  | EmptyString => EmptyString
  | String c s' => String (py_upper_char c) (py_upper s')
  end.

(** [s.lstrip()], [s.rstrip()], [s.strip()] *)
Fixpoint py_lstrip (s : string) : string :=
  match s with
  | EmptyString => EmptyString
  | String c s' => if py_isspace c then py_lstrip s' else s
  end.

Definition py_rstrip (s : string) : string :=
  String.rev (py_lstrip (String.rev s)).

Definition py_strip (s : string) : string := py_rstrip (py_lstrip s).

(** [s.startswith(p)] *)
Fixpoint py_startswith (p s : string) : bool :=
  match p, s with
  | EmptyString, _ => true
  | String a p', String b s' => if Ascii.eqb a b then py_startswith p' s' else false
  | String _ _, EmptyString => false
  end.

(** [needle in hay] *)
Fixpoint py_contains (needle hay : string) : bool :=
  py_startswith needle hay
  || match hay with
     | EmptyString => false
     | String _ hay' => py_contains needle hay'
     end.

(** [s.split(sep)] for a one-character separator: never empty, and
    [''.split(sep) = ['']]. *)
Fixpoint py_split (sep : ascii) (s : string) : list string :=
  match s with
  | EmptyString => [EmptyString]
  | String c s' =>
      if Ascii.eqb c sep then EmptyString :: py_split sep s'
      else match py_split sep s' with
           | cur :: rest => String c cur :: rest
           | [] => [String c EmptyString]
           end
  end.

(** [s.split(sep, 1)[1]]: the text after the first separator; [None]
    stands for the [IndexError] of a string without separator. *)
Fixpoint py_split1_snd (sep : ascii) (s : string) : option string :=
  match s with
  | EmptyString => None
  | String c s' => if Ascii.eqb c sep then Some s' else py_split1_snd sep s'
  end.

(** [s[:n]] and [s[n:]] *)
Fixpoint py_take (n : nat) (s : string) : string :=
  match n, s with
  | O, _ => EmptyString
  | S _, EmptyString => EmptyString
  | S n', String c s' => String c (py_take n' s')
  end.

Fixpoint py_drop (n : nat) (s : string) : string :=
  match n, s with
  | O, _ => s
  | S _, EmptyString => EmptyString
  | S n', String _ s' => py_drop n' s'
  end.

(** [hay.index(needle)], where the caller has checked [needle in hay];
    [None] stands for the [ValueError] otherwise. *)
Fixpoint py_index (needle hay : string) : option nat :=
  if py_startswith needle hay then Some O
  else match hay with
       | EmptyString => None
       | String _ hay' => S <$> py_index needle hay'
       end.

Definition LF : ascii := ascii_of_nat 10.
Definition COLON : ascii := ascii_of_nat 58.

(** ** Python values *)

(** The JSON-like values stored in descriptors, results and event
    metadata.  A float is represented by the rational it denotes. *)
Inductive pyval :=
| VNone
| VBool (b : bool)
| VInt (z : Z)
| VFloat (q : Q)
| VStr (s : string)
| VList (l : list pyval)
| VDict (d : gmap string pyval).

(** Truth value of a Python object, as [if x:] and [not x] take it. *)
Definition py_truthy (v : pyval) : bool :=
  match v with
  | VNone => false
  | VBool b => b
  | VInt z => negb (z =? 0)%Z
  | VFloat q => negb (Qeq_bool q 0)
  | VStr s => negb (String.eqb s "")
  | VList l => match l with [] => false | _ => true end
  | VDict d => negb (bool_decide (d = ∅))
  end.

(** [d.get(k, default)] *)
Definition dict_get (d : gmap string pyval) (k : string) (default : pyval) : pyval :=
  match d !! k with Some v => v | None => default end.

(** The dict display [{k: v, **kw}]: the entries of [kw] are written
    after [k], so they replace an equal key. *)
Definition dict_with_unpack (k : string) (v : pyval) (kw : gmap string pyval)
  : gmap string pyval :=
  kw ∪ {[ k := v ]}.

Definition opt_str (o : option string) : pyval :=
  match o with Some s => VStr s | None => VNone end.

Definition opt_float (o : option Q) : pyval :=
  match o with Some q => VFloat q | None => VNone end.

(** [a or b] on optional strings: [a] when it is a non-empty string. *)
Definition py_or (a b : option string) : option string :=
  match a with
  | Some s => if String.eqb s "" then b else a
  | None => b
  end.

(** ** domain/enums.py *)

Inductive EscrowStatus :=
| CREATED | FUNDED | IN_PROGRESS | SUBMITTED
| VERIFYING | COMPLETED | FAILED | DISPUTED.

Inductive EventType :=
| CONTRACT_CREATED | CONTRACT_FUNDED | WORKER_ASSIGNED | WORK_SUBMITTED
| VERIFICATION_STARTED | VERIFICATION_PASSED | VERIFICATION_FAILED
| PAYMENT_INITIATED | PAYMENT_CONFIRMED
| DISPUTE_RAISED | DISPUTE_RESOLVED_WORKER | DISPUTE_RESOLVED_BUYER
| CONTRACT_EXPIRED | MAX_RETRIES_EXCEEDED.

#[global] Instance EscrowStatus_eq_dec : EqDecision EscrowStatus.
Proof. solve_decision. Defined.

#[global] Instance EventType_eq_dec : EqDecision EventType.
Proof. solve_decision. Defined.

(** The [.value] of each member of the two [StrEnum]s. *)
Definition status_value (s : EscrowStatus) : string :=
  match s with
  | CREATED => "CREATED" | FUNDED => "FUNDED"
  | IN_PROGRESS => "IN_PROGRESS" | SUBMITTED => "SUBMITTED"
  | VERIFYING => "VERIFYING" | COMPLETED => "COMPLETED"
  | FAILED => "FAILED" | DISPUTED => "DISPUTED"
  end.

Definition event_type_value (t : EventType) : string :=
  match t with
  | CONTRACT_CREATED => "CONTRACT_CREATED"
  | CONTRACT_FUNDED => "CONTRACT_FUNDED"
  | WORKER_ASSIGNED => "WORKER_ASSIGNED"
  | WORK_SUBMITTED => "WORK_SUBMITTED"
  | VERIFICATION_STARTED => "VERIFICATION_STARTED"
  | VERIFICATION_PASSED => "VERIFICATION_PASSED"
  | VERIFICATION_FAILED => "VERIFICATION_FAILED"
  | PAYMENT_INITIATED => "PAYMENT_INITIATED"
  | PAYMENT_CONFIRMED => "PAYMENT_CONFIRMED"
  | DISPUTE_RAISED => "DISPUTE_RAISED"
  | DISPUTE_RESOLVED_WORKER => "DISPUTE_RESOLVED_WORKER"
  | DISPUTE_RESOLVED_BUYER => "DISPUTE_RESOLVED_BUYER"
  | CONTRACT_EXPIRED => "CONTRACT_EXPIRED"
  | MAX_RETRIES_EXCEEDED => "MAX_RETRIES_EXCEEDED"
  end.

(** ** domain/state_machine.py *)

(** The eleven events declared on [EscrowStateMachine]. *)
Inductive SMEvent :=
| on_chain_confirmed | timeout_expired
| worker_accepts
| worker_submits
| auto_verify
| verification_passed | verification_failed_retry | max_retries_exceeded
| buyer_disputes | dispute_resolved_for_worker | dispute_resolved_for_buyer.

#[global] Instance SMEvent_eq_dec : EqDecision SMEvent.
Proof. solve_decision. Defined.

Definition event_name (e : SMEvent) : string :=
  match e with
  | on_chain_confirmed => "on_chain_confirmed"
  | timeout_expired => "timeout_expired"
  | worker_accepts => "worker_accepts"
  | worker_submits => "worker_submits"
  | auto_verify => "auto_verify"
  | verification_passed => "verification_passed"
  | verification_failed_retry => "verification_failed_retry"
  | max_retries_exceeded => "max_retries_exceeded"
  | buyer_disputes => "buyer_disputes"
  | dispute_resolved_for_worker => "dispute_resolved_for_worker"
  | dispute_resolved_for_buyer => "dispute_resolved_for_buyer"
  end.

(** The [State(...)] declarations, in class-body order. *)
Definition states : list EscrowStatus :=
  [CREATED; FUNDED; IN_PROGRESS; SUBMITTED; VERIFYING; COMPLETED; FAILED; DISPUTED].

Record Transition := mkTransition {
  t_event : SMEvent;
  t_source : EscrowStatus;
  t_target : EscrowStatus
}.

(** The [X.to(Y)] declarations, in class-body order; [buyer_disputes]
    is the union of two of them. *)
Definition transitions : list Transition :=
  [ mkTransition on_chain_confirmed CREATED FUNDED;
    mkTransition timeout_expired CREATED FAILED;
    mkTransition worker_accepts FUNDED IN_PROGRESS;
    mkTransition worker_submits IN_PROGRESS SUBMITTED;
    mkTransition auto_verify SUBMITTED VERIFYING;
    mkTransition verification_passed VERIFYING COMPLETED;
    mkTransition verification_failed_retry VERIFYING IN_PROGRESS;
    mkTransition max_retries_exceeded VERIFYING FAILED;
    mkTransition buyer_disputes FUNDED DISPUTED;
    mkTransition buyer_disputes IN_PROGRESS DISPUTED;
    mkTransition dispute_resolved_for_worker DISPUTED COMPLETED;
    mkTransition dispute_resolved_for_buyer DISPUTED FAILED ].

Definition uuid := nat.

Inductive Exn :=
| ValueError (msg : string)
| TypeError (msg : string)
| AttributeError (msg : string)
| TransitionNotAllowed (event : SMEvent) (state : EscrowStatus)
| InvalidStateTransitionError (current_state attempted_state : string)
| ContractNotFoundError (contract_id : uuid)
| WorkerAlreadyAssignedError (contract_id : uuid).

(** An instance of the machine is its current state. *)
Record EscrowStateMachine := mkMachine { current_state : EscrowStatus }.

(** [EscrowStateMachine.__init__]: the status string must be the value
    of a declared state; the machine then starts in that state. *)
Definition EscrowStateMachine_init (current_status : string)
  : Exn + EscrowStateMachine :=
  let valid_values := status_value <$> states in
  if bool_decide (current_status ∈ valid_values) then
    match List.find (fun s => String.eqb (status_value s) current_status) states with
    | Some s => inr (mkMachine s)
    | None => inl (ValueError ("Unknown status '" ++ current_status ++ "'."))
    end
  else
    inl (ValueError
           ("Unknown status '" ++ current_status
            ++ "'. Valid states: COMPLETED, CREATED, DISPUTED, FAILED, "
            ++ "FUNDED, IN_PROGRESS, SUBMITTED, VERIFYING")).

(** The [status] property. *)
Definition sm_status (sm : EscrowStateMachine) : string :=
  status_value (current_state sm).

(** Calling the event method [sm.<event>()]: the first declared
    transition of that event leaving the current state is taken;
    without one the library raises [TransitionNotAllowed(event, state)]. *)
Definition fire (sm : EscrowStateMachine) (e : SMEvent)
  : Exn + EscrowStateMachine :=
  match List.find
          (fun t => bool_decide (t_event t = e) && bool_decide (t_source t = current_state sm))
          transitions with
  | Some t => inr (mkMachine (t_target t))
  | None => inl (TransitionNotAllowed e (current_state sm))
  end.

(** [allowed_events]: the events with a transition leaving the current
    state, each once, in declaration order. *)
Definition allowed_events (sm : EscrowStateMachine) : list SMEvent :=
  remove_dups
    (t_event <$> List.filter (fun t => bool_decide (t_source t = current_state sm)) transitions).

Definition get_allowed_events (sm : EscrowStateMachine) : list string :=
  event_name <$> allowed_events sm.

(** ** infrastructure/database/orm_models.py *)

(** The rows of the three tables, without their timestamp columns. *)
Record EscrowContract := mkContract {
  c_id : uuid;
  buyer_wallet : string;
  worker_wallet : option string;
  amount_usdc : Q;
  escrow_wallet_address : option string;
  funding_tx_hash : option string;
  settlement_tx_hash : option string;
  status : string;
  description : option string;
  requirements_schema : option (gmap string pyval);
  verification_logic : gmap string pyval;
  max_retries : Z;
  retry_count : Z
}.

Record WorkSubmission := mkSubmission {
  s_id : uuid;
  s_contract_id : uuid;
  s_payload : string;
  s_submitted_by : option string;
  s_verification_result : option (gmap string pyval);
  s_is_valid : option bool
}.

Record EscrowEvent := mkEvent {
  e_id : uuid;
  e_contract_id : uuid;
  event_type : string;
  old_status : option string;
  new_status : string;
  actor : string;
  metadata_json : option (gmap string pyval)
}.

(** Attribute assignments on a loaded contract. *)
Definition set_status (v : string) (c : EscrowContract) : EscrowContract :=
  mkContract (c_id c) (buyer_wallet c) (worker_wallet c) (amount_usdc c)
    (escrow_wallet_address c) (funding_tx_hash c) (settlement_tx_hash c)
    v (description c) (requirements_schema c) (verification_logic c)
    (max_retries c) (retry_count c).

Definition set_retry_count (v : Z) (c : EscrowContract) : EscrowContract :=
  mkContract (c_id c) (buyer_wallet c) (worker_wallet c) (amount_usdc c)
    (escrow_wallet_address c) (funding_tx_hash c) (settlement_tx_hash c)
    (status c) (description c) (requirements_schema c) (verification_logic c)
    (max_retries c) v.

Definition set_worker_wallet (v : option string) (c : EscrowContract) : EscrowContract :=
  mkContract (c_id c) (buyer_wallet c) v (amount_usdc c)
    (escrow_wallet_address c) (funding_tx_hash c) (settlement_tx_hash c)
    (status c) (description c) (requirements_schema c) (verification_logic c)
    (max_retries c) (retry_count c).

Definition set_funding (tx_hash wallet : string) (c : EscrowContract) : EscrowContract :=
  mkContract (c_id c) (buyer_wallet c) (worker_wallet c) (amount_usdc c)
    (Some wallet) (Some tx_hash) (settlement_tx_hash c)
    (status c) (description c) (requirements_schema c) (verification_logic c)
    (max_retries c) (retry_count c).

Definition set_verification (valid : bool) (result : gmap string pyval)
    (s : WorkSubmission) : WorkSubmission :=
  mkSubmission (s_id s) (s_contract_id s) (s_payload s) (s_submitted_by s)
    (Some result) (Some valid).

(** ** The session *)

(** What one [AsyncSession] holds: the contracts by primary key, the
    submissions and the events in insertion order, and the next value
    [uuid.uuid4] hands out. *)
Record Session := mkSession {
  contracts : gmap uuid EscrowContract;
  submissions : list WorkSubmission;
  events : list EscrowEvent;
  next_uuid : uuid
}.

Definition empty_session : Session := mkSession ∅ [] [] 0.

(** A computation on the session that returns a value or raises; the
    session it leaves behind is the one at the return or at the raise. *)
Definition M (A : Type) : Type := Session -> (Exn + A) * Session.

Definition ret {A} (a : A) : M A := fun s => (inr a, s).

Definition raise {A} (e : Exn) : M A := fun s => (inl e, s).

Definition bind {A B} (m : M A) (k : A -> M B) : M B :=
  fun s =>
    match m s with
    | (inr a, s') => k a s'
    | (inl e, s') => (inl e, s')
    end.

Notation "'do' x <- m ; k" := (bind m (fun x => k))
  (at level 10, x name, m at level 100, k at level 200).
Notation "'do_' m ; k" := (bind m (fun _ => k))
  (at level 10, m at level 100, k at level 200).

Definition uuid4 : M uuid :=
  fun s => (inr (next_uuid s),
            mkSession (contracts s) (submissions s) (events s) (S (next_uuid s))).

(** Writing a contract object back under its primary key: the loaded
    object and the session's row are one and the same Python object. *)
Definition store_contract (c : EscrowContract) : M unit :=
  fun s => (inr tt,
            mkSession (<[c_id c := c]> (contracts s)) (submissions s) (events s)
                      (next_uuid s)).

(** ** infrastructure/database/repositories.py *)

Module EscrowRepository.

(** [create]: the primary key is drawn when the row is flushed. *)
Definition create (mk : uuid -> EscrowContract) : M EscrowContract :=
  do cid <- uuid4;
  do_ store_contract (mk cid);
  ret (mk cid).

Definition get_by_id (contract_id : uuid) : M (option EscrowContract) :=
  fun s => (inr (contracts s !! contract_id), s).

Definition update_status (contract : EscrowContract) (new_status : EscrowStatus)
  : M EscrowContract :=
  let contract := set_status (status_value new_status) contract in
  do_ store_contract contract;
  ret contract.

Definition increment_retry (contract : EscrowContract) : M EscrowContract :=
  let contract := set_retry_count (retry_count contract + 1) contract in
  do_ store_contract contract;
  ret contract.

End EscrowRepository.

Module SubmissionRepository.

Definition create (mk : uuid -> WorkSubmission) : M WorkSubmission :=
  do sid <- uuid4;
  fun s => (inr (mk sid),
            mkSession (contracts s) (submissions s ++ [mk sid]) (events s)
                      (next_uuid s)).

Definition get_by_id (submission_id : uuid) : M (option WorkSubmission) :=
  fun s => (inr (List.find (fun x => Nat.eqb (s_id x) submission_id) (submissions s)), s).

(** Newest first. *)
Definition get_by_contract (contract_id : uuid) : M (list WorkSubmission) :=
  fun s => (inr (rev (List.filter (fun x => Nat.eqb (s_contract_id x) contract_id)
                                  (submissions s))), s).

(** The two assignments land on the row with the submission's key. *)
Definition update_verification (submission : WorkSubmission) (valid : bool)
    (result : gmap string pyval) : M WorkSubmission :=
  fun s => (inr (set_verification valid result submission),
            mkSession (contracts s)
              ((fun x => if Nat.eqb (s_id x) (s_id submission)
                         then set_verification valid result x else x)
                 <$> submissions s)
              (events s) (next_uuid s)).

End SubmissionRepository.

Module EventRepository.

(** [record]: the only write on the audit log, an append. *)
Definition record (contract_id : uuid) (ty : EventType)
    (old : option EscrowStatus) (new : EscrowStatus) (who : string)
    (metadata : option (gmap string pyval)) : M EscrowEvent :=
  do eid <- uuid4;
  let evt := mkEvent eid contract_id (event_type_value ty)
               (status_value <$> old) (status_value new) who metadata in
  fun s => (inr evt,
            mkSession (contracts s) (submissions s) (events s ++ [evt])
                      (next_uuid s)).

(** Oldest first. *)
Definition get_by_contract (contract_id : uuid) : M (list EscrowEvent) :=
  fun s => (inr (List.filter (fun x => Nat.eqb (e_contract_id x) contract_id)
                             (events s)), s).

End EventRepository.

(** ** services/escrow_service.py *)

(** [EscrowStatus(value)]: the member with that value. *)
Definition EscrowStatus_of_value (v : string) : option EscrowStatus :=
  List.find (fun s => String.eqb (status_value s) v) states.

Module EscrowService.

Definition _get_contract_or_raise (contract_id : uuid) : M EscrowContract :=
  do found <- EscrowRepository.get_by_id contract_id;
  match found with
  | None => raise (ContractNotFoundError contract_id)
  | Some contract => ret contract
  end.

(** The service only passes the names of declared events, so the
    [getattr] always finds the event method. *)
Definition _fire_transition (contract : EscrowContract) (e : SMEvent) : M unit :=
  match EscrowStateMachine_init (status contract) with
  | inl err => raise err
  | inr sm =>
      match fire sm e with
      | inr _ => ret tt
      | inl _ => raise (InvalidStateTransitionError (status contract) (event_name e))
      end
  end.

Definition create_contract (buyer : string) (amount : Q) (descr : string)
    (logic : gmap string pyval) (schema : option (gmap string pyval))
    (retries : Z) : M EscrowContract :=
  do contract <-
    EscrowRepository.create
      (fun cid => mkContract cid buyer None amount None None None
                    (status_value CREATED) (Some descr) schema logic retries 0);
  do_ EventRepository.record (c_id contract) CONTRACT_CREATED None CREATED buyer
        (Some {[ "description" := VStr descr ]});
  ret contract.

Definition fund_contract (contract_id : uuid) (tx_hash wallet : string)
  : M EscrowContract :=
  do contract <- _get_contract_or_raise contract_id;
  do_ _fire_transition contract on_chain_confirmed;
  let contract := set_funding tx_hash wallet contract in
  do_ store_contract contract;
  do contract <- EscrowRepository.update_status contract FUNDED;
  do_ EventRepository.record (c_id contract) CONTRACT_FUNDED (Some CREATED) FUNDED
        "SYSTEM"
        (Some {[ "tx_hash" := VStr tx_hash; "escrow_wallet" := VStr wallet ]});
  ret contract.

Definition accept_contract (contract_id : uuid) (worker : string)
  : M EscrowContract :=
  do contract <- _get_contract_or_raise contract_id;
  match worker_wallet contract with
  | Some _ => raise (WorkerAlreadyAssignedError contract_id)
  | None =>
      do_ _fire_transition contract worker_accepts;
      let contract := set_worker_wallet (Some worker) contract in
      do_ store_contract contract;
      do contract <- EscrowRepository.update_status contract IN_PROGRESS;
      do_ EventRepository.record (c_id contract) WORKER_ASSIGNED (Some FUNDED)
            IN_PROGRESS worker None;
      ret contract
  end.

Definition submit_work (contract_id : uuid) (work : string)
    (worker : option string) : M WorkSubmission :=
  do contract <- _get_contract_or_raise contract_id;
  do_ _fire_transition contract worker_submits;
  do contract <- EscrowRepository.update_status contract SUBMITTED;
  do submission <-
    SubmissionRepository.create
      (fun sid => mkSubmission sid (c_id contract) work
                    (py_or worker (worker_wallet contract)) None None);
  do_ EventRepository.record (c_id contract) WORK_SUBMITTED (Some IN_PROGRESS)
        SUBMITTED
        (default "UNKNOWN" (py_or (py_or worker (worker_wallet contract)) (Some "UNKNOWN")))
        (Some {[ "submission_id" := VStr (pretty (s_id submission)) ]});
  ret submission.

Definition start_verification (contract_id : uuid) : M EscrowContract :=
  do contract <- _get_contract_or_raise contract_id;
  do_ _fire_transition contract auto_verify;
  do contract <- EscrowRepository.update_status contract VERIFYING;
  do_ EventRepository.record (c_id contract) VERIFICATION_STARTED (Some SUBMITTED)
        VERIFYING "SYSTEM" None;
  ret contract.

Definition record_verification_passed (contract_id submission_id : uuid)
    (result : gmap string pyval) : M EscrowContract :=
  do contract <- _get_contract_or_raise contract_id;
  do_ _fire_transition contract verification_passed;
  do contract <- EscrowRepository.update_status contract COMPLETED;
  do submission <- SubmissionRepository.get_by_id submission_id;
  do_ match submission with
      | Some sub =>
          do_ SubmissionRepository.update_verification sub true result; ret tt
      | None => ret tt
      end;
  do_ EventRepository.record (c_id contract) VERIFICATION_PASSED (Some VERIFYING)
        COMPLETED "SYSTEM" (Some result);
  ret contract.

Definition record_verification_failed (contract_id submission_id : uuid)
    (result : gmap string pyval) : M EscrowContract :=
  do contract <- _get_contract_or_raise contract_id;
  do submission <- SubmissionRepository.get_by_id submission_id;
  do_ match submission with
      | Some sub =>
          do_ SubmissionRepository.update_verification sub false result; ret tt
      | None => ret tt
      end;
  do contract <- EscrowRepository.increment_retry contract;
  if (max_retries contract <=? retry_count contract)%Z then
    do_ _fire_transition contract max_retries_exceeded;
    do contract <- EscrowRepository.update_status contract FAILED;
    do_ EventRepository.record (c_id contract) MAX_RETRIES_EXCEEDED (Some VERIFYING)
          FAILED "SYSTEM"
          (Some (dict_with_unpack "retry_count" (VInt (retry_count contract)) result));
    ret contract
  else
    do_ _fire_transition contract verification_failed_retry;
    do contract <- EscrowRepository.update_status contract IN_PROGRESS;
    do_ EventRepository.record (c_id contract) VERIFICATION_FAILED (Some VERIFYING)
          IN_PROGRESS "SYSTEM"
          (Some (dict_with_unpack "retry_count" (VInt (retry_count contract)) result));
    ret contract.

Definition raise_dispute (contract_id : uuid) (reason raised_by : string)
  : M EscrowContract :=
  do contract <- _get_contract_or_raise contract_id;
  match EscrowStatus_of_value (status contract) with
  | None =>
      raise (ValueError ("'" ++ status contract ++ "' is not a valid EscrowStatus"))
  | Some old =>
      do_ _fire_transition contract buyer_disputes;
      do contract <- EscrowRepository.update_status contract DISPUTED;
      do_ EventRepository.record (c_id contract) DISPUTE_RAISED (Some old) DISPUTED
            raised_by (Some {[ "reason" := VStr reason ]});
      ret contract
  end.

Definition get_contract (contract_id : uuid) : M EscrowContract :=
  _get_contract_or_raise contract_id.


Definition get_events (contract_id : uuid) : M (list EscrowEvent) :=
  EventRepository.get_by_contract contract_id.

End EscrowService.

(** ** domain/verifier_protocol.py *)

Record VerificationRequest := mkRequest {
  rq_contract_id : string;
  rq_payload : string;
  rq_config : gmap string pyval;
  rq_schema : option (gmap string pyval)
}.

Record VerificationResult := mkResult {
  is_valid : bool;
  score : option Q;
  details : string;
  logs : gmap string pyval;
  error : option string
}.

Definition to_dict (r : VerificationResult) : gmap string pyval :=
  {[ "is_valid" := VBool (is_valid r);
     "score" := opt_float (score r);
     "details" := VStr (details r);
     "logs" := VDict (logs r);
     "error" := opt_str (error r) ]}.

(** ** verifiers/semantic.py: parsing the judge's answer *)

(** What [float(text)] gives when it does not raise. *)
Inductive pyfloat := Finite (q : Q) | PosInf | NegInf | NaN.

(** [x < y] on floats; every comparison with NaN is false. *)
Definition pyfloat_lt (x y : pyfloat) : bool :=
  match x, y with
  | NaN, _ | _, NaN => false
  | NegInf, NegInf => false
  | NegInf, _ => true
  | _, NegInf => false
  | PosInf, _ => false
  | Finite _, PosInf => true
  | Finite a, Finite b => negb (Qle_bool b a)
  end.

(** [max(0.0, min(1.0, x))]: [min] and [max] keep their first argument
    unless the second is strictly smaller, respectively larger. *)
Definition clamp01 (x : pyfloat) : pyfloat :=
  let m := if pyfloat_lt x (Finite 1) then x else Finite 1 in
  if pyfloat_lt (Finite 0) m then m else Finite 0.

Definition pyfloat_value (x : pyfloat) : Q :=
  match x with Finite q => q | _ => 0 end.

(** The three accumulators of the parsing loop. *)
Record Parsed := mkParsed {
  p_verdict : bool;
  p_score : Q;
  p_reasoning : string
}.

Section SemanticParsing.

(** The builtin [float] on text: [None] is its [ValueError]. *)
Variable py_float : string -> option pyfloat.

(** One turn of [for line in response.split("\n")]. *)
Definition parse_line (acc : Parsed) (raw : string) : Parsed :=
  let line := py_strip raw in
  if py_startswith "VERDICT:" (py_upper line) then
    match py_split1_snd COLON line with
    | Some rest =>
        mkParsed (String.eqb (py_upper (py_strip rest)) "TRUE")
                 (p_score acc) (p_reasoning acc)
    | None => acc
    end
  else if py_startswith "SCORE:" (py_upper line) then
    match py_split1_snd COLON line with
    | Some rest =>
        match py_float (py_strip rest) with
        | Some x => mkParsed (p_verdict acc) (pyfloat_value (clamp01 x)) (p_reasoning acc)
        | None => mkParsed (p_verdict acc) 0 (p_reasoning acc)
        end
    | None => mkParsed (p_verdict acc) 0 (p_reasoning acc)
    end
  else if py_startswith "REASONING:" (py_upper line) then
    match py_split1_snd COLON line with
    | Some rest => mkParsed (p_verdict acc) (p_score acc) (py_strip rest)
    | None => acc
    end
  else acc.

(** [SemanticVerifier._parse_response] *)
Definition _parse_response (response : string) : Parsed :=
  let acc := fold_left parse_line (py_split LF response) (mkParsed false 0 "") in
  let reasoning :=
    if String.eqb (p_reasoning acc) "" && py_contains "REASONING:" (py_upper response)
    then match py_index "REASONING:" (py_upper response) with
         | Some idx => py_strip (py_drop (idx + 10) response)
         | None => p_reasoning acc
         end
    else p_reasoning acc in
  let reasoning :=
    if String.eqb reasoning ""
    then "Could not parse structured reasoning from LLM response. Raw: "
         ++ py_take 200 response
    else reasoning in
  mkParsed (p_verdict acc) (p_score acc) reasoning.

End SemanticParsing.

(** ** The world outside the core *)

(** [config.Settings], as far as the verifiers read it. *)
Record Settings := mkSettings {
  e2b_api_key : string;
  e2b_timeout_seconds : Z;
  litellm_model : string
}.

(** How a run of the E2B sandbox ends: with [(stdout, stderr,
    exit_code)], with a [TimeoutError], or with another exception whose
    text is given. *)
Inductive SandboxOutcome :=
| Completed (stdout stderr : string) (exit_code : Z)
| TimedOut
| Crashed (text : string).

(** One error reported by [Draft7Validator.iter_errors]: [path] and
    [schema_path] are sequences of object keys and array indexes. *)
Inductive pelem := PKey (k : string) | PIdx (i : Z).

Record ValidationError := mkValidationError {
  path : list pelem;
  message : string;
  schema_path : list pelem
}.

(** What iterating the validator does: it yields errors, raises
    [jsonschema.SchemaError] with a message, or raises something else. *)
Inductive ValidatorOutcome :=
| Errors (errs : list ValidationError)
| SchemaError (msg : string)
| OtherError (text : string).

(** ** Sorting validation errors by path *)

Definition pelem_val (x : pelem) : pyval :=
  match x with PKey k => VStr k | PIdx i => VInt i end.

(** [x == y] on keys and indexes: a key never equals an index. *)
Definition pelem_eqb (x y : pelem) : bool :=
  match x, y with
  | PKey a, PKey b => String.eqb a b
  | PIdx a, PIdx b => (a =? b)%Z
  | _, _ => false
  end.

(** [x < y]: defined between two keys and between two indexes; [None]
    is the [TypeError] of comparing a key with an index. *)
Definition pelem_lt (x y : pelem) : option bool :=
  match x, y with
  | PKey a, PKey b => Some (String.ltb a b)
  | PIdx a, PIdx b => Some (a <? b)%Z
  | _, _ => None
  end.

(** [a < b] on Python lists: the first unequal pair decides, and a
    proper prefix is smaller. *)
Fixpoint path_lt (a b : list pelem) : option bool :=
  match a, b with
  | [], [] => Some false
  | [], _ :: _ => Some true
  | _ :: _, [] => Some false
  | x :: a', y :: b' => if pelem_eqb x y then path_lt a' b' else pelem_lt x y
  end.

(** [sorted(errors, key=lambda e: list(e.path))] as a stable insertion
    sort: an error moves behind exactly those with a strictly smaller
    path.  Where all paths are comparable every stable sort returns this
    list; a [TypeError] in a comparison aborts the sort, and which
    comparisons Python's own algorithm makes on a list with
    incomparable paths is not modelled. *)
Fixpoint insert_by_path (x : ValidationError) (l : list ValidationError)
  : option (list ValidationError) :=
  match l with
  | [] => Some [x]
  | h :: t =>
      match path_lt (path h) (path x) with
      | None => None
      | Some true => cons h <$> insert_by_path x t
      | Some false => Some (x :: h :: t)
      end
  end.

Fixpoint sorted_by_path (l : list ValidationError) : option (list ValidationError) :=
  match l with
  | [] => Some []
  | x :: t => sorted_by_path t ≫= insert_by_path x
  end.

Definition error_detail (e : ValidationError) : pyval :=
  VDict {[ "path" := VList (pelem_val <$> path e);
           "message" := VStr (message e);
           "schema_path" := VList (pelem_val <$> schema_path e) ]}.

(** ** The verifier strategies *)

(** A verifier object: [CodeExecutionVerifier] carries its two optional
    constructor overrides, the others carry nothing the core reads. *)
Inductive Verifier :=
| CodeExecutionVerifier (api_key : option string) (timeout : option Z)
| SemanticVerifier
| SchemaVerifier
| MockVerifier.

Section Verifiers.

Variable settings : Settings.
(** Python's [str()] on a value, as f-strings apply it. *)
Variable py_str : pyval -> string.
Variable py_float : string -> option pyfloat.
(** [_run_in_sandbox(code, api_key, timeout)], retries included. *)
Variable run_in_sandbox : string -> string -> pyval -> SandboxOutcome.
(** [litellm.acompletion] at the n-th attempt on a user message: the
    text of the exception it raised, or the content of the first
    choice ([None] for no content). *)
Variable acompletion : nat -> string -> string + option string.
(** [json.loads]: the text of the [JSONDecodeError], or the value. *)
Variable json_loads : string -> string + pyval.
(** [Draft7Validator(schema).iter_errors(instance)], consumed. *)
Variable iter_errors : gmap string pyval -> pyval -> ValidatorOutcome.

(** *** verifiers/code_execution.py *)

Definition CodeExecutionVerifier_verify (api_key : option string)
    (timeout : option Z) (request : VerificationRequest)
  : Exn + VerificationResult :=
  let config_api_key := default (e2b_api_key settings) api_key in
  let config_timeout := default (e2b_timeout_seconds settings) timeout in
  let v_config := rq_config request in
  let timeout := dict_get v_config "timeout" (VInt config_timeout) in
  match dict_get v_config "expected_output" (VStr "") with
  | VStr raw =>
      let expected_output := py_strip raw in
      if String.eqb config_api_key "" then
        inr (mkResult false None "E2B API key not configured." ∅
                      (Some "MISSING_E2B_API_KEY"))
      else
        match run_in_sandbox (rq_payload request) config_api_key timeout with
        | Completed stdout stderr exit_code =>
            let logs : gmap string pyval :=
              {[ "stdout" := VStr stdout;
                 "stderr" := VStr stderr;
                 "exit_code" := VInt exit_code;
                 "timeout" := timeout;
                 "expected_output" := VStr expected_output ]} in
            if negb (exit_code =? 0)%Z then
              inr (mkResult false None
                     ("Code exited with non-zero exit code: " ++ pretty exit_code)
                     logs None)
            else if negb (String.eqb expected_output "") then
              let stdout_stripped := py_strip stdout in
              if py_contains expected_output stdout_stripped then
                inr (mkResult true (Some 1%Q)
                       ("Code executed successfully. Expected output '"
                        ++ expected_output ++ "' found in stdout.")
                       logs None)
              else
                inr (mkResult false None
                       ("Code ran successfully but output doesn't match. Expected '"
                        ++ expected_output ++ "' in stdout, got: '"
                        ++ py_take 200 stdout_stripped ++ "'")
                       logs None)
            else
              inr (mkResult true (Some 1%Q)
                     "Code executed successfully with exit code 0." logs None)
        | TimedOut =>
            inr (mkResult false None
                   ("Code execution timed out after " ++ py_str timeout ++ " seconds.")
                   {[ "timeout" := timeout ]} (Some "EXECUTION_TIMEOUT"))
        | Crashed text =>
            inr (mkResult false None ("Sandbox execution failed: " ++ text)
                   {[ "exception" := VStr text ]} (Some "SANDBOX_ERROR"))
        end
  | _ => inl (AttributeError "object has no attribute 'strip'")
  end.

(** *** verifiers/semantic.py *)

(** [_call_llm] under its [@retry(stop_after_attempt(3), reraise=True)]:
    up to three attempts, the last exception is the one re-raised. *)
Definition call_llm_once (attempt : nat) (criteria : pyval) (work : string)
  : string + string :=
  let user_message :=
    "## Criteria" ++ String LF (py_str criteria) ++ String LF (String LF "## Submitted Work")
    ++ String LF work ++ String LF (String LF
       "Evaluate whether the submitted work meets the criteria above.") in
  match acompletion attempt user_message with
  | inl text => inl text
  | inr None => inl "LLM returned empty response"
  | inr (Some content) =>
      if String.eqb content "" then inl "LLM returned empty response"
      else inr (py_strip content)
  end.

Definition _call_llm (criteria : pyval) (work : string) : string + string :=
  match call_llm_once 1 criteria work with
  | inr r => inr r
  | inl _ =>
      match call_llm_once 2 criteria work with
      | inr r => inr r
      | inl _ => call_llm_once 3 criteria work
      end
  end.

Definition SemanticVerifier_verify (request : VerificationRequest)
  : Exn + VerificationResult :=
  let criteria := dict_get (rq_config request) "criteria" (VStr "") in
  if negb (py_truthy criteria) then
    inr (mkResult false None "No 'criteria' field in verification_logic." ∅
                  (Some "MISSING_CRITERIA"))
  else
    match _call_llm criteria (rq_payload request) with
    | inr llm_response =>
        let parsed := _parse_response py_float llm_response in
        inr (mkResult (p_verdict parsed) (Some (p_score parsed)) (p_reasoning parsed)
               {[ "llm_response" := VStr llm_response;
                  "criteria" := criteria;
                  "model" := VStr (litellm_model settings) ]}
               None)
    | inl text =>
        inr (mkResult false None ("LLM judge failed: " ++ text)
               {[ "exception" := VStr text ]} (Some "LLM_JUDGE_ERROR"))
    end.

(** *** verifiers/schema_validator.py *)

Definition SchemaVerifier_verify (request : VerificationRequest)
  : Exn + VerificationResult :=
  match rq_schema request with
  | None =>
      inr (mkResult false None "No requirements_schema provided on the contract." ∅
                    (Some "MISSING_SCHEMA"))
  | Some schema =>
      if bool_decide (schema = ∅) then
        inr (mkResult false None "No requirements_schema provided on the contract." ∅
                      (Some "MISSING_SCHEMA"))
      else
        match json_loads (rq_payload request) with
        | inl text =>
            inr (mkResult false None ("Payload is not valid JSON: " ++ text)
                   {[ "raw_payload_preview" := VStr (py_take 500 (rq_payload request)) ]}
                   (Some "INVALID_JSON"))
        | inr parsed_payload =>
            match iter_errors schema parsed_payload with
            | Errors found =>
                match sorted_by_path found with
                | Some [] =>
                    inr (mkResult true (Some 1%Q)
                           "Payload successfully validated against the JSON Schema."
                           {[ "schema" := VDict schema;
                              "parsed_payload" := parsed_payload ]}
                           None)
                | Some errors =>
                    inr (mkResult false None
                           ("Schema validation failed with " ++ pretty (length errors)
                            ++ " error(s).")
                           {[ "validation_errors" := VList (error_detail <$> errors);
                              "schema" := VDict schema ]}
                           None)
                | None =>
                    inr (mkResult false None
                           "Unexpected error during schema validation: '<' not supported"
                           ∅ (Some "SCHEMA_VERIFIER_ERROR"))
                end
            | SchemaError msg =>
                inr (mkResult false None
                       ("The requirements_schema itself is invalid: " ++ msg)
                       ∅ (Some "INVALID_SCHEMA"))
            | OtherError text =>
                inr (mkResult false None
                       ("Unexpected error during schema validation: " ++ text)
                       ∅ (Some "SCHEMA_VERIFIER_ERROR"))
            end
        end
  end.

(** *** verifiers/__init__.py *)

(** [MockVerifier.verify]: the descriptor's [should_pass], [score] and
    [details], read at the types the result dataclass declares. *)
Definition MockVerifier_verify (request : VerificationRequest)
  : Exn + VerificationResult :=
  let should_pass := py_truthy (dict_get (rq_config request) "should_pass" (VBool true)) in
  let score :=
    match dict_get (rq_config request) "score"
            (VFloat (if should_pass then 1 else 0)) with
    | VFloat q => Some q
    | VInt z => Some (inject_Z z)
    | _ => None
    end in
  let details :=
    match dict_get (rq_config request) "details"
            (VStr (if should_pass then "Mock verification passed (dry-run mode)"
                   else "Mock verification failed (dry-run mode)")) with
    | VStr s => s
    | v => py_str v
    end in
  inr (mkResult should_pass score details
         {[ "mode" := VStr "dry-run"; "verifier" := VStr "mock" ]} None).

Definition verify (v : Verifier) (request : VerificationRequest)
  : Exn + VerificationResult :=
  match v with
  | CodeExecutionVerifier api_key timeout =>
      CodeExecutionVerifier_verify api_key timeout request
  | SemanticVerifier => SemanticVerifier_verify request
  | SchemaVerifier => SchemaVerifier_verify request
  | MockVerifier => MockVerifier_verify request
  end.

(** [VerifierFactory.create]: the registry maps the four type names
    to their classes, each built without arguments. *)
Definition VerifierFactory_create (logic : gmap string pyval) : Exn + Verifier :=
  let v_type := dict_get logic "type" VNone in
  if negb (py_truthy v_type) then
    inl (ValueError "verification_logic must contain a 'type' key.")
  else
    match v_type with
    | VStr "code_execution" => inr (CodeExecutionVerifier None None)
    | VStr "semantic" => inr SemanticVerifier
    | VStr "schema" => inr SchemaVerifier
    | VStr "mock" => inr MockVerifier
    | VList _ | VDict _ => inl (TypeError "unhashable type")
    | _ => inl (ValueError "Unknown verifier type.")
    end.

(** ** services/verification_service.py *)

Definition verify_latest_submission (contract_id : uuid) : M VerificationResult :=
  do contract <- EscrowService.start_verification contract_id;
  do found <- SubmissionRepository.get_by_contract contract_id;
  match found with
  | [] =>
      let result :=
        mkResult false None "No submissions found for this contract." ∅
                 (Some "NO_SUBMISSIONS") in
      do placeholder <- uuid4;
      do_ EscrowService.record_verification_failed contract_id placeholder
            (to_dict result);
      ret result
  | latest_submission :: _ =>
      match VerifierFactory_create (verification_logic contract) with
      | inl err => raise err
      | inr verifier =>
          let request :=
            mkRequest (pretty contract_id) (s_payload latest_submission)
                      (verification_logic contract) (requirements_schema contract) in
          match verify verifier request with
          | inl err => raise err
          | inr result =>
              if is_valid result then
                do_ EscrowService.record_verification_passed contract_id
                      (s_id latest_submission) (to_dict result);
                ret result
              else
                do_ EscrowService.record_verification_failed contract_id
                      (s_id latest_submission) (to_dict result);
                ret result
          end
      end
  end.

End Verifiers.

(** ** services/payment_service.py *)

Section Payments.

(** [UUID.hex]: the 32 hexadecimal digits of an identifier. *)
Variable uuid_hex : uuid -> string.
(** The ERC-20 transfer of the path that is not simulated: what it
    raised, or the result it returned. *)
Variable erc20_transfer : string -> Q -> string -> Exn + string.

(** [CdpEvmWalletProvider(...).get_address()] of the path that is not
    simulated: what the provider raised, or the address. *)
Variable cdp_wallet_address : Exn + string.

(** [PaymentService(simulate).create_escrow_wallet] *)
Definition create_escrow_wallet (simulate : bool) : M string :=
  if simulate then
    do a <- uuid4;
    ret ("0x" ++ py_take 40 (uuid_hex a))
  else
    match cdp_wallet_address with
    | inl exc => raise exc
    | inr address => ret address
    end.

(** [PaymentService(simulate).transfer_to_worker]: the simulated hash
    is built from two fresh identifiers. *)
Definition transfer_to_worker (simulate : bool) (worker : string) (amount : Q)
    (escrow_wallet : string) : M string :=
  if simulate then
    do a <- uuid4;
    do b <- uuid4;
    ret ("0x" ++ uuid_hex a ++ py_take 2 (uuid_hex b))
  else
    match erc20_transfer worker amount escrow_wallet with
    | inl exc => raise exc
    | inr result => ret result
    end.

End Payments.

(** ** orchestration/escrow_graph.py *)

(** [EscrowWorkflowState]; the key [submission_id] is absent until the
    submission has been stored. *)
Record EscrowWorkflowState := mkWorkflowState {
  wf_contract_id : string;
  wf_submission_id : option string;
  wf_payload : string;
  wf_worker_wallet : string;
  wf_verification_passed : bool;
  wf_verification_result : gmap string pyval;
  wf_settlement_tx_hash : string;
  wf_final_status : string;
  wf_error : string
}.

(** Assignments to keys of the state. *)
Definition set_wf_submission_id (v : string) (st : EscrowWorkflowState)
  : EscrowWorkflowState :=
  mkWorkflowState (wf_contract_id st) (Some v) (wf_payload st) (wf_worker_wallet st)
    (wf_verification_passed st) (wf_verification_result st)
    (wf_settlement_tx_hash st) (wf_final_status st) (wf_error st).

Definition set_wf_verification (res : gmap string pyval) (passed : bool)
    (st : EscrowWorkflowState) : EscrowWorkflowState :=
  mkWorkflowState (wf_contract_id st) (wf_submission_id st) (wf_payload st)
    (wf_worker_wallet st) passed res
    (wf_settlement_tx_hash st) (wf_final_status st) (wf_error st).

Definition set_wf_settlement_tx_hash (v : string) (st : EscrowWorkflowState)
  : EscrowWorkflowState :=
  mkWorkflowState (wf_contract_id st) (wf_submission_id st) (wf_payload st)
    (wf_worker_wallet st) (wf_verification_passed st) (wf_verification_result st)
    v (wf_final_status st) (wf_error st).

Definition set_wf_final_status (v : string) (st : EscrowWorkflowState)
  : EscrowWorkflowState :=
  mkWorkflowState (wf_contract_id st) (wf_submission_id st) (wf_payload st)
    (wf_worker_wallet st) (wf_verification_passed st) (wf_verification_result st)
    (wf_settlement_tx_hash st) v (wf_error st).

Definition set_wf_error (v : string) (st : EscrowWorkflowState) : EscrowWorkflowState :=
  mkWorkflowState (wf_contract_id st) (wf_submission_id st) (wf_payload st)
    (wf_worker_wallet st) (wf_verification_passed st) (wf_verification_result st)
    (wf_settlement_tx_hash st) (wf_final_status st) v.

(** [contract.settlement_tx_hash = tx_hash] *)
Definition set_settlement_tx_hash (v : option string) (c : EscrowContract)
  : EscrowContract :=
  mkContract (c_id c) (buyer_wallet c) (worker_wallet c) (amount_usdc c)
    (escrow_wallet_address c) (funding_tx_hash c) v
    (status c) (description c) (requirements_schema c) (verification_logic c)
    (max_retries c) (retry_count c).

Section Workflow.

Variable settings : Settings.
Variable py_str : pyval -> string.
Variable py_float : string -> option pyfloat.
Variable run_in_sandbox : string -> string -> pyval -> SandboxOutcome.
Variable acompletion : nat -> string -> string + option string.
Variable json_loads : string -> string + pyval.
Variable iter_errors : gmap string pyval -> pyval -> ValidatorOutcome.
Variable uuid_hex : uuid -> string.
Variable erc20_transfer : string -> Q -> string -> Exn + string.
(** [str(exc)] *)
Variable exn_str : Exn -> string.

(** The [except Exception as exc] clause. *)
Definition workflow_except (exc : Exn) (state : EscrowWorkflowState)
  : EscrowWorkflowState :=
  set_wf_final_status "ERROR" (set_wf_error (exn_str exc) state).

(** One awaited call inside the [try] block, made with the state as
    it stands: when the call raises, the block ends in the handler and
    the function returns the state the handler leaves. *)
Definition awaited {A} (state : EscrowWorkflowState) (m : M A)
    (k : A -> M EscrowWorkflowState) : M EscrowWorkflowState :=
  fun s =>
    match m s with
    | (inr a, s') => k a s'
    | (inl exc, s') => (inr (workflow_except exc state), s')
    end.

(** [run_escrow_workflow], from the parsed contract id on. *)
Definition run_escrow_workflow (contract_id : uuid) (payload : string)
    (worker : option string) : M EscrowWorkflowState :=
  let state :=
    mkWorkflowState (pretty contract_id) None payload
      (default "" (py_or worker (Some ""))) false ∅ "" "" "" in
  awaited state (EscrowService.submit_work contract_id payload worker)
    (fun submission =>
  let state := set_wf_submission_id (pretty (s_id submission)) state in
  awaited state
    (verify_latest_submission settings py_str py_float run_in_sandbox acompletion
       json_loads iter_errors contract_id)
    (fun result =>
  let state := set_wf_verification (to_dict result) (is_valid result) state in
  if is_valid result then
    awaited state (EscrowService.get_contract contract_id) (fun contract =>
    awaited state
      (transfer_to_worker uuid_hex erc20_transfer true
         (default "" (py_or (py_or (worker_wallet contract) worker) (Some "")))
         (amount_usdc contract)
         (default "" (py_or (escrow_wallet_address contract) (Some ""))))
      (fun tx_hash =>
    do_ store_contract (set_settlement_tx_hash (Some tx_hash) contract);
    ret (set_wf_final_status "COMPLETED" (set_wf_settlement_tx_hash tx_hash state))))
  else
    awaited state (EscrowService.get_contract contract_id) (fun contract =>
    ret (set_wf_final_status (status contract) state)))).

End Workflow.

(** ** domain/exceptions.py *)


(** ** api/middleware.py *)



(** ** mcp_server/tools.py *)

Section Tools.

(** [Decimal(str(x))] on a float, [str] on a decimal and on an exception. *)
Variable decimal_of_float : Q -> Q.
Variable decimal_str : Q -> string.
Variable exn_str : Exn -> string.

(** The [create_escrow] tool.  A tool works on a session of its own,
    which it commits when its body has returned and drops when the
    body raised.  The tool has no parameter for a requirements schema. *)
Definition create_escrow (buyer : string) (amount : Q) (descr : string)
    (verification_type : string) (verification_timeout : Z)
    (expected_output criteria : string) (retries : Z) : M (gmap string pyval) :=
  let logic : gmap string pyval := {[ "type" := VStr verification_type ]} in
  let logic :=
    if String.eqb verification_type "code_execution" then
      let logic := <[ "timeout" := VInt verification_timeout ]> logic in
      if negb (String.eqb expected_output "")
      then <[ "expected_output" := VStr expected_output ]> logic
      else logic
    else if String.eqb verification_type "semantic" then
      <[ "criteria" := VStr criteria ]> logic
    else logic in
  fun s =>
    match EscrowService.create_contract buyer (decimal_of_float amount) descr logic
            None retries s with
    | (inr contract, s') =>
        (inr {[ "contract_id" := VStr (pretty (c_id contract));
                "status" := VStr (status contract);
                "buyer_wallet" := VStr (buyer_wallet contract);
                "amount_usdc" := VStr (decimal_str (amount_usdc contract));
                "description" := opt_str (description contract);
                "verification_logic" := VDict (verification_logic contract);
                "max_retries" := VInt (max_retries contract);
                "message" := VStr "Contract created. Next step: fund the contract." ]},
         s')
    | (inl exc, _) => (inr {[ "error" := VStr (exn_str exc) ]}, s)
    end.

End Tools.

(* ===================================================================== *)
(** * Part II. The vocabulary of the specification *)
(* ===================================================================== *)

(** The transition table of the specification, section 4.1, row by row:
    the target of an event fired in a state, where the table lists one. *)
Definition spec_target (s : EscrowStatus) (e : SMEvent) : option EscrowStatus :=
  match e, s with
  | on_chain_confirmed, CREATED => Some FUNDED
  | timeout_expired, CREATED => Some FAILED
  | worker_accepts, FUNDED => Some IN_PROGRESS
  | worker_submits, IN_PROGRESS => Some SUBMITTED
  | auto_verify, SUBMITTED => Some VERIFYING
  | verification_passed, VERIFYING => Some COMPLETED
  | verification_failed_retry, VERIFYING => Some IN_PROGRESS
  | max_retries_exceeded, VERIFYING => Some FAILED
  | buyer_disputes, FUNDED => Some DISPUTED
  | buyer_disputes, IN_PROGRESS => Some DISPUTED
  | dispute_resolved_for_worker, DISPUTED => Some COMPLETED
  | dispute_resolved_for_buyer, DISPUTED => Some FAILED
  | _, _ => None
  end.

Definition all_events : list SMEvent :=
  [ on_chain_confirmed; timeout_expired; worker_accepts; worker_submits;
    auto_verify; verification_passed; verification_failed_retry;
    max_retries_exceeded; buyer_disputes; dispute_resolved_for_worker;
    dispute_resolved_for_buyer ].

(** The events the table lists for a state. *)
Definition spec_events_of (s : EscrowStatus) : list SMEvent :=
  List.filter (fun e => match spec_target s e with Some _ => true | None => false end)
              all_events.

(** The canonical mapping from events to audit event types, section 4.1. *)
Definition spec_event_type (e : SMEvent) : EventType :=
  match e with
  | on_chain_confirmed => CONTRACT_FUNDED
  | worker_accepts => WORKER_ASSIGNED
  | worker_submits => WORK_SUBMITTED
  | auto_verify => VERIFICATION_STARTED
  | verification_passed => VERIFICATION_PASSED
  | verification_failed_retry => VERIFICATION_FAILED
  | max_retries_exceeded => MAX_RETRIES_EXCEEDED
  | buyer_disputes => DISPUTE_RAISED
  | dispute_resolved_for_worker => DISPUTE_RESOLVED_WORKER
  | dispute_resolved_for_buyer => DISPUTE_RESOLVED_BUYER
  | timeout_expired => CONTRACT_EXPIRED
  end.

(** The state-changing operations of the escrow service, with their arguments. *)
Inductive Op :=
| OpCreate (buyer : string) (amount : Q) (descr : string)
    (logic : gmap string pyval) (schema : option (gmap string pyval)) (retries : Z)
| OpFund (cid : uuid) (tx_hash wallet : string)
| OpAccept (cid : uuid) (worker : string)
| OpSubmit (cid : uuid) (work : string) (worker : option string)
| OpStartVerification (cid : uuid)
| OpPassed (cid sid : uuid) (result : gmap string pyval)
| OpFailed (cid sid : uuid) (result : gmap string pyval)
| OpDispute (cid : uuid) (reason raised_by : string).

(** Running a computation for its effect: the exception it raised, if
    any, and the session it left. *)
Definition outcome {A} (m : M A) (s : Session) : option Exn * Session :=
  match m s with
  | (inr _, s') => (None, s')
  | (inl err, s') => (Some err, s')
  end.

Definition exec (op : Op) : Session -> option Exn * Session :=
  match op with
  | OpCreate buyer amount descr logic schema retries =>
      outcome (EscrowService.create_contract buyer amount descr logic schema retries)
  | OpFund cid tx_hash wallet => outcome (EscrowService.fund_contract cid tx_hash wallet)
  | OpAccept cid worker => outcome (EscrowService.accept_contract cid worker)
  | OpSubmit cid work worker => outcome (EscrowService.submit_work cid work worker)
  | OpStartVerification cid => outcome (EscrowService.start_verification cid)
  | OpPassed cid sid result =>
      outcome (EscrowService.record_verification_passed cid sid result)
  | OpFailed cid sid result =>
      outcome (EscrowService.record_verification_failed cid sid result)
  | OpDispute cid reason raised_by =>
      outcome (EscrowService.raise_dispute cid reason raised_by)
  end.

(** The contract an operation addresses; creation addresses none. *)
Definition op_contract (op : Op) : option uuid :=
  match op with
  | OpCreate _ _ _ _ _ _ => None
  | OpFund cid _ _ | OpAccept cid _ | OpSubmit cid _ _ | OpStartVerification cid
  | OpPassed cid _ _ | OpFailed cid _ _ | OpDispute cid _ _ => Some cid
  end.

(** The state-machine event an operation fires on a contract. *)
Definition op_event (op : Op) (before : EscrowContract) : option SMEvent :=
  match op with
  | OpCreate _ _ _ _ _ _ => None
  | OpFund _ _ _ => Some on_chain_confirmed
  | OpAccept _ _ => Some worker_accepts
  | OpSubmit _ _ _ => Some worker_submits
  | OpStartVerification _ => Some auto_verify
  | OpPassed _ _ _ => Some verification_passed
  | OpFailed _ _ _ =>
      if (retry_count before + 1 <? max_retries before)%Z
      then Some verification_failed_retry else Some max_retries_exceeded
  | OpDispute _ _ _ => Some buyer_disputes
  end.

(** A run of operations, each on the session the previous one left,
    whether it returned or raised. *)
Definition run_all (ops : list Op) (s : Session) : Session :=
  fold_left (fun acc op => snd (exec op acc)) ops s.

(** [get_events]: the audit trail of one contract, oldest first. *)
Definition events_of (cid : uuid) (s : Session) : list EscrowEvent :=
  List.filter (fun x => Nat.eqb (e_contract_id x) cid) (events s).

(** A trail is chained when each event starts from the status the
    previous one reached; [prev] is the status before the first event. *)
Fixpoint chained (prev : option string) (l : list EscrowEvent) : Prop :=
  match l with
  | [] => True
  | ev :: rest => old_status ev = prev /\ chained (Some (new_status ev)) rest
  end.


(** The status a trail ends in. *)
Fixpoint trail_end (prev : option string) (l : list EscrowEvent) : option string :=
  match l with
  | [] => prev
  | ev :: rest => trail_end (Some (new_status ev)) rest
  end.

(** Every contract is stored under its own primary key. *)
Definition keyed (s : Session) : Prop :=
  forall k c, contracts s !! k = Some c -> c_id c = k.

(** What one call does to the part of the session the audit trail
    speaks about: it raises and leaves statuses and trail alone; or it
    moves one contract along a row of the table and appends the
    matching event; or it adds a contract together with its creation
    event. *)
Inductive effect (op : Op) (s : Session) : option Exn * Session -> Prop :=
| eff_raise err s' :
    events s' = events s ->
    (forall k, status <$> contracts s' !! k = status <$> contracts s !! k) ->
    (forall k, c_id <$> contracts s' !! k = c_id <$> contracts s !! k) ->
    (next_uuid s <= next_uuid s')%nat ->
    effect op s (Some err, s')
| eff_step cid c c' ev e st t s' :
    op_contract op = Some cid ->
    contracts s !! cid = Some c ->
    op_event op c = Some e ->
    status c = status_value st ->
    spec_target st e = Some t ->
    contracts s' !! cid = Some c' ->
    c_id c' = cid ->
    status c' = status_value t ->
    (forall k, k <> cid -> contracts s' !! k = contracts s !! k) ->
    events s' = (events s ++ [ev])%list ->
    e_contract_id ev = cid ->
    event_type ev = event_type_value (spec_event_type e) ->
    old_status ev = Some (status c) ->
    new_status ev = status c' ->
    (next_uuid s <= next_uuid s')%nat ->
    effect op s (None, s')
| eff_new c ev s' :
    op_contract op = None ->
    contracts s' = <[next_uuid s := c]> (contracts s) ->
    c_id c = next_uuid s ->
    status c = status_value CREATED ->
    events s' = (events s ++ [ev])%list ->
    e_contract_id ev = next_uuid s ->
    event_type ev = event_type_value CONTRACT_CREATED ->
    old_status ev = None ->
    new_status ev = status c ->
    (next_uuid s < next_uuid s')%nat ->
    effect op s (None, s').

(** The invariant of the audit trail: contracts sit under their own
    keys, below the next identifier; every event belongs to a stored
    contract; and the trail of each contract is chained from nothing to
    the contract's current status. *)
Definition trail_invariant (s : Session) : Prop :=
  keyed s
  /\ (forall k c, contracts s !! k = Some c -> (k < next_uuid s)%nat)
  /\ (forall ev, ev ∈ events s -> is_Some (contracts s !! e_contract_id ev))
  /\ (forall k c, contracts s !! k = Some c ->
        chained None (events_of k s)
        /\ trail_end None (events_of k s) = Some (status c)).

(** The submissions after [update_verification] on the one found
    under [sid], if any. *)
Definition mark_submission (sid : uuid) (valid : bool) (result : gmap string pyval)
    (subs : list WorkSubmission) : list WorkSubmission :=
  match List.find (fun x => Nat.eqb (s_id x) sid) subs with
  | Some sub =>
      (fun x => if Nat.eqb (s_id x) (s_id sub)
                then set_verification valid result x else x) <$> subs
  | None => subs
  end.

(** Sessions used as concrete inputs: scenario 3 of the specification
    (a code-execution contract expecting "Hello, World!") after create,
    fund and accept; and the same after one submission has been put
    under verification. *)
Definition demo_logic : gmap string pyval :=
  {[ "type" := VStr "code_execution";
     "timeout" := VInt 10;
     "expected_output" := VStr "Hello, World!" ]}.

Definition demo_in_progress (retries : Z) : Session :=
  run_all [ OpCreate "0xBUYER" 100 "Write a script that prints 'Hello, World!'"
              demo_logic None retries;
            OpFund 0 "0xFUNDING" "0xESCROW";
            OpAccept 0 "0xWORKER" ]
          empty_session.



(** One bad or good submission as the callers make it: the work is
    submitted and the latest submission is then verified. *)
Definition submit_and_verify (settings : Settings) (py_str : pyval -> string)
    (py_float : string -> option pyfloat)
    (run_in_sandbox : string -> string -> pyval -> SandboxOutcome)
    (acompletion : nat -> string -> string + option string)
    (json_loads : string -> string + pyval)
    (iter_errors : gmap string pyval -> pyval -> ValidatorOutcome)
    (cid : uuid) (work : string) (worker : option string) : M VerificationResult :=
  do_ EscrowService.submit_work cid work worker;
  verify_latest_submission settings py_str py_float run_in_sandbox acompletion
    json_loads iter_errors cid.

(** The verifier of a contract rejects whatever is submitted for it. *)
Definition rejects_everything (settings : Settings) (py_str : pyval -> string)
    (py_float : string -> option pyfloat)
    (run_in_sandbox : string -> string -> pyval -> SandboxOutcome)
    (acompletion : nat -> string -> string + option string)
    (json_loads : string -> string + pyval)
    (iter_errors : gmap string pyval -> pyval -> ValidatorOutcome)
    (cid : uuid) (c : EscrowContract) : Prop :=
  exists v, VerifierFactory_create (verification_logic c) = inr v
    /\ forall work, exists r,
         verify settings py_str py_float run_in_sandbox acompletion json_loads
           iter_errors v
           (mkRequest (pretty cid) work (verification_logic c) (requirements_schema c))
         = inr r
         /\ is_valid r = false.

(** A world for concrete runs: the sandbox key is configured and every
    run prints the malicious worker's line and exits with 0; the judge
    is unreachable; no payload parses as JSON. *)
Definition demo_settings : Settings := mkSettings "e2b-key" 30 "gemini/gemini-2.0-flash".
Definition demo_py_str (v : pyval) : string :=
  match v with VStr s => s | VInt z => pretty z | _ => "" end.
Definition demo_py_float (text : string) : option pyfloat := None.
Definition demo_sandbox (code key : string) (timeout : pyval) : SandboxOutcome :=
  Completed "I am a malicious agent! HAHAHA" "" 0.
Definition demo_acompletion (attempt : nat) (msg : string) : string + option string :=
  inl "connection refused".
Definition demo_json_loads (text : string) : string + pyval :=
  inl "Expecting value: line 1 column 1 (char 0)".
Definition demo_iter_errors (schema : gmap string pyval) (v : pyval) : ValidatorOutcome :=
  Errors [].

Definition demo_round : uuid -> string -> option string -> M VerificationResult :=
  submit_and_verify demo_settings demo_py_str demo_py_float demo_sandbox
    demo_acompletion demo_json_loads demo_iter_errors.

Definition demo_contract (st : EscrowStatus) (retries : Z) : EscrowContract :=
  mkContract 0 "0xBUYER" (Some "0xWORKER") 100 (Some "0xESCROW") (Some "0xFUNDING")
    None (status_value st) (Some "Write a script that prints 'Hello, World!'")
    None demo_logic retries 0.


(** A line of the judge's answer is a verdict line when, trimmed and
    upper-cased, it starts with [VERDICT:]; it reads TRUE when the text
    after its first colon, trimmed and upper-cased, is [TRUE]. *)
Definition is_verdict_line (raw : string) : bool :=
  py_startswith "VERDICT:" (py_upper (py_strip raw)).

Definition reads_true (raw : string) : bool :=
  is_verdict_line raw
  && match py_split1_snd COLON (py_strip raw) with
     | Some v => String.eqb (py_upper (py_strip v)) "TRUE"
     | None => false
     end.

(** The error taxonomy of the specification, section 7, and the codes
    the three strategies put into [error]. *)
Definition spec_error_codes : list string :=
  [ "SANDBOX_ERROR"; "EXECUTION_TIMEOUT"; "LLM_JUDGE_ERROR"; "INVALID_JSON";
    "INVALID_SCHEMA"; "MISSING_SCHEMA"; "MISSING_CRITERIA"; "MISSING_SANDBOX_KEY" ].

Definition strategy_error_codes : list string :=
  [ "SANDBOX_ERROR"; "EXECUTION_TIMEOUT"; "LLM_JUDGE_ERROR"; "INVALID_JSON";
    "INVALID_SCHEMA"; "MISSING_SCHEMA"; "MISSING_CRITERIA"; "MISSING_E2B_API_KEY";
    "SCHEMA_VERIFIER_ERROR" ].



(** Scenario 4 of the specification: the schema asks for a name and a
    non-negative age, the payload has only the name, and the validator
    reports the missing property at the root. *)
Definition demo_schema : gmap string pyval :=
  {[ "type" := VStr "object";
     "required" := VList [VStr "name"; VStr "age"] ]}.

Definition demo_missing_age : ValidationError :=
  mkValidationError [] "'age' is a required property" [PKey "required"].

Definition demo_validator (schema : gmap string pyval) (v : pyval) : ValidatorOutcome :=
  match v with
  | VDict d => match d !! "age" with
               | Some _ => Errors []
               | None => if bool_decide (schema = ∅) then Errors []
                         else Errors [demo_missing_age]
               end
  | _ => Errors []
  end.

Definition quoted (text : string) : string :=
  String (ascii_of_nat 34) (text ++ String (ascii_of_nat 34) EmptyString)%string.

(** The payload [{"name": "Alice"}]. *)
Definition demo_alice : string :=
  ("{" ++ quoted "name" ++ ": " ++ quoted "Alice" ++ "}")%string.

Definition demo_loads (text : string) : string + pyval :=
  if String.eqb text "{}" then inr (VDict ∅)
  else if String.eqb text demo_alice
       then inr (VDict {[ "name" := VStr "Alice" ]})
       else inl "Expecting value: line 1 column 1 (char 0)".

(** Scenario 1 of the specification: the sandbox prints a line that
    contains 55. *)
Definition demo_sandbox_55 (code key : string) (timeout : pyval) : SandboxOutcome :=
  Completed "The answer is 55, hooray!" "" 0.

Definition demo_sandbox_bare_55 (code key : string) (timeout : pyval) : SandboxOutcome :=
  Completed "55" "" 0.

Definition demo_request (expected : string) : VerificationRequest :=
  mkRequest "0" "print(55)"
    {[ "type" := VStr "code_execution"; "timeout" := VInt 30;
       "expected_output" := VStr expected ]}
    None.

Definition demo_schema_request (work : string) (schema : option (gmap string pyval))
  : VerificationRequest :=
  mkRequest "0" work {[ "type" := VStr "schema" ]} schema.

(** Scenario 2 of the specification: the expected output is 5050, and
    the sandbox prints what the submitted one-liner computes. *)
Definition demo_logic_5050 : gmap string pyval :=
  {[ "type" := VStr "code_execution";
     "timeout" := VInt 30;
     "expected_output" := VStr "5050" ]}.

Definition demo_sandbox_sum (code key : string) (timeout : pyval) : SandboxOutcome :=
  if String.eqb code "print(5000)" then Completed "5000" "" 0
  else Completed "5050" "" 0.

Definition demo_scenario_2 : Session :=
  let round := submit_and_verify demo_settings demo_py_str demo_py_float
                 demo_sandbox_sum demo_acompletion demo_json_loads demo_iter_errors in
  let s0 := run_all [ OpCreate "0xBUYER" 75 "Print the sum of 1 to 100."
                        demo_logic_5050 None 3;
                      OpFund 0 "0xFUNDING" "0xESCROW";
                      OpAccept 0 "0xWORKER" ] empty_session in
  let s1 := snd (round 0 "print(5000)" None s0) in
  snd (round 0 "print(sum(range(1, 101)))" None s1).

(** ** What a run of operations can change *)

(** The terms of a contract: what the buyer wrote at creation, and the
    settlement reference the service itself never writes. *)
Definition same_terms (c c' : EscrowContract) : Prop :=
  c_id c' = c_id c
  /\ buyer_wallet c' = buyer_wallet c
  /\ amount_usdc c' = amount_usdc c
  /\ description c' = description c
  /\ requirements_schema c' = requirements_schema c
  /\ verification_logic c' = verification_logic c
  /\ max_retries c' = max_retries c
  /\ settlement_tx_hash c' = settlement_tx_hash c.

Definition same_funding (c c' : EscrowContract) : Prop :=
  funding_tx_hash c' = funding_tx_hash c
  /\ escrow_wallet_address c' = escrow_wallet_address c.

(** Whether a call returned. *)
Definition succeeded (r : option Exn * Session) : bool :=
  match fst r with None => true | Some _ => false end.

(** What one call may do to a stored contract: the terms stay; the
    retry counter stays or, for [record_verification_failed] on that
    contract, grows by one; the worker is written by an accepted
    [accept_contract] on a contract without one, and only then; the
    funding references are written by an accepted [fund_contract] on a
    contract in CREATED, and only then. *)
Definition op_frame (op : Op) (ok : bool) (k : uuid) (c c' : EscrowContract) : Prop :=
  same_terms c c'
  /\ (retry_count c' = retry_count c
      \/ (retry_count c' = (retry_count c + 1)%Z
          /\ exists sid res, op = OpFailed k sid res))
  /\ match op with
     | OpAccept cid w =>
         if ok && Nat.eqb cid k
         then worker_wallet c = None /\ worker_wallet c' = Some w
         else worker_wallet c' = worker_wallet c
     | _ => worker_wallet c' = worker_wallet c
     end
  /\ match op with
     | OpFund cid tx w =>
         if ok && Nat.eqb cid k
         then status c = status_value CREATED
              /\ funding_tx_hash c' = Some tx /\ escrow_wallet_address c' = Some w
         else same_funding c c'
     | _ => same_funding c c'
     end.

(** The calls of [record_verification_failed] on a contract in a run. *)
Definition count_failed_calls (k : uuid) (ops : list Op) : Z :=
  Z.of_nat (length (List.filter
    (fun op => match op with OpFailed cid _ _ => Nat.eqb cid k | _ => false end) ops)).

(** What a run may have done to a contract that saw at most [n] calls
    of [record_verification_failed]. *)
Definition evolves (n : Z) (c c' : EscrowContract) : Prop :=
  same_terms c c'
  /\ (retry_count c <= retry_count c' <= retry_count c + n)%Z
  /\ (forall w, worker_wallet c = Some w -> worker_wallet c' = Some w)
  /\ (status c <> status_value CREATED ->
      status c' <> status_value CREATED /\ same_funding c c').

(** The number of events of a type in a trail. *)
Definition count_type (t : EventType) (l : list EscrowEvent) : nat :=
  length (List.filter (fun ev => String.eqb (event_type ev) (event_type_value t)) l).

(** The events that happen once in the life of a contract, counted
    against what the contract row says. *)
Definition lifecycle_counts (c : EscrowContract) (l : list EscrowEvent) : Prop :=
  count_type CONTRACT_CREATED l = 1%nat
  /\ count_type CONTRACT_FUNDED l
     = (if String.eqb (status c) (status_value CREATED) then 0 else 1)%nat
  /\ count_type WORKER_ASSIGNED l
     = (match worker_wallet c with Some _ => 1 | None => 0 end)%nat
  /\ count_type VERIFICATION_PASSED l
     = (if String.eqb (status c) (status_value COMPLETED) then 1 else 0)%nat
  /\ count_type MAX_RETRIES_EXCEEDED l
     = (if String.eqb (status c) (status_value FAILED) then 1 else 0)%nat
  /\ count_type DISPUTE_RAISED l
     = (if String.eqb (status c) (status_value DISPUTED) then 1 else 0)%nat.

Definition counted (s : Session) : Prop :=
  forall k c, contracts s !! k = Some c -> lifecycle_counts c (events_of k s).

(** The statuses in which an operation is accepted. *)
Definition accepted_in (op : Op) : list EscrowStatus :=
  match op with
  | OpCreate _ _ _ _ _ _ => states
  | OpFund _ _ _ => [CREATED]
  | OpAccept _ _ => [FUNDED]
  | OpSubmit _ _ _ => [IN_PROGRESS]
  | OpStartVerification _ => [SUBMITTED]
  | OpPassed _ _ _ | OpFailed _ _ _ => [VERIFYING]
  | OpDispute _ _ _ => [FUNDED; IN_PROGRESS]
  end.

(** What the service answers to an operation on a stored contract in
    status [st]: the exception it raises, or nothing when the
    operation goes through. *)
Definition answer (op : Op) (c : EscrowContract) (st : EscrowStatus) : option Exn :=
  match op, worker_wallet c with
  | OpAccept cid _, Some _ => Some (WorkerAlreadyAssignedError cid)
  | _, _ =>
      if bool_decide (st ∈ accepted_in op) then None
      else match op_event op c with
           | Some e => Some (InvalidStateTransitionError (status_value st) (event_name e))
           | None => None
           end
  end.

(** The statuses no operation of the service leaves. *)
Definition settled (st : EscrowStatus) : bool :=
  match st with COMPLETED | FAILED | DISPUTED => true | _ => false end.

Definition demo_disputed : Session :=
  run_all [ OpCreate "0xBUYER" 100 "Write a script that prints 'Hello, World!'"
              demo_logic None 3;
            OpFund 0 "0xFUNDING" "0xESCROW"; OpAccept 0 "0xWORKER";
            OpDispute 0 "the worker never answered" "0xBUYER" ]
          empty_session.

Definition demo_after_dispute : list Op :=
  [ OpSubmit 0 "print(1)" None; OpFailed 0 7 ∅;
    OpDispute 0 "once more, with feeling" "0xBUYER" ].

(** A world for runs of the workflow: identifiers are rendered as 32
    digits, and [str] of an exception is the message the exception
    classes build. *)
Definition demo_uuid_hex (u : uuid) : string :=
  py_take 32 (pretty u ++ "00000000000000000000000000000000").

Definition demo_erc20_transfer (worker : string) (amount : Q) (wallet : string)
  : Exn + string :=
  inl (ValueError "no wallet provider configured").

Definition demo_exn_str (exc : Exn) : string :=
  match exc with
  | ValueError msg | TypeError msg | AttributeError msg => msg
  | TransitionNotAllowed e st =>
      "Can't " ++ event_name e ++ " when in " ++ status_value st ++ "."
  | InvalidStateTransitionError current attempted =>
      "Invalid state transition: " ++ current ++ " -> " ++ attempted
  | ContractNotFoundError cid => "Contract not found: " ++ pretty cid
  | WorkerAlreadyAssignedError cid =>
      "Worker already assigned to contract: " ++ pretty cid
  end.

(** The sandbox of scenario 1: every run prints the greeting. *)
Definition demo_sandbox_hello (code key : string) (timeout : pyval) : SandboxOutcome :=
  Completed "Hello, World!" "" 0.

Definition demo_workflow (sandbox : string -> string -> pyval -> SandboxOutcome)
  : uuid -> string -> option string -> M EscrowWorkflowState :=
  run_escrow_workflow demo_settings demo_py_str demo_py_float sandbox
    demo_acompletion demo_json_loads demo_iter_errors demo_uuid_hex
    demo_erc20_transfer demo_exn_str.

(** A descriptor whose expected output was written as a number. *)
Definition demo_logic_number : gmap string pyval :=
  {[ "type" := VStr "code_execution";
     "timeout" := VInt 10;
     "expected_output" := VInt 55 ]}.

Definition demo_number_contract : EscrowContract :=
  mkContract 0 "0xBUYER" (Some "0xWORKER") 100 (Some "0xESCROW") (Some "0xFUNDING")
    None (status_value IN_PROGRESS) (Some "Print the tenth Fibonacci number.")
    None demo_logic_number 3 0.

Definition demo_number_session : Session :=
  run_all [ OpCreate "0xBUYER" 100 "Print the tenth Fibonacci number."
              demo_logic_number None 3;
            OpFund 0 "0xFUNDING" "0xESCROW";
            OpAccept 0 "0xWORKER" ]
          empty_session.

(** Firing a sequence of events, stopping at the first refusal. *)
Definition fire_all (sm : EscrowStateMachine) (es : list SMEvent)
  : Exn + EscrowStateMachine :=
  fold_left (fun acc e => match acc with inr m => fire m e | inl exc => inl exc end)
            es (inr sm).

(** What a client can do to a session: call an operation of the
    service, or hand in work through the workflow. *)
Inductive Step :=
| StepOp (op : Op)
| StepWorkflow (cid : uuid) (work : string) (worker : option string).

Definition step (workflow : uuid -> string -> option string -> M EscrowWorkflowState)
    (st : Step) (s : Session) : Session :=
  match st with
  | StepOp op => snd (exec op s)
  | StepWorkflow cid work worker => snd (workflow cid work worker s)
  end.

Definition run_steps (workflow : uuid -> string -> option string -> M EscrowWorkflowState)
    (steps : list Step) (s : Session) : Session :=
  fold_left (fun acc st => step workflow st acc) steps s.

(** A contract no valid verdict can be given for: its verifier is the
    schema verifier and it has no requirements schema. *)
Definition unsatisfiable (c : EscrowContract) : Prop :=
  verification_logic c !! "type" = Some (VStr "schema")
  /\ requirements_schema c = None.

Definition demo_decimal_of_float (x : Q) : Q := x.
Definition demo_decimal_str (x : Q) : string :=
  pretty (Qnum x) ++ "/" ++ pretty (Z.pos (Qden x)).

(** A client of the tools: a schema contract is created, funded and
    accepted, and JSON is handed in three times. *)
Definition demo_schema_steps : list Step :=
  [ StepOp (OpFund 0 "0xFUNDING" "0xESCROW");
    StepOp (OpAccept 0 "0xWORKER");
    StepWorkflow 0 "{}" None;
    StepWorkflow 0 "[1, 2, 3]" (Some "0xWORKER");
    StepWorkflow 0 "null" None ].

(** A contract for a dry run, as the public factory accepts it. *)
Definition demo_logic_mock : gmap string pyval := {[ "type" := VStr "mock" ]}.

Definition demo_mock_contract : EscrowContract :=
  mkContract 0 "0xBUYER" (Some "0xWORKER") 100 (Some "0xESCROW") (Some "0xFUNDING")
    None (status_value IN_PROGRESS) (Some "Anything at all.")
    None demo_logic_mock 3 0.

Definition demo_mock_session : Session :=
  run_all [ OpCreate "0xBUYER" 100 "Anything at all." demo_logic_mock None 3;
            OpFund 0 "0xFUNDING" "0xESCROW";
            OpAccept 0 "0xWORKER" ]
          empty_session.

(* ===================================================================== *)
(** * Part III. Properties *)
(* ===================================================================== *)

Local Open Scope list_scope.

(** ** The state machine *)

Lemma status_value_inj s t : status_value s = status_value t -> s = t.
Proof. destruct s, t; simpl; intros H; first [reflexivity | discriminate H]. Qed.

Lemma find_status_value s :
  List.find (fun x => String.eqb (status_value x) (status_value s)) states = Some s.
Proof. destruct s; reflexivity. Qed.

Lemma status_value_elem s : status_value s ∈ status_value <$> states.
Proof. destruct s; simpl; set_solver. Qed.

Lemma elem_status_value str :
  str ∈ status_value <$> states -> exists s, str = status_value s.
Proof.
  intros H. apply list_elem_of_fmap in H as (s & -> & _). by exists s.
Qed.

(** Construction succeeds exactly on the eight status values. *)
Lemma init_known s : EscrowStateMachine_init (status_value s) = inr (mkMachine s).
Proof.
  unfold EscrowStateMachine_init.
  rewrite bool_decide_eq_true_2 by apply status_value_elem.
  by rewrite find_status_value.
Qed.

Lemma init_unknown str :
  (forall s, status_value s <> str) ->
  exists msg, EscrowStateMachine_init str = inl (ValueError msg).
Proof.
  intros H. unfold EscrowStateMachine_init.
  rewrite bool_decide_eq_false_2; [eauto|].
  intros [s ->]%elem_status_value. by apply (H s).
Qed.

Lemma init_cases str :
  (exists s, str = status_value s /\ EscrowStateMachine_init str = inr (mkMachine s))
  \/ ((forall s, status_value s <> str)
      /\ exists msg, EscrowStateMachine_init str = inl (ValueError msg)).
Proof.
  destruct (decide (str ∈ status_value <$> states)) as [Hin|Hout].
  - left. apply elem_status_value in Hin as [s ->]. exists s. split; [done|apply init_known].
  - right. assert (forall s, status_value s <> str) as H.
    { intros s <-. apply Hout, status_value_elem. }
    split; [done|by apply init_unknown].
Qed.

(** Firing follows the table, and nothing else. *)
Lemma fire_table s e :
  fire (mkMachine s) e =
  match spec_target s e with
  | Some t => inr (mkMachine t)
  | None => inl (TransitionNotAllowed e s)
  end.
Proof. destruct s, e; reflexivity. Qed.

Lemma allowed_events_table s : allowed_events (mkMachine s) = spec_events_of s.
Proof. destruct s; reflexivity. Qed.

(** C1. The machine realizes exactly the transition table of section
    4.1: started at any of the eight status values it reports that
    status; an event the table lists for the current state moves to the
    listed target, and any other event fails with
    [TransitionNotAllowed] carrying the attempted event and the current
    state; the events it reports as allowed are the listed ones; a
    start string that is none of the eight values is refused; and
    COMPLETED and FAILED allow no event. *)
Theorem C1_state_machine_realizes_table :
  (forall s : EscrowStatus,
      EscrowStateMachine_init (status_value s) = inr (mkMachine s)
      /\ sm_status (mkMachine s) = status_value s)
  /\ (forall (s t : EscrowStatus) (e : SMEvent),
        spec_target s e = Some t -> fire (mkMachine s) e = inr (mkMachine t))
  /\ (forall (s : EscrowStatus) (e : SMEvent),
        spec_target s e = None ->
        fire (mkMachine s) e = inl (TransitionNotAllowed e s))
  /\ (forall s : EscrowStatus, allowed_events (mkMachine s) = spec_events_of s)
  /\ (forall str : string,
        (forall s, status_value s <> str) ->
        exists msg, EscrowStateMachine_init str = inl (ValueError msg))
  /\ get_allowed_events (mkMachine COMPLETED) = []
  /\ get_allowed_events (mkMachine FAILED) = [].
Proof.
  repeat split.
  - apply init_known.
  - intros s t e H. by rewrite fire_table, H.
  - intros s e H. by rewrite fire_table, H.
  - apply allowed_events_table.
  - apply init_unknown.
Qed.

(** ** The escrow service *)

Ltac monad_simpl :=
  unfold EscrowService._get_contract_or_raise, EscrowRepository.get_by_id,
    EscrowRepository.update_status, EscrowRepository.increment_retry,
    SubmissionRepository.get_by_id, SubmissionRepository.update_verification,
    SubmissionRepository.create, SubmissionRepository.get_by_contract,
    EventRepository.record, EscrowRepository.create,
    store_contract, uuid4, bind, ret, raise in *; simpl in *.

Lemma fire_transition_ok c e s t sess :
  status c = status_value s -> spec_target s e = Some t ->
  EscrowService._fire_transition c e sess = (inr tt, sess).
Proof.
  intros Hs Ht. unfold EscrowService._fire_transition.
  rewrite Hs, init_known, fire_table, Ht. reflexivity.
Qed.

Lemma fire_transition_illegal c e s sess :
  status c = status_value s -> spec_target s e = None ->
  EscrowService._fire_transition c e sess =
  (inl (InvalidStateTransitionError (status_value s) (event_name e)), sess).
Proof.
  intros Hs Ht. unfold EscrowService._fire_transition.
  rewrite Hs, init_known, fire_table, Ht. reflexivity.
Qed.

Lemma fire_transition_cases c e sess :
  (exists s t, status c = status_value s /\ spec_target s e = Some t
               /\ EscrowService._fire_transition c e sess = (inr tt, sess))
  \/ (exists err, EscrowService._fire_transition c e sess = (inl err, sess)).
Proof.
  destruct (init_cases (status c)) as [(s & Hs & _)|(_ & msg & Hm)].
  - destruct (spec_target s e) as [t|] eqn:Ht.
    + left. exists s, t. eauto using fire_transition_ok.
    + right. eexists. by apply fire_transition_illegal.
  - right. exists (ValueError msg). unfold EscrowService._fire_transition.
    by rewrite Hm.
Qed.

Lemma spec_target_src e s t : spec_target s e = Some t ->
  match e with
  | on_chain_confirmed => s = CREATED /\ t = FUNDED
  | worker_accepts => s = FUNDED /\ t = IN_PROGRESS
  | worker_submits => s = IN_PROGRESS /\ t = SUBMITTED
  | auto_verify => s = SUBMITTED /\ t = VERIFYING
  | verification_passed => s = VERIFYING /\ t = COMPLETED
  | verification_failed_retry => s = VERIFYING /\ t = IN_PROGRESS
  | max_retries_exceeded => s = VERIFYING /\ t = FAILED
  | buyer_disputes => (s = FUNDED \/ s = IN_PROGRESS) /\ t = DISPUTED
  | timeout_expired => s = CREATED /\ t = FAILED
  | dispute_resolved_for_worker => s = DISPUTED /\ t = COMPLETED
  | dispute_resolved_for_buyer => s = DISPUTED /\ t = FAILED
  end.
Proof. destruct e, s; simpl; intros [= <-]; auto. Qed.



Ltac quiet := by (constructor; simpl; auto with lia).

Ltac stepped cid c Hc Hid Hs :=
  eapply (eff_step _ _ cid c);
  [ reflexivity
  | exact Hc
  | simpl; reflexivity
  | exact Hs
  | reflexivity
  | simpl; rewrite ?Hid; apply lookup_insert_eq
  | simpl; first [exact Hid | reflexivity]
  | reflexivity
  | simpl; rewrite ?Hid; intros k Hne; rewrite ?lookup_insert_ne by done; reflexivity
  | simpl; reflexivity
  | simpl; rewrite ?Hid; reflexivity
  | reflexivity
  | simpl; rewrite ?Hs; reflexivity
  | reflexivity
  | simpl; lia ].

(** Every operation has one of the three effects. *)
Lemma exec_effect op s : keyed s -> effect op s (exec op s).
Proof.
  intros Hk.
  destruct op as [b a d l sc r|cid tx w|cid w|cid work w|cid|cid sid res|cid sid res|cid re who];
    unfold exec, outcome.
  - unfold EscrowService.create_contract. monad_simpl.
    eapply eff_new; simpl; eauto.
  - unfold EscrowService.fund_contract. monad_simpl.
    destruct (contracts s !! cid) as [c|] eqn:Hc; simpl; [|quiet].
    destruct (fire_transition_cases c on_chain_confirmed s)
      as [(st & t & Hs & Ht & ->)|(err & ->)]; simpl; [|quiet].
    apply spec_target_src in Ht as [-> ->]. pose proof (Hk _ _ Hc) as Hid.
    stepped cid c Hc Hid Hs.
  - unfold EscrowService.accept_contract. monad_simpl.
    destruct (contracts s !! cid) as [c|] eqn:Hc; simpl; [|quiet].
    destruct (worker_wallet c); [quiet|]. monad_simpl.
    destruct (fire_transition_cases c worker_accepts s)
      as [(st & t & Hs & Ht & ->)|(err & ->)]; simpl; [|quiet].
    apply spec_target_src in Ht as [-> ->]. pose proof (Hk _ _ Hc) as Hid.
    stepped cid c Hc Hid Hs.
  - unfold EscrowService.submit_work. monad_simpl.
    destruct (contracts s !! cid) as [c|] eqn:Hc; simpl; [|quiet].
    destruct (fire_transition_cases c worker_submits s)
      as [(st & t & Hs & Ht & ->)|(err & ->)]; simpl; [|quiet].
    apply spec_target_src in Ht as [-> ->]. pose proof (Hk _ _ Hc) as Hid.
    stepped cid c Hc Hid Hs.
  - unfold EscrowService.start_verification. monad_simpl.
    destruct (contracts s !! cid) as [c|] eqn:Hc; simpl; [|quiet].
    destruct (fire_transition_cases c auto_verify s)
      as [(st & t & Hs & Ht & ->)|(err & ->)]; simpl; [|quiet].
    apply spec_target_src in Ht as [-> ->]. pose proof (Hk _ _ Hc) as Hid.
    stepped cid c Hc Hid Hs.
  - unfold EscrowService.record_verification_passed. monad_simpl.
    destruct (contracts s !! cid) as [c|] eqn:Hc; simpl; [|quiet].
    destruct (fire_transition_cases c verification_passed s)
      as [(st & t & Hs & Ht & ->)|(err & ->)]; simpl; [|quiet].
    apply spec_target_src in Ht as [-> ->]. pose proof (Hk _ _ Hc) as Hid.
    destruct (find _ _); simpl; stepped cid c Hc Hid Hs.
  - unfold EscrowService.record_verification_failed. monad_simpl.
    destruct (contracts s !! cid) as [c|] eqn:Hc; simpl; [|quiet].
    pose proof (Hk _ _ Hc) as Hid.
    destruct (find _ _); simpl;
      destruct (Z.leb_spec (max_retries c) (retry_count c + 1)) as [Hle|Hlt];
      match goal with
      | |- context [EscrowService._fire_transition ?c' ?e ?s'] =>
          destruct (fire_transition_cases c' e s')
            as [(st & t & Hs & Ht & ->)|(err & ->)]; simpl
      end;
      try (apply spec_target_src in Ht as [-> ->]; pose proof Hs as Hs'; simpl in Hs';
           first [ apply Z.ltb_ge in Hle as Hb | apply Z.ltb_lt in Hlt as Hb ];
           eapply (eff_step _ _ cid c);
           [ reflexivity | exact Hc | simpl; rewrite Hb; reflexivity | exact Hs
           | reflexivity | simpl; rewrite ?Hid; apply lookup_insert_eq
           | simpl; exact Hid | reflexivity
           | simpl; rewrite ?Hid; intros k Hne; rewrite ?lookup_insert_ne by done;
             reflexivity
           | simpl; reflexivity | simpl; rewrite ?Hid; reflexivity | reflexivity
           | simpl; rewrite ?Hs'; reflexivity | reflexivity | simpl; lia ]).
    all: constructor; simpl; auto with lia; intros k; rewrite Hid;
      (destruct (decide (k = cid)) as [->|Hne];
       [rewrite lookup_insert_eq, Hc; simpl; congruence
       |by rewrite lookup_insert_ne]).
  - unfold EscrowService.raise_dispute. monad_simpl.
    destruct (contracts s !! cid) as [c|] eqn:Hc; simpl; [|quiet].
    destruct (EscrowStatus_of_value (status c)) as [old|] eqn:Hold; [|quiet].
    monad_simpl.
    destruct (fire_transition_cases c buyer_disputes s)
      as [(st & t & Hs & Ht & ->)|(err & ->)]; simpl; [|quiet].
    assert (old = st) as ->.
    { unfold EscrowStatus_of_value in Hold. rewrite Hs, find_status_value in Hold.
      congruence. }
    pose proof Ht as Ht'.
    apply spec_target_src in Ht' as [_ ->]. pose proof (Hk _ _ Hc) as Hid.
    eapply (eff_step _ _ cid c _ _ buyer_disputes st DISPUTED);
      [ reflexivity | exact Hc | reflexivity | exact Hs | exact Ht
      | simpl; rewrite ?Hid; apply lookup_insert_eq | simpl; exact Hid | reflexivity
      | simpl; rewrite ?Hid; intros k Hne; rewrite ?lookup_insert_ne by done;
        reflexivity
      | simpl; reflexivity | simpl; rewrite ?Hid; reflexivity | reflexivity
      | simpl; rewrite ?Hs; reflexivity | reflexivity | simpl; lia ].
Qed.

(** ** The audit trail *)

Lemma chained_snoc prev l ev :
  chained prev l -> old_status ev = trail_end prev l -> chained prev (l ++ [ev]).
Proof.
  revert prev. induction l as [|x l IH]; intros prev; simpl.
  - intros _ H. by split.
  - intros [H1 H2] H. split; [done|]. by apply IH.
Qed.

Lemma trail_end_snoc prev l ev : trail_end prev (l ++ [ev]) = Some (new_status ev).
Proof. revert prev. induction l as [|x l IH]; intros prev; simpl; [done|apply IH]. Qed.

Lemma events_of_snoc k s s' ev :
  events s' = events s ++ [ev] ->
  events_of k s' =
  events_of k s ++ (if Nat.eqb (e_contract_id ev) k then [ev] else []).
Proof. intros H. unfold events_of. rewrite H, List.filter_app. reflexivity. Qed.

Lemma events_of_absent s k :
  trail_invariant s -> contracts s !! k = None -> events_of k s = [].
Proof.
  intros (_ & _ & Hev & _) Hnone. unfold events_of.
  destruct (List.filter _ _) as [|ev l] eqn:Hf; [done|].
  assert (In ev (List.filter (fun x => Nat.eqb (e_contract_id x) k) (events s))) as Hin
    by (rewrite Hf; by left).
  apply List.filter_In in Hin as [Hin Heq]. apply Nat.eqb_eq in Heq.
  apply list_elem_of_In, Hev in Hin as [c Hc]. congruence.
Qed.

Lemma empty_invariant : trail_invariant empty_session.
Proof.
  unfold trail_invariant, keyed. simpl. split; [|split; [|split]].
  all: try (intros k c H; by rewrite lookup_empty in H).
  intros ev H. by apply elem_of_nil in H.
Qed.

(** Each of the three effects keeps the invariant. *)
Lemma effect_preserves op s rs :
  trail_invariant s -> effect op s rs -> trail_invariant (snd rs).
Proof.
  intros Hinv Heff. pose proof Hinv as (Hk & Hlt & Hev & Hch).
  destruct Heff as [err s' He Hst Hid Hn
                   |cid c c' ev e st t s' Hop Hc Hoe Hs Ht Hc' Hid' Hs' Hoth He Hecid Hety Hold Hnew Hn
                   |c ev s' Hop Hcs Hid Hs He Hecid Hety Hold Hnew Hn]; simpl.
  - (* raise *)
    assert (forall k c', contracts s' !! k = Some c' ->
              exists c, contracts s !! k = Some c /\ status c = status c' /\ c_id c = c_id c')
      as Hback.
    { intros k c' Hc'. specialize (Hst k). specialize (Hid k). rewrite Hc' in Hst, Hid.
      destruct (contracts s !! k) as [c|]; simpl in *; [|discriminate].
      exists c. repeat split; congruence. }
    split; [|split; [|split]].
    + intros k c' (c & Hc & _ & Hi)%Hback. rewrite <- Hi. by apply (Hk k).
    + intros k c' (c & Hc & _)%Hback. apply Hlt in Hc. lia.
    + intros ev. rewrite He. intros [c Hc]%Hev. specialize (Hst (e_contract_id ev)).
      rewrite Hc in Hst. destruct (contracts s' !! e_contract_id ev); [eauto|discriminate].
    + intros k c' (c & Hc & Hs0 & _)%Hback. unfold events_of. rewrite He, <- Hs0.
      by apply (Hch k c).
  - (* step *)
    destruct (Hch _ _ Hc) as [Hchain Hend].
    split; [|split; [|split]].
    + intros k c0 Hc0. destruct (decide (k = cid)) as [->|Hne].
      * congruence.
      * rewrite Hoth in Hc0 by done. by apply (Hk k).
    + intros k c0 Hc0. destruct (decide (k = cid)) as [->|Hne].
      * apply Hlt in Hc. lia.
      * rewrite Hoth in Hc0 by done. apply Hlt in Hc0. lia.
    + intros ev0. rewrite He.
      intros [Hin|Heq%list_elem_of_singleton]%elem_of_app;
        [|subst ev0; rewrite Hecid; eauto].
      destruct (decide (e_contract_id ev0 = cid)) as [Heq|Hne]; [rewrite Heq; eauto|].
      rewrite Hoth by done. by apply Hev.
    + intros k c0 Hc0. rewrite (events_of_snoc k s s' ev He), Hecid.
      destruct (Nat.eqb_spec cid k) as [<-|Hne].
      * split; [apply chained_snoc; [done|by rewrite Hend, Hold]|].
        rewrite trail_end_snoc. congruence.
      * rewrite app_nil_r. rewrite Hoth in Hc0 by done. by apply (Hch k c0).
  - (* new *)
    assert (contracts s !! next_uuid s = None) as Hfresh.
    { destruct (contracts s !! next_uuid s) eqn:Hx; [|done]. apply Hlt in Hx. lia. }
    split; [|split; [|split]].
    + intros k c0. rewrite Hcs. destruct (decide (k = next_uuid s)) as [->|Hne].
      * rewrite lookup_insert_eq. congruence.
      * rewrite lookup_insert_ne by done. by apply (Hk k).
    + intros k c0. rewrite Hcs. destruct (decide (k = next_uuid s)) as [->|Hne].
      * intros _. lia.
      * rewrite lookup_insert_ne by done. intros Hc0%Hlt. lia.
    + intros ev0. rewrite He, Hcs.
      intros [Hin|Heq%list_elem_of_singleton]%elem_of_app.
      * destruct (decide (e_contract_id ev0 = next_uuid s)) as [Heq|Hne].
        -- rewrite Heq, lookup_insert_eq. eauto.
        -- rewrite lookup_insert_ne by done. by apply Hev.
      * subst ev0. rewrite Hecid, lookup_insert_eq. eauto.
    + intros k c0. rewrite (events_of_snoc k s s' ev He), Hecid, Hcs.
      destruct (Nat.eqb_spec (next_uuid s) k) as [<-|Hne].
      * rewrite lookup_insert_eq. intros [= <-].
        rewrite (events_of_absent s _ Hinv Hfresh). simpl. split; [by rewrite Hold|].
        congruence.
      * rewrite app_nil_r, lookup_insert_ne by done. by apply (Hch k c0).
Qed.

Lemma exec_preserves op s : trail_invariant s -> trail_invariant (snd (exec op s)).
Proof.
  intros Hinv. pose proof (exec_effect op s (proj1 Hinv)) as Heff.
  by apply (effect_preserves op s (exec op s)).
Qed.

Lemma run_all_invariant ops s : trail_invariant s -> trail_invariant (run_all ops s).
Proof.
  revert s. induction ops as [|op ops IH]; intros s Hinv; [done|].
  apply IH. by apply exec_preserves.
Qed.

Lemma trail_chained s k : trail_invariant s -> chained None (events_of k s).
Proof.
  intros Hinv. destruct (contracts s !! k) as [c|] eqn:Hc.
  - by apply (proj2 (proj2 (proj2 Hinv)) k c).
  - by rewrite events_of_absent.
Qed.

(** C3. Creation stores a contract in CREATED and appends exactly one
    event, CONTRACT_CREATED with old_status null.  Every other
    operation of the service that returns has fired one event of the
    table on its contract: the contract moves from the event's source to
    the event's target, and exactly one event is appended, for that
    contract, whose old_status is the status before, whose new_status is
    the status after, and whose type is the canonical one of the fired
    event.  Consequently, after any run of operations started on an
    empty store, the trail of every contract is chained: the first
    event has old_status null and each later event starts from the
    status the previous one reached, the last one reaching the
    contract's current status. *)
Theorem C3_one_event_per_transition :
  (forall buyer amount descr logic schema retries (s : Session),
      exists c ev s',
        EscrowService.create_contract buyer amount descr logic schema retries s
        = (inr c, s')
        /\ contracts s' !! c_id c = Some c
        /\ status c = status_value CREATED
        /\ events s' = events s ++ [ev]
        /\ e_contract_id ev = c_id c
        /\ event_type ev = event_type_value CONTRACT_CREATED
        /\ old_status ev = None
        /\ new_status ev = status_value CREATED)
  /\ (forall (op : Op) (cid : uuid) (s s' : Session),
        keyed s ->
        op_contract op = Some cid ->
        exec op s = (None, s') ->
        exists c c' e st t ev,
          contracts s !! cid = Some c
          /\ contracts s' !! cid = Some c'
          /\ op_event op c = Some e
          /\ status c = status_value st
          /\ spec_target st e = Some t
          /\ status c' = status_value t
          /\ events s' = events s ++ [ev]
          /\ e_contract_id ev = cid
          /\ old_status ev = Some (status c)
          /\ new_status ev = status c'
          /\ event_type ev = event_type_value (spec_event_type e))
  /\ (forall (ops : list Op) (cid : uuid),
        let s := run_all ops empty_session in
        chained None (events_of cid s)
        /\ forall c, contracts s !! cid = Some c ->
                     trail_end None (events_of cid s) = Some (status c)).
Proof.
  split; [|split].
  - intros. unfold EscrowService.create_contract. monad_simpl.
    do 3 eexists. split; [reflexivity|]. simpl.
    rewrite lookup_insert_eq. repeat split.
  - intros op cid s s' Hk Hop Hex.
    pose proof (exec_effect op s Hk) as Heff. rewrite Hex in Heff.
    remember (None, s') as rs eqn:Hrs.
    destruct Heff as [err s1 He Hst Hid Hn
                     |cid0 c c' ev e st t s1 Hop0 Hc Hoe Hs Ht Hc' Hid' Hs' Hoth He Hecid Hety Hold Hnew Hn
                     |c ev s1 Hop0 Hcs Hid Hs He Hecid Hety Hold Hnew Hn].
    + discriminate Hrs.
    + injection Hrs as ->. rewrite Hop in Hop0. injection Hop0 as <-.
      exists c, c', e, st, t, ev. repeat split; done.
    + congruence.
  - intros ops cid s. subst s.
    pose proof (run_all_invariant ops _ empty_invariant) as Hinv. split.
    + by apply trail_chained.
    + intros c Hc. by apply (proj2 (proj2 (proj2 Hinv)) cid c).
Qed.

(** ** Retry accounting *)

(** [record_verification_failed] on a contract under verification, in
    full: the session it leaves and the contract it returns. *)
Lemma record_verification_failed_run s cid sid res c :
  contracts s !! cid = Some c -> c_id c = cid ->
  status c = status_value VERIFYING ->
  let n := (retry_count c + 1)%Z in
  let retry := (n <? max_retries c)%Z in
  let target := if retry then IN_PROGRESS else FAILED in
  let c' := set_status (status_value target) (set_retry_count n c) in
  EscrowService.record_verification_failed cid sid res s =
  (inr c',
   mkSession (<[cid := c']> (<[cid := set_retry_count n c]> (contracts s)))
     (mark_submission sid false res (submissions s))
     (events s ++
      [mkEvent (next_uuid s) cid
         (event_type_value (if retry then VERIFICATION_FAILED else MAX_RETRIES_EXCEEDED))
         (Some (status_value VERIFYING)) (status_value target) "SYSTEM"
         (Some (dict_with_unpack "retry_count" (VInt n) res))])
     (S (next_uuid s))).
Proof.
  intros Hc Hid Hst n retry target c'. subst n retry target c'.
  unfold EscrowService.record_verification_failed, mark_submission.
  monad_simpl. rewrite Hc.
  destruct (find _ _) as [sub|]; simpl;
    destruct (Z.leb_spec (max_retries c) (retry_count c + 1)) as [Hle|Hlt];
    (erewrite (fire_transition_ok _ _ VERIFYING); [| simpl; eassumption | reflexivity]);
    simpl; rewrite Hid;
    first [ rewrite (proj2 (Z.ltb_ge _ _) Hle) | rewrite (proj2 (Z.ltb_lt _ _) Hlt) ];
    reflexivity.
Qed.





(** ** What a raising call leaves behind *)

(** Seven of the eight operations check before they write: when they
    raise, the session is the one they were given. *)
Lemma raise_leaves_session op s err s' :
  (forall cid sid res, op <> OpFailed cid sid res) ->
  exec op s = (Some err, s') -> s' = s.
Proof.
  intros Hop.
  destruct op as [b a d l sc r|cid tx w|cid w|cid work w|cid|cid sid res|cid sid res|cid re who];
    unfold exec, outcome.
  - unfold EscrowService.create_contract. monad_simpl. discriminate.
  - unfold EscrowService.fund_contract. monad_simpl.
    destruct (contracts s !! cid) as [c|]; simpl; [|congruence].
    destruct (fire_transition_cases c on_chain_confirmed s)
      as [(st & t & Hs & Ht & ->)|(err0 & ->)]; simpl; congruence.
  - unfold EscrowService.accept_contract. monad_simpl.
    destruct (contracts s !! cid) as [c|]; simpl; [|congruence].
    destruct (worker_wallet c); [congruence|]. monad_simpl.
    destruct (fire_transition_cases c worker_accepts s)
      as [(st & t & Hs & Ht & ->)|(err0 & ->)]; simpl; congruence.
  - unfold EscrowService.submit_work. monad_simpl.
    destruct (contracts s !! cid) as [c|]; simpl; [|congruence].
    destruct (fire_transition_cases c worker_submits s)
      as [(st & t & Hs & Ht & ->)|(err0 & ->)]; simpl; congruence.
  - unfold EscrowService.start_verification. monad_simpl.
    destruct (contracts s !! cid) as [c|]; simpl; [|congruence].
    destruct (fire_transition_cases c auto_verify s)
      as [(st & t & Hs & Ht & ->)|(err0 & ->)]; simpl; congruence.
  - unfold EscrowService.record_verification_passed. monad_simpl.
    destruct (contracts s !! cid) as [c|]; simpl; [|congruence].
    destruct (fire_transition_cases c verification_passed s)
      as [(st & t & Hs & Ht & ->)|(err0 & ->)]; simpl; [|congruence].
    destruct (find _ _); simpl; congruence.
  - by destruct (Hop cid sid res).
  - unfold EscrowService.raise_dispute. monad_simpl.
    destruct (contracts s !! cid) as [c|]; simpl; [|congruence].
    destruct (EscrowStatus_of_value (status c)); [|congruence]. monad_simpl.
    destruct (fire_transition_cases c buyer_disputes s)
      as [(st & t & Hs & Ht & ->)|(err0 & ->)]; simpl; congruence.
Qed.


(** ** Submitting and verifying *)

Lemma submit_work_run s cid work worker c :
  contracts s !! cid = Some c -> c_id c = cid ->
  status c = status_value IN_PROGRESS ->
  let sub := mkSubmission (next_uuid s) cid work (py_or worker (worker_wallet c))
               None None in
  EscrowService.submit_work cid work worker s =
  (inr sub,
   mkSession (<[cid := set_status (status_value SUBMITTED) c]> (contracts s))
     (submissions s ++ [sub])
     (events s ++
      [mkEvent (S (next_uuid s)) cid (event_type_value WORK_SUBMITTED)
         (Some (status_value IN_PROGRESS)) (status_value SUBMITTED)
         (default "UNKNOWN"
            (py_or (py_or worker (worker_wallet c)) (Some "UNKNOWN")))
         (Some {[ "submission_id" := VStr (pretty (next_uuid s)) ]})])
     (S (S (next_uuid s)))).
Proof.
  intros Hc Hid Hst sub. subst sub. unfold EscrowService.submit_work.
  monad_simpl. rewrite Hc. simpl.
  erewrite (fire_transition_ok _ _ IN_PROGRESS); [| exact Hst | reflexivity].
  simpl. rewrite Hid. reflexivity.
Qed.

Lemma start_verification_run s cid c :
  contracts s !! cid = Some c -> c_id c = cid ->
  status c = status_value SUBMITTED ->
  let c' := set_status (status_value VERIFYING) c in
  EscrowService.start_verification cid s =
  (inr c',
   mkSession (<[cid := c']> (contracts s)) (submissions s)
     (events s ++
      [mkEvent (next_uuid s) cid (event_type_value VERIFICATION_STARTED)
         (Some (status_value SUBMITTED)) (status_value VERIFYING) "SYSTEM" None])
     (S (next_uuid s))).
Proof.
  intros Hc Hid Hst c'. subst c'. unfold EscrowService.start_verification.
  monad_simpl. rewrite Hc. simpl.
  erewrite (fire_transition_ok _ _ SUBMITTED); [| exact Hst | reflexivity].
  simpl. rewrite Hid. reflexivity.
Qed.

Lemma submit_work_refused s cid work worker c st :
  contracts s !! cid = Some c -> status c = status_value st ->
  st <> IN_PROGRESS ->
  EscrowService.submit_work cid work worker s =
  (inl (InvalidStateTransitionError (status_value st) (event_name worker_submits)), s).
Proof.
  intros Hc Hst Hne. unfold EscrowService.submit_work. monad_simpl. rewrite Hc. simpl.
  rewrite (fire_transition_illegal c worker_submits st s Hst); [done|].
  by destruct st.
Qed.


Section Orchestration.

Variable settings : Settings.
Variable py_str : pyval -> string.
Variable py_float : string -> option pyfloat.
Variable run_in_sandbox : string -> string -> pyval -> SandboxOutcome.
Variable acompletion : nat -> string -> string + option string.
Variable json_loads : string -> string + pyval.
Variable iter_errors : gmap string pyval -> pyval -> ValidatorOutcome.

Let verify_latest :=
  verify_latest_submission settings py_str py_float run_in_sandbox acompletion
    json_loads iter_errors.
Let round :=
  submit_and_verify settings py_str py_float run_in_sandbox acompletion
    json_loads iter_errors.

Let rejects :=
  rejects_everything settings py_str py_float run_in_sandbox acompletion
    json_loads iter_errors.

(** One rejected submission, in full. *)
Lemma rejected_round_run s cid work worker c :
  contracts s !! cid = Some c -> c_id c = cid ->
  status c = status_value IN_PROGRESS ->
  rejects cid c ->
  let n := (retry_count c + 1)%Z in
  let retry := (n <? max_retries c)%Z in
  let target := if retry then IN_PROGRESS else FAILED in
  exists r s' c' ev,
    round cid work worker s = (inr r, s')
    /\ is_valid r = false
    /\ contracts s' !! cid = Some c'
    /\ c' = set_status (status_value target) (set_retry_count n c)
    /\ last (events s') = Some ev
    /\ e_contract_id ev = cid
    /\ event_type ev
       = event_type_value (if retry then VERIFICATION_FAILED else MAX_RETRIES_EXCEEDED)
    /\ length (events s') = (length (events s) + 3)%nat.
Proof.
  intros Hc Hid Hst (v & Hv & Hrej) n retry target.
  destruct (Hrej work) as (r & Hr & Hinvalid).
  unfold round, submit_and_verify, verify_latest, verify_latest_submission.
  unfold bind at 1. rewrite (submit_work_run s cid work worker c Hc Hid Hst).
  cbv zeta. unfold bind at 1.
  erewrite start_verification_run;
    [| simpl; apply lookup_insert_eq | exact Hid | reflexivity ].
  cbv zeta. unfold bind at 1.
  unfold SubmissionRepository.get_by_contract. simpl.
  rewrite List.filter_app. simpl. rewrite Nat.eqb_refl, rev_app_distr. simpl.
  rewrite Hv, Hr, Hinvalid.
  unfold bind at 1.
  erewrite record_verification_failed_run;
    [| simpl; apply lookup_insert_eq | exact Hid | reflexivity ].
  simpl. fold n. fold retry.
  do 4 eexists. split; [reflexivity|]. simpl.
  rewrite lookup_insert_eq, last_snoc.
  repeat split; try done. rewrite !length_app. simpl. lia.
Qed.

(** C5, as the code has it.  With max_retries = 2 and a verifier that
    rejects everything, two bad submissions are enough: the first
    returns the contract to IN_PROGRESS with retry_count 1, the second
    leaves it FAILED with retry_count 2 and MAX_RETRIES_EXCEEDED as
    the last event of the log.  A third submission is not accepted:
    [submit_work] raises the illegal-transition error for
    (FAILED, worker_submits) and the session stays as it was. *)
Theorem C5_two_rejections_exhaust_two_retries (s : Session) (cid : uuid)
    (c : EscrowContract) (w1 w2 w3 : string) (by1 by2 by3 : option string) :
  contracts s !! cid = Some c -> c_id c = cid ->
  status c = status_value IN_PROGRESS ->
  retry_count c = 0%Z -> max_retries c = 2%Z ->
  rejects cid c ->
  exists r1 s1 c1 r2 s2 c2 ev,
    round cid w1 by1 s = (inr r1, s1)
    /\ contracts s1 !! cid = Some c1
    /\ status c1 = status_value IN_PROGRESS /\ retry_count c1 = 1%Z
    /\ round cid w2 by2 s1 = (inr r2, s2)
    /\ contracts s2 !! cid = Some c2
    /\ status c2 = status_value FAILED /\ retry_count c2 = 2%Z
    /\ last (events s2) = Some ev
    /\ e_contract_id ev = cid
    /\ event_type ev = event_type_value MAX_RETRIES_EXCEEDED
    /\ EscrowService.submit_work cid w3 by3 s2
       = (inl (InvalidStateTransitionError (status_value FAILED)
                 (event_name worker_submits)), s2).
Proof.
  intros Hc Hid Hst Hrc Hmax Hrej.
  destruct (rejected_round_run s cid w1 by1 c Hc Hid Hst Hrej)
    as (r1 & s1 & c1 & ev1 & Hrun1 & _ & Hc1 & Hdef1 & _).
  rewrite Hrc, Hmax in Hdef1. simpl in Hdef1.
  assert (rejects cid c1) as Hrej1 by (by subst c1).
  assert (c_id c1 = cid) as Hid1 by (by subst c1).
  assert (status c1 = status_value IN_PROGRESS) as Hst1 by (by subst c1).
  destruct (rejected_round_run s1 cid w2 by2 c1 Hc1 Hid1 Hst1 Hrej1)
    as (r2 & s2 & c2 & ev2 & Hrun2 & _ & Hc2 & Hdef2 & Hlast & Hecid & Hety & _).
  assert (retry_count c1 = 1%Z) as Hrc1 by (by subst c1).
  assert (max_retries c1 = 2%Z) as Hmax1 by (by subst c1).
  rewrite Hrc1, Hmax1 in Hdef2, Hety. simpl in Hdef2, Hety.
  exists r1, s1, c1, r2, s2, c2, ev2.
  repeat split; try done; try (by subst c2).
  apply (submit_work_refused s2 cid w3 by3 c2 FAILED); [done|by subst c2|done].
Qed.


End Orchestration.

Lemma demo_in_progress_contract :
  contracts (demo_in_progress 2) !! 0%nat = Some (demo_contract IN_PROGRESS 2).
Proof. vm_compute. reflexivity. Qed.

Lemma demo_rejects :
  rejects_everything demo_settings demo_py_str demo_py_float demo_sandbox
    demo_acompletion demo_json_loads demo_iter_errors 0 (demo_contract IN_PROGRESS 2).
Proof.
  exists (CodeExecutionVerifier None None). split; [reflexivity|].
  intros work. eexists. split; [vm_compute; reflexivity|reflexivity].
Qed.

(** The theorem at scenario 3 of the specification. *)
Lemma C5_witness :
  exists s2 c2,
    contracts s2 !! 0%nat = Some c2
    /\ status c2 = "FAILED" /\ retry_count c2 = 2%Z
    /\ EscrowService.submit_work 0 "print('still wrong')" None s2
       = (inl (InvalidStateTransitionError "FAILED" "worker_submits"), s2).
Proof.
  destruct (C5_two_rejections_exhaust_two_retries
              demo_settings demo_py_str demo_py_float demo_sandbox
              demo_acompletion demo_json_loads demo_iter_errors
              (demo_in_progress 2) 0 (demo_contract IN_PROGRESS 2)
              "print('I am a malicious agent! HAHAHA')" "import sys; sys.exit(1)"
              "print('still wrong')" None None None
              demo_in_progress_contract eq_refl eq_refl eq_refl eq_refl demo_rejects)
    as (r1 & s1 & c1 & r2 & s2 & c2 & ev & _ & _ & _ & _ & _ & Hc2 & Hs2 & Hr2 & _ & _ & _ & H3).
  exists s2, c2. split; [exact Hc2|]. split; [exact Hs2|]. split; [exact Hr2|exact H3].
Defined.

(** Against C5 as stated: in scenario 3 the contract is FAILED after
    the second bad submission, and [submit_work] refuses the third. *)
Lemma C5_counterexample :
  let s1 := snd (demo_round 0 "print('I am a malicious agent! HAHAHA')" None
                   (demo_in_progress 2)) in
  let s2 := snd (demo_round 0 "import sys; sys.exit(1)" None s1) in
  (status <$> contracts s2 !! 0%nat) = Some "FAILED"
  /\ (retry_count <$> contracts s2 !! 0%nat) = Some 2%Z
  /\ fst (EscrowService.submit_work 0 "print('still wrong')" None s2)
     = inl (InvalidStateTransitionError "FAILED" "worker_submits")
  /\ length (submissions s2) = 2%nat.
Proof. vm_compute. repeat split; reflexivity. Qed.



(** ** The semantic strategy: parsing the verdict *)

Lemma py_upper_char_colon c : Ascii.eqb (py_upper_char c) COLON = Ascii.eqb c COLON.
Proof. destruct c as [[] [] [] [] [] [] [] []]; reflexivity. Qed.

Lemma py_split1_snd_upper s :
  py_split1_snd COLON (py_upper s) = py_upper <$> py_split1_snd COLON s.
Proof.
  induction s as [|c s IH]; [done|].
  cbn [py_upper py_split1_snd]. rewrite py_upper_char_colon.
  by destruct (Ascii.eqb c COLON).
Qed.

Lemma py_startswith_split p s :
  py_startswith p s = true -> exists rest, s = (p ++ rest)%string.
Proof.
  revert s. induction p as [|a p IH]; intros s; simpl.
  - intros _. by exists s.
  - destruct s as [|b s]; [done|].
    destruct (Ascii.eqb_spec a b) as [->|]; [|done].
    intros [rest ->]%IH. by exists rest.
Qed.

(** The guards of the VERDICT and REASONING branches guarantee the colon
    that [split(":", 1)[1]] needs: these branches never raise
    [IndexError]. *)
Lemma verdict_line_has_colon line :
  py_startswith "VERDICT:" (py_upper line) = true ->
  exists v, py_split1_snd COLON line = Some v.
Proof.
  intros [rest Hrest]%py_startswith_split.
  pose proof (py_split1_snd_upper line) as H. rewrite Hrest in H. simpl in H.
  destruct (py_split1_snd COLON line) as [v|]; [by exists v|discriminate].
Qed.

Lemma reasoning_line_has_colon line :
  py_startswith "REASONING:" (py_upper line) = true ->
  exists v, py_split1_snd COLON line = Some v.
Proof.
  intros [rest Hrest]%py_startswith_split.
  pose proof (py_split1_snd_upper line) as H. rewrite Hrest in H. simpl in H.
  destruct (py_split1_snd COLON line) as [v|]; [by exists v|discriminate].
Qed.

Lemma parse_line_verdict py_float acc raw :
  p_verdict (parse_line py_float acc raw)
  = if is_verdict_line raw then reads_true raw else p_verdict acc.
Proof.
  unfold parse_line, reads_true, is_verdict_line.
  destruct (py_startswith "VERDICT:" (py_upper (py_strip raw))) eqn:Hv.
  - destruct (verdict_line_has_colon _ Hv) as [v ->]. reflexivity.
  - destruct (py_startswith "SCORE:" _).
    + destruct (py_split1_snd _ _); [destruct (py_float _)|]; reflexivity.
    + destruct (py_startswith "REASONING:" _); [destruct (py_split1_snd _ _)|];
        reflexivity.
Qed.

Lemma parse_fold_verdict py_float lines acc :
  p_verdict (fold_left (parse_line py_float) lines acc)
  = match last (List.filter is_verdict_line lines) with
    | Some l => reads_true l
    | None => p_verdict acc
    end.
Proof.
  revert acc. induction lines as [|raw lines IH]; intros acc; simpl; [done|].
  rewrite IH, parse_line_verdict.
  destruct (is_verdict_line raw) eqn:Hraw; [|done].
  destruct (List.filter is_verdict_line lines) as [|x rest] eqn:Hf; [done|].
  change (last (raw :: x :: rest)) with (last (x :: rest)).
  destruct (last (x :: rest)) eqn:Hl; [done|]. by apply last_None in Hl.
Qed.

(** C6, as the code has it.  The parsed verdict is the reading of the
    last verdict line of the response: it is true exactly when the
    response has a verdict line and the last one reads TRUE.  Hence a
    response none of whose lines reads [VERDICT: TRUE] is parsed to
    false (MAYBE, PARTIAL, a missing verdict line); a response whose
    only verdict line reads TRUE is parsed to true; and a later verdict
    line overrides an earlier one. *)
Theorem C6_last_verdict_line_decides (py_float : string -> option pyfloat)
    (response : string) :
  let lines := py_split LF response in
  let verdict := p_verdict (_parse_response py_float response) in
  verdict = match last (List.filter is_verdict_line lines) with
            | Some l => reads_true l
            | None => false
            end
  /\ ((forall l, l ∈ lines -> reads_true l = false) -> verdict = false)
  /\ (forall l, List.filter is_verdict_line lines = [l] -> verdict = reads_true l)
  /\ (forall l, last (List.filter is_verdict_line lines) = Some l ->
                reads_true l = true -> verdict = true).
Proof.
  intros lines verdict.
  assert (verdict = match last (List.filter is_verdict_line lines) with
                    | Some l => reads_true l
                    | None => false
                    end) as Hv.
  { subst verdict lines. unfold _parse_response. simpl.
    apply parse_fold_verdict. }
  split; [exact Hv|]. split; [|split].
  - intros Hnone. rewrite Hv.
    destruct (last _) as [l|] eqn:Hl; [|done].
    apply Hnone. apply last_Some in Hl as [l' Hl].
    assert (In l (List.filter is_verdict_line lines)) as Hin
      by (rewrite Hl; apply in_or_app; right; by left).
    apply List.filter_In in Hin as [Hin _]. by apply list_elem_of_In.
  - intros l Hl. by rewrite Hv, Hl.
  - intros l Hl Ht. by rewrite Hv, Hl.
Qed.

(** Against C6 as stated: a response with a line reading
    [VERDICT: TRUE] that is parsed to false, because a second verdict
    line follows it. *)
Lemma C6_counterexample :
  let response := ("VERDICT: TRUE" ++ String LF "VERDICT: FALSE")%string in
  py_split LF response = ["VERDICT: TRUE"; "VERDICT: FALSE"]
  /\ reads_true "VERDICT: TRUE" = true
  /\ p_verdict (_parse_response demo_py_float response) = false.
Proof. vm_compute. repeat split; reflexivity. Qed.


(** ** Sorting by path *)










(** ** The verifier strategies *)


#[local] Arguments py_take : simpl never.

Section Strategies.

Variable settings : Settings.
Variable py_str : pyval -> string.
Variable py_float : string -> option pyfloat.
Variable run_in_sandbox : string -> string -> pyval -> SandboxOutcome.
Variable acompletion : nat -> string -> string + option string.
Variable json_loads : string -> string + pyval.
Variable iter_errors : gmap string pyval -> pyval -> ValidatorOutcome.

Let code_execution := CodeExecutionVerifier_verify settings py_str run_in_sandbox.
Let run_verifier :=
  verify settings py_str py_float run_in_sandbox acompletion json_loads iter_errors.

(** C7, as the code has it.  With a sandbox key configured and an
    expected_output that is absent or a string, for every outcome
    (stdout, stderr, exit_code) of the sandbox run the strategy returns
    a result without error code, and: if exit_code is not 0 the result
    is invalid; if exit_code is 0 the result is valid with score 1.0
    exactly when the expected output, trimmed, is empty or a substring
    of the trimmed stdout, and invalid otherwise.  In particular an
    absent expected_output gives a valid result with score 1.0 on exit
    code 0, and so does one that is blank. *)
Theorem C7_code_execution_verdict (api_key : option string) (timeout : option Z)
    (request : VerificationRequest) (raw stdout stderr : string) (exit_code : Z) :
  let key := default (e2b_api_key settings) api_key in
  let limit := dict_get (rq_config request) "timeout"
                 (VInt (default (e2b_timeout_seconds settings) timeout)) in
  let expected := py_strip raw in
  key <> "" ->
  dict_get (rq_config request) "expected_output" (VStr "") = VStr raw ->
  run_in_sandbox (rq_payload request) key limit = Completed stdout stderr exit_code ->
  exists r,
    code_execution api_key timeout request = inr r
    /\ error r = None
    /\ is_valid r
       = ((exit_code =? 0)%Z
          && (String.eqb expected "" || py_contains expected (py_strip stdout)))
    /\ score r = (if is_valid r then Some 1%Q else None)
    /\ (exit_code <> 0%Z -> is_valid r = false)
    /\ (exit_code = 0%Z -> rq_config request !! "expected_output" = None ->
        is_valid r = true /\ score r = Some 1%Q).
Proof.
  intros key limit expected Hkey Hexp Hrun.
  unfold code_execution, CodeExecutionVerifier_verify.
  rewrite Hexp. fold key. fold limit. fold expected.
  destruct (String.eqb_spec key "") as [Hk|_]; [done|].
  rewrite Hrun.
  assert (rq_config request !! "expected_output" = None -> expected = "") as Habsent.
  { intros Hnone. unfold dict_get in Hexp. rewrite Hnone in Hexp.
    injection Hexp as <-. reflexivity. }
  destruct (Z.eqb_spec exit_code 0) as [->|Hne]; simpl.
  - destruct (String.eqb_spec expected "") as [He|He]; simpl.
    + eexists. split; [reflexivity|]. simpl. by repeat (split; [done|]).
    + destruct (py_contains expected (py_strip stdout)) eqn:Hc;
        (eexists; split; [reflexivity|]); simpl; repeat (split; [done|]);
        try done; intros _ Hnone; by destruct (He (Habsent Hnone)).
  - eexists. split; [reflexivity|]. simpl. by repeat (split; [done|]).
Qed.


(** C9, as the code has it.  Whenever a strategy returns a result with
    an error code, the result is invalid and the code is one of
    SANDBOX_ERROR, EXECUTION_TIMEOUT, LLM_JUDGE_ERROR, INVALID_JSON,
    INVALID_SCHEMA, MISSING_SCHEMA, MISSING_CRITERIA,
    MISSING_E2B_API_KEY and SCHEMA_VERIFIER_ERROR. *)
Theorem C9_error_codes (v : Verifier) (request : VerificationRequest)
    (r : VerificationResult) (code : string) :
  run_verifier v request = inr r -> error r = Some code ->
  code ∈ strategy_error_codes /\ is_valid r = false.
Proof.
  unfold run_verifier, verify, strategy_error_codes.
  destruct v as [key limit| | |].
  - unfold CodeExecutionVerifier_verify.
    destruct (dict_get _ "expected_output" _); try done.
    destruct (String.eqb _ ""); [intros [= <-] [= <-]; split; [set_solver|done]|].
    destruct (run_in_sandbox _ _ _) as [out err ec| |text].
    + destruct (negb (ec =? 0)%Z); [by intros [= <-]|].
      destruct (negb (String.eqb _ "")); [|by intros [= <-]].
      destruct (py_contains _ _); by intros [= <-].
    + intros [= <-] [= <-]; split; [set_solver|done].
    + intros [= <-] [= <-]; split; [set_solver|done].
  - unfold SemanticVerifier_verify.
    destruct (negb (py_truthy _)); [intros [= <-] [= <-]; split; [set_solver|done]|].
    destruct (_call_llm _ _ _ _); [|by intros [= <-]].
    intros [= <-] [= <-]; split; [set_solver|done].
  - unfold SchemaVerifier_verify.
    destruct (rq_schema request) as [schema|];
      [|intros [= <-] [= <-]; split; [set_solver|done]].
    destruct (bool_decide _); [intros [= <-] [= <-]; split; [set_solver|done]|].
    destruct (json_loads _); [intros [= <-] [= <-]; split; [set_solver|done]|].
    destruct (iter_errors _ _) as [errs|msg|text].
    + destruct (sorted_by_path errs) as [[|e0 rest]|]; try by intros [= <-].
      intros [= <-] [= <-]; split; [set_solver|done].
    + intros [= <-] [= <-]; split; [set_solver|done].
    + intros [= <-] [= <-]; split; [set_solver|done].
  - unfold MockVerifier_verify. by intros [= <-].
Qed.

End Strategies.


(** The theorem at scenario 1: expected output 55, found inside the
    printed line. *)
Lemma C7_witness :
  exists r,
    CodeExecutionVerifier_verify demo_settings demo_py_str demo_sandbox_55
      None None (demo_request "55") = inr r
    /\ is_valid r = true /\ score r = Some 1%Q.
Proof.
  destruct (C7_code_execution_verdict demo_settings demo_py_str demo_sandbox_55
              None None (demo_request "55") "55" "The answer is 55, hooray!" "" 0
              ltac:(discriminate) eq_refl eq_refl)
    as (r & Hrun & _ & Hvalid & Hscore & _).
  exists r. split; [exact Hrun|]. split; [exact Hvalid|].
  rewrite Hscore, Hvalid. reflexivity.
Defined.

(** Against C7 as stated: the descriptor's expected_output " 55 " is
    present and is no substring of the trimmed stdout "55", yet the
    result is valid, because the expected output is trimmed as well. *)
Lemma C7_counterexample :
  rq_config (demo_request " 55 ") !! "expected_output" = Some (VStr " 55 ")
  /\ py_contains " 55 " (py_strip "55") = false
  /\ exists r,
       CodeExecutionVerifier_verify demo_settings demo_py_str demo_sandbox_bare_55
         None None (demo_request " 55 ") = inr r
       /\ is_valid r = true /\ score r = Some 1%Q.
Proof.
  split; [vm_compute; reflexivity|]. split; [vm_compute; reflexivity|].
  eexists. split; [vm_compute; reflexivity|]. split; reflexivity.
Qed.

(** Scenario 4 of the specification: the payload without age is
    rejected with one error, which names age. *)
Example schema_scenario_4 :
  exists r,
    SchemaVerifier_verify demo_loads demo_validator
      (demo_schema_request demo_alice (Some demo_schema)) = inr r
    /\ is_valid r = false /\ error r = None
    /\ details r = "Schema validation failed with 1 error(s)."
    /\ logs r !! "validation_errors" = Some (VList [error_detail demo_missing_age]).
Proof.
  eexists. split; [vm_compute; reflexivity|]. repeat split; vm_compute; reflexivity.
Qed.


(** The theorem at a verifier built without sandbox key. *)
Lemma C9_witness :
  "MISSING_E2B_API_KEY" ∈ strategy_error_codes
  /\ is_valid (mkResult false None "E2B API key not configured." ∅
                 (Some "MISSING_E2B_API_KEY")) = false.
Proof.
  apply (C9_error_codes demo_settings demo_py_str demo_py_float demo_sandbox
           demo_acompletion demo_json_loads demo_iter_errors
           (CodeExecutionVerifier (Some "") None) (demo_request "55")
           (mkResult false None "E2B API key not configured." ∅
              (Some "MISSING_E2B_API_KEY"))
           "MISSING_E2B_API_KEY" eq_refl eq_refl).
Defined.

(** Against C9 as stated: two error codes the strategies return that
    the taxonomy of section 7 does not list. *)
Lemma C9_counterexample :
  (exists r,
      verify demo_settings demo_py_str demo_py_float demo_sandbox demo_acompletion
        demo_json_loads demo_iter_errors
        (CodeExecutionVerifier (Some "") None) (demo_request "55") = inr r
      /\ error r = Some "MISSING_E2B_API_KEY")
  /\ bool_decide ("MISSING_E2B_API_KEY" ∈ spec_error_codes) = false
  /\ (exists r,
        verify demo_settings demo_py_str demo_py_float demo_sandbox demo_acompletion
          demo_loads (fun _ _ => OtherError "maximum recursion depth exceeded")
          SchemaVerifier (demo_schema_request "{}" (Some demo_schema)) = inr r
        /\ error r = Some "SCHEMA_VERIFIER_ERROR")
  /\ bool_decide ("SCHEMA_VERIFIER_ERROR" ∈ spec_error_codes) = false.
Proof.
  split; [eexists; split; [vm_compute; reflexivity|reflexivity]|].
  split; [vm_compute; reflexivity|].
  split; [eexists; split; [vm_compute; reflexivity|reflexivity]|].
  vm_compute; reflexivity.
Qed.


(** ** The scenarios of the specification, run *)

(** Scenario 2: a rejected submission, then an accepted one. *)
Example scenario_2_fail_and_retry :
  (status <$> contracts demo_scenario_2 !! 0%nat) = Some "COMPLETED"
  /\ (retry_count <$> contracts demo_scenario_2 !! 0%nat) = Some 1%Z
  /\ (event_type <$> events_of 0 demo_scenario_2)
     = [ "CONTRACT_CREATED"; "CONTRACT_FUNDED"; "WORKER_ASSIGNED";
         "WORK_SUBMITTED"; "VERIFICATION_STARTED"; "VERIFICATION_FAILED";
         "WORK_SUBMITTED"; "VERIFICATION_STARTED"; "VERIFICATION_PASSED" ]
  /\ (s_is_valid <$> submissions demo_scenario_2) = [Some false; Some true].
Proof. vm_compute. repeat split; reflexivity. Qed.

(** Scenario 6: a dispute raised from IN_PROGRESS. *)
Example scenario_6_dispute :
  let s := run_all [OpDispute 0 "work is late" "0xBUYER"] (demo_in_progress 3) in
  (status <$> contracts s !! 0%nat) = Some "DISPUTED"
  /\ ((fun ev => (event_type ev, old_status ev)) <$> last (events s))
     = Some ("DISPUTE_RAISED", Some "IN_PROGRESS").
Proof. vm_compute. split; reflexivity. Qed.


(** The answers the test suite feeds to [_parse_response]. *)
Example parse_lower_case :
  p_verdict (_parse_response demo_py_float
               ("verdict: true" ++ String LF "score: 1.0" ++ String LF "reasoning: ok")%string)
  = true.
Proof. vm_compute. reflexivity. Qed.

Example parse_malformed :
  _parse_response demo_py_float "I think it's pretty good but I'm not sure."
  = mkParsed false 0
      "Could not parse structured reasoning from LLM response. Raw: I think it's pretty good but I'm not sure.".
Proof. vm_compute. reflexivity. Qed.

Example parse_maybe :
  p_verdict (_parse_response demo_py_float "VERDICT: MAYBE") = false.
Proof. vm_compute. reflexivity. Qed.

(** ** What a run of operations can change *)

Ltac frame_id := repeat split; (reflexivity || (left; reflexivity) || idtac).

Ltac at_key k cid Hk' :=
  destruct (decide (k = cid)) as [->|Hne];
  [ rewrite ?lookup_insert_eq in Hk'
  | rewrite ?lookup_insert_ne in Hk' by done ].

Ltac other_key k cid Hk Hk' :=
  rewrite ?(proj2 (Nat.eqb_neq cid k)) by done; rewrite ?andb_false_r;
  rewrite Hk in Hk'; injection Hk' as <-; frame_id.

Ltac untouched Hk := simpl; rewrite Hk; intros [= <-]; rewrite ?andb_false_l; frame_id.

(** One call, seen from any stored contract. *)
Lemma exec_frame op s k c c' :
  keyed s -> (forall j x, contracts s !! j = Some x -> (j < next_uuid s)%nat) ->
  contracts s !! k = Some c ->
  contracts (snd (exec op s)) !! k = Some c' ->
  op_frame op (succeeded (exec op s)) k c c'.
Proof.
  intros Hkeyed Hlt Hk.
  destruct op as [b a d l sc r|cid tx w|cid w|cid work w|cid|cid sid res|cid sid res|cid re who];
    unfold exec, outcome, succeeded, op_frame, same_terms, same_funding.
  - unfold EscrowService.create_contract. monad_simpl.
    assert (k <> next_uuid s) as Hne by (apply Hlt in Hk; lia).
    rewrite lookup_insert_ne by done. untouched Hk.
  - unfold EscrowService.fund_contract. monad_simpl.
    destruct (contracts s !! cid) as [c0|] eqn:Hc; simpl; [|untouched Hk].
    destruct (fire_transition_cases c0 on_chain_confirmed s)
      as [(st & t & Hs & Ht & ->)|(err & ->)]; simpl; [|untouched Hk].
    apply spec_target_src in Ht as [-> ->]. rewrite (Hkeyed _ _ Hc).
    intros Hk'. at_key k cid Hk'; [|other_key k cid Hk Hk'].
    rewrite Nat.eqb_refl. injection Hk' as <-. rewrite Hk in Hc. injection Hc as <-.
    simpl. frame_id. exact Hs.
  - unfold EscrowService.accept_contract. monad_simpl.
    destruct (contracts s !! cid) as [c0|] eqn:Hc; simpl; [|untouched Hk].
    destruct (worker_wallet c0) eqn:Hw; [untouched Hk|]. monad_simpl.
    destruct (fire_transition_cases c0 worker_accepts s)
      as [(st & t & Hs & Ht & ->)|(err & ->)]; simpl; [|untouched Hk].
    rewrite (Hkeyed _ _ Hc).
    intros Hk'. at_key k cid Hk'; [|other_key k cid Hk Hk'].
    rewrite Nat.eqb_refl. injection Hk' as <-. rewrite Hk in Hc. injection Hc as <-.
    simpl. frame_id. exact Hw.
  - unfold EscrowService.submit_work. monad_simpl.
    destruct (contracts s !! cid) as [c0|] eqn:Hc; simpl; [|untouched Hk].
    destruct (fire_transition_cases c0 worker_submits s)
      as [(st & t & Hs & Ht & ->)|(err & ->)]; simpl; [|untouched Hk].
    rewrite (Hkeyed _ _ Hc).
    intros Hk'. at_key k cid Hk'; [|other_key k cid Hk Hk'].
    injection Hk' as <-. rewrite Hk in Hc. injection Hc as <-. simpl. frame_id.
  - unfold EscrowService.start_verification. monad_simpl.
    destruct (contracts s !! cid) as [c0|] eqn:Hc; simpl; [|untouched Hk].
    destruct (fire_transition_cases c0 auto_verify s)
      as [(st & t & Hs & Ht & ->)|(err & ->)]; simpl; [|untouched Hk].
    rewrite (Hkeyed _ _ Hc).
    intros Hk'. at_key k cid Hk'; [|other_key k cid Hk Hk'].
    injection Hk' as <-. rewrite Hk in Hc. injection Hc as <-. simpl. frame_id.
  - unfold EscrowService.record_verification_passed. monad_simpl.
    destruct (contracts s !! cid) as [c0|] eqn:Hc; simpl; [|untouched Hk].
    destruct (fire_transition_cases c0 verification_passed s)
      as [(st & t & Hs & Ht & ->)|(err & ->)]; simpl; [|untouched Hk].
    rewrite (Hkeyed _ _ Hc).
    destruct (find _ _); simpl; intros Hk';
      (at_key k cid Hk'; [|other_key k cid Hk Hk']);
      injection Hk' as <-; rewrite Hk in Hc; injection Hc as <-; simpl; frame_id.
  - unfold EscrowService.record_verification_failed. monad_simpl.
    destruct (contracts s !! cid) as [c0|] eqn:Hc; simpl; [|untouched Hk].
    pose proof (Hkeyed _ _ Hc) as Hid.
    destruct (find _ _); simpl;
      destruct (Z.leb_spec (max_retries c0) (retry_count c0 + 1)) as [Hle|Hgt];
      match goal with
      | |- context [EscrowService._fire_transition ?c1 ?e ?s1] =>
          destruct (fire_transition_cases c1 e s1)
            as [(st & t & Hs & Ht & ->)|(err & ->)]; simpl
      end;
      rewrite ?Hid; intros Hk';
      (at_key k cid Hk'; [|other_key k cid Hk Hk']);
      injection Hk' as <-; rewrite Hk in Hc; injection Hc as <-; simpl;
      (split; [repeat split|split; [right; split; [reflexivity|eauto]|split; [|split]; reflexivity]]).
  - unfold EscrowService.raise_dispute. monad_simpl.
    destruct (contracts s !! cid) as [c0|] eqn:Hc; simpl; [|untouched Hk].
    destruct (EscrowStatus_of_value (status c0)) as [old|] eqn:Hold; [|untouched Hk].
    monad_simpl.
    destruct (fire_transition_cases c0 buyer_disputes s)
      as [(st & t & Hs & Ht & ->)|(err & ->)]; simpl; [|untouched Hk].
    rewrite (Hkeyed _ _ Hc).
    intros Hk'. at_key k cid Hk'; [|other_key k cid Hk Hk'].
    injection Hk' as <-. rewrite Hk in Hc. injection Hc as <-. simpl. frame_id.
Qed.

(** No call deletes a contract. *)
Lemma exec_keeps op s k c :
  contracts s !! k = Some c -> is_Some (contracts (snd (exec op s)) !! k).
Proof.
  intros Hk.
  assert (forall (m : gmap nat EscrowContract) j x, is_Some (m !! k) -> is_Some (<[j:=x]> m !! k)) as Hins.
  { intros m j x H. destruct (decide (j = k)) as [->|Hne];
      [rewrite lookup_insert_eq; eauto | by rewrite lookup_insert_ne]. }
  assert (is_Some (contracts s !! k)) as Hsome by eauto.
  destruct op as [b a d l sc r|cid tx w|cid w|cid work w|cid|cid sid res|cid sid res|cid re who];
    unfold exec, outcome.
  - unfold EscrowService.create_contract. monad_simpl. by apply Hins.
  - unfold EscrowService.fund_contract. monad_simpl.
    destruct (contracts s !! cid) as [c0|] eqn:Hc; simpl; [|done].
    destruct (fire_transition_cases c0 on_chain_confirmed s)
      as [(st & t & Hs & Ht & ->)|(err & ->)]; simpl; [|done].
    by do 2 apply Hins.
  - unfold EscrowService.accept_contract. monad_simpl.
    destruct (contracts s !! cid) as [c0|] eqn:Hc; simpl; [|done].
    destruct (worker_wallet c0) eqn:Hw; [done|]. monad_simpl.
    destruct (fire_transition_cases c0 worker_accepts s)
      as [(st & t & Hs & Ht & ->)|(err & ->)]; simpl; [|done].
    by do 2 apply Hins.
  - unfold EscrowService.submit_work. monad_simpl.
    destruct (contracts s !! cid) as [c0|] eqn:Hc; simpl; [|done].
    destruct (fire_transition_cases c0 worker_submits s)
      as [(st & t & Hs & Ht & ->)|(err & ->)]; simpl; [|done].
    by apply Hins.
  - unfold EscrowService.start_verification. monad_simpl.
    destruct (contracts s !! cid) as [c0|] eqn:Hc; simpl; [|done].
    destruct (fire_transition_cases c0 auto_verify s)
      as [(st & t & Hs & Ht & ->)|(err & ->)]; simpl; [|done].
    by apply Hins.
  - unfold EscrowService.record_verification_passed. monad_simpl.
    destruct (contracts s !! cid) as [c0|] eqn:Hc; simpl; [|done].
    destruct (fire_transition_cases c0 verification_passed s)
      as [(st & t & Hs & Ht & ->)|(err & ->)]; simpl; [|done].
    destruct (find _ _); simpl; by apply Hins.
  - unfold EscrowService.record_verification_failed. monad_simpl.
    destruct (contracts s !! cid) as [c0|] eqn:Hc; simpl; [|done].
    destruct (find _ _); simpl;
      destruct (Z.leb_spec (max_retries c0) (retry_count c0 + 1)) as [Hle|Hgt];
      match goal with
      | |- context [EscrowService._fire_transition ?c1 ?e ?s1] =>
          destruct (fire_transition_cases c1 e s1)
            as [(st & t & Hs & Ht & ->)|(err & ->)]; simpl
      end; repeat apply Hins; done.
  - unfold EscrowService.raise_dispute. monad_simpl.
    destruct (contracts s !! cid) as [c0|] eqn:Hc; simpl; [|done].
    destruct (EscrowStatus_of_value (status c0)) as [old|] eqn:Hold; [|done].
    monad_simpl.
    destruct (fire_transition_cases c0 buyer_disputes s)
      as [(st & t & Hs & Ht & ->)|(err & ->)]; simpl; [|done].
    by apply Hins.
Qed.

Lemma spec_target_not_created st e t : spec_target st e = Some t -> t <> CREATED.
Proof. destruct st, e; simpl; intros [= <-]; discriminate. Qed.

Lemma exec_status_leaves_created op s k c c' :
  trail_invariant s ->
  contracts s !! k = Some c -> contracts (snd (exec op s)) !! k = Some c' ->
  status c <> status_value CREATED -> status c' <> status_value CREATED.
Proof.
  intros Hinv Hk Hk' Hst. pose proof Hinv as (Hkeyed & Hlt & _).
  pose proof (exec_effect op s Hkeyed) as Heff.
  destruct Heff as [err s' He Hstat Hid Hn
                   |cid c0 c1 ev e st t s' Hop Hc Hoe Hs Ht Hc' Hid' Hs' Hoth He Hecid Hety Hold Hnew Hn
                   |c0 ev s' Hop Hcs Hid Hs He Hecid Hety Hold Hnew Hn]; simpl in Hk'.
  - specialize (Hstat k). rewrite Hk, Hk' in Hstat. simpl in Hstat. congruence.
  - destruct (decide (k = cid)) as [->|Hne].
    + rewrite Hc' in Hk'. injection Hk' as <-. rewrite Hs'.
      intros Heq%status_value_inj. by apply spec_target_not_created in Ht.
    + rewrite Hoth, Hk in Hk' by done. congruence.
  - rewrite Hcs, lookup_insert_ne, Hk in Hk' by (apply Hlt in Hk; lia). congruence.
Qed.

Lemma exec_evolves op s k c :
  trail_invariant s -> contracts s !! k = Some c ->
  exists c', contracts (snd (exec op s)) !! k = Some c'
             /\ evolves (count_failed_calls k [op]) c c'.
Proof.
  intros Hinv Hk. pose proof Hinv as (Hkeyed & Hlt & _).
  destruct (exec_keeps op s k c Hk) as [c' Hk']. exists c'. split; [done|].
  pose proof (exec_frame op s k c c' Hkeyed Hlt Hk Hk') as (Hterms & Hretry & Hworker & Hfund).
  split; [done|]. split; [|split].
  - destruct Hretry as [->|[-> (sid & res & ->)]].
    + unfold count_failed_calls. lia.
    + unfold count_failed_calls. simpl. rewrite Nat.eqb_refl. simpl. lia.
  - intros w Hw. destruct op; try congruence.
    destruct (_ && _); [destruct Hworker; congruence|congruence].
  - intros Hst. split; [by eapply exec_status_leaves_created|].
    destruct op; try done. destruct (_ && _); [by destruct Hfund|done].
Qed.

Lemma evolves_trans n m a b c :
  evolves n a b -> evolves m b c -> evolves (n + m) a c.
Proof.
  intros ((A1&A2&A3&A4&A5&A6&A7&A8) & Hr & Hw & Hf) ((B1&B2&B3&B4&B5&B6&B7&B8) & Hr' & Hw' & Hf').
  split; [repeat split; congruence|]. split; [lia|]. split; [eauto|].
  intros Hst. destruct (Hf Hst) as [Hst' [F1 F2]]. destruct (Hf' Hst') as [Hst'' [G1 G2]].
  split; [done|]. split; congruence.
Qed.

Lemma count_failed_calls_cons k op ops :
  count_failed_calls k (op :: ops)
  = (count_failed_calls k [op] + count_failed_calls k ops)%Z.
Proof.
  unfold count_failed_calls. simpl.
  destruct (match op with OpFailed cid _ _ => Nat.eqb cid k | _ => false end); simpl; lia.
Qed.

Lemma run_evolves ops s k c :
  trail_invariant s -> contracts s !! k = Some c ->
  exists c', contracts (run_all ops s) !! k = Some c'
             /\ evolves (count_failed_calls k ops) c c'.
Proof.
  revert s c. induction ops as [|op ops IH]; intros s c Hinv Hk.
  - exists c. split; [done|]. unfold evolves, same_terms, same_funding, count_failed_calls.
    simpl. repeat split; (done || lia).
  - destruct (exec_evolves op s k c Hinv Hk) as (c1 & Hk1 & He1).
    destruct (IH _ c1 (exec_preserves op s Hinv) Hk1) as (c2 & Hk2 & He2).
    exists c2. split; [exact Hk2|]. rewrite count_failed_calls_cons.
    by eapply evolves_trans.
Qed.

(** X1. The terms of a contract are fixed.  Take any session the
    service can reach from an empty store and any contract in it.
    Whatever operations follow, returning or raising, the contract is
    still stored, and its id, buyer wallet, amount, description,
    requirements schema, verification logic, max_retries and
    settlement reference are what they were; a worker once assigned is
    never replaced; and once the contract has left CREATED its funding
    transaction and escrow wallet are never rewritten. *)
Theorem contract_terms_are_fixed (before after : list Op) (k : uuid)
    (c : EscrowContract) :
  let s := run_all before empty_session in
  contracts s !! k = Some c ->
  exists c', contracts (run_all after s) !! k = Some c'
    /\ same_terms c c'
    /\ (forall w, worker_wallet c = Some w -> worker_wallet c' = Some w)
    /\ (status c <> status_value CREATED -> same_funding c c').
Proof.
  intros s Hk.
  destruct (run_evolves after s k c (run_all_invariant before _ empty_invariant) Hk)
    as (c' & Hk' & Ht & _ & Hw & Hf).
  exists c'. split; [done|]. split; [done|]. split; [done|].
  intros Hst. by apply Hf.
Qed.

(** The theorem on scenario 3 after acceptance, followed by a
    submission, a dispute, a second funding and a second acceptance. *)
Lemma contract_terms_are_fixed_witness :
  exists c',
    contracts (run_all [OpSubmit 0 "print(1)" None; OpDispute 0 "the work is late" "0xBUYER";
                        OpFund 0 "0xOTHER" "0xTHIEF"; OpAccept 0 "0xMALLORY"]
                 (demo_in_progress 3)) !! 0%nat = Some c'
    /\ same_terms (demo_contract IN_PROGRESS 3) c'
    /\ (forall w, worker_wallet (demo_contract IN_PROGRESS 3) = Some w ->
                  worker_wallet c' = Some w)
    /\ (status (demo_contract IN_PROGRESS 3) <> status_value CREATED ->
        same_funding (demo_contract IN_PROGRESS 3) c').
Proof.
  apply (contract_terms_are_fixed
           [ OpCreate "0xBUYER" 100 "Write a script that prints 'Hello, World!'"
               demo_logic None 3;
             OpFund 0 "0xFUNDING" "0xESCROW"; OpAccept 0 "0xWORKER" ]).
  vm_compute. reflexivity.
Defined.

(** X2. Retries are consumed by [record_verification_failed] alone.
    Over any run of operations that follows a reachable session, the
    retry counter of a contract never decreases, and it grows by at
    most the number of [record_verification_failed] calls addressed
    to that contract. *)
Theorem retries_move_only_on_failed_verdicts (before after : list Op) (k : uuid)
    (c : EscrowContract) :
  let s := run_all before empty_session in
  contracts s !! k = Some c ->
  exists c', contracts (run_all after s) !! k = Some c'
    /\ (retry_count c <= retry_count c' <= retry_count c + count_failed_calls k after)%Z.
Proof.
  intros s Hk.
  destruct (run_evolves after s k c (run_all_invariant before _ empty_invariant) Hk)
    as (c' & Hk' & _ & Hr & _).
  by exists c'.
Qed.

Lemma retries_move_only_on_failed_verdicts_witness :
  exists c',
    contracts (run_all [OpSubmit 0 "print(1)" None; OpStartVerification 0;
                        OpFailed 0 3 ∅; OpFailed 0 3 ∅; OpAccept 0 "0xMALLORY"]
                 (demo_in_progress 3)) !! 0%nat = Some c'
    /\ (0 <= retry_count c' <= 0 + 2)%Z.
Proof.
  apply (retries_move_only_on_failed_verdicts
           [ OpCreate "0xBUYER" 100 "Write a script that prints 'Hello, World!'"
               demo_logic None 3;
             OpFund 0 "0xFUNDING" "0xESCROW"; OpAccept 0 "0xWORKER" ]
           [OpSubmit 0 "print(1)" None; OpStartVerification 0;
            OpFailed 0 3 ∅; OpFailed 0 3 ∅; OpAccept 0 "0xMALLORY"]
           0%nat (demo_contract IN_PROGRESS 3)).
  vm_compute. reflexivity.
Defined.

(** ** Events that happen once *)

Lemma count_type_snoc t l ev :
  count_type t (l ++ [ev])
  = (count_type t l
     + if String.eqb (event_type ev) (event_type_value t) then 1 else 0)%nat.
Proof.
  unfold count_type. rewrite List.filter_app, length_app. simpl.
  by destruct (String.eqb _ _).
Qed.

Lemma exec_counted op s : trail_invariant s -> counted s -> counted (snd (exec op s)).
Proof.
  intros Hinv Hcnt k c' Hk'. pose proof Hinv as (Hkeyed & Hlt & _).
  destruct (decide (op_contract op = None)) as [Hnone|Hsome].
  { destruct op; try discriminate. revert Hk'.
    unfold exec, outcome, EscrowService.create_contract. monad_simpl.
    intros Hk'.
    assert (contracts s !! next_uuid s = None) as Hfresh.
    { destruct (contracts s !! next_uuid s) eqn:Hx; [|done]. apply Hlt in Hx. lia. }
    rewrite (events_of_snoc k s (mkSession _ _ (events s ++ [_]) _) _ eq_refl). simpl.
    destruct (Nat.eqb_spec (next_uuid s) k) as [<-|Hne].
    - rewrite lookup_insert_eq in Hk'. injection Hk' as <-.
      rewrite (events_of_absent s _ Hinv Hfresh). vm_compute. repeat split.
    - rewrite lookup_insert_ne in Hk' by done. rewrite app_nil_r. by apply Hcnt. }
  remember (exec op s) as rs eqn:Hrs.
  pose proof (exec_effect op s Hkeyed) as Heff. rewrite <- Hrs in Heff.
  destruct Heff as [err s' He Hstat Hid Hn
                   |cid c0 c1 ev e st t s' Hop Hc Hoe Hs Ht Hc' Hid' Hs' Hoth He Hecid Hety Hold Hnew Hn
                   |c0 ev s' Hop Hcs Hid Hs He Hecid Hety Hold Hnew Hn];
    simpl in Hk'; [| |done].
  - assert (exists c, contracts s !! k = Some c) as [c Hk].
    { specialize (Hstat k). rewrite Hk' in Hstat.
      destruct (contracts s !! k); [eauto|discriminate]. }
    assert (contracts (snd (exec op s)) !! k = Some c') as Hk2 by (by rewrite <- Hrs).
    pose proof (exec_frame op s k c c' Hkeyed Hlt Hk Hk2) as (_ & _ & Hworker & _).
    unfold succeeded in Hworker. rewrite <- Hrs in Hworker. simpl in Hworker.
    assert (worker_wallet c' = worker_wallet c) as Hw by (by destruct op).
    assert (status c' = status c) as Hst.
    { specialize (Hstat k). rewrite Hk, Hk' in Hstat. simpl in Hstat. congruence. }
    simpl. unfold events_of. rewrite He. unfold lifecycle_counts. rewrite Hw, Hst.
    by apply Hcnt.
  - simpl. rewrite (events_of_snoc k s s' ev He), Hecid.
    destruct (Nat.eqb_spec cid k) as [<-|Hne].
    2:{ rewrite app_nil_r. rewrite Hoth in Hk' by done. by apply Hcnt. }
    rewrite Hc' in Hk'. injection Hk' as <-.
    assert (contracts (snd (exec op s)) !! cid = Some c1) as Hk2 by (by rewrite <- Hrs).
    pose proof (exec_frame op s cid c0 c1 Hkeyed Hlt Hc Hk2) as (_ & _ & Hworker & _).
    unfold succeeded in Hworker. rewrite <- Hrs in Hworker. simpl in Hworker.
    destruct (Hcnt _ _ Hc) as (C1 & C2 & C3 & C4 & C5 & C6).
    unfold lifecycle_counts. rewrite !count_type_snoc, Hety, Hs', C1, C2, C3, C4, C5, C6, Hs.
    destruct op; simpl in Hop, Hoe; try discriminate;
      injection Hop as ->; try (injection Hoe as <-);
      try (destruct (_ <? _)%Z; injection Hoe as <-);
      apply spec_target_src in Ht; rewrite ?Nat.eqb_refl in Hworker; simpl in Hworker;
      first [destruct Ht as [[-> | ->] ->] | destruct Ht as [-> ->]];
      match type of Hworker with
      | _ /\ _ => destruct Hworker as [Hw0 Hw1]; rewrite Hw0, Hw1
      | _ => rewrite Hworker
      end;
      simpl; repeat split; lia.
Qed.

Lemma run_counted ops s : trail_invariant s -> counted s -> counted (run_all ops s).
Proof.
  revert s. induction ops as [|op ops IH]; intros s Hinv Hcnt; [done|].
  apply IH; [by apply exec_preserves|by apply exec_counted].
Qed.

Lemma empty_counted : counted empty_session.
Proof. intros k c H. simpl in H. by rewrite lookup_empty in H. Qed.

(** X3. The audit trail agrees with the contract row on the events
    that happen once.  After any run of operations started on an empty
    store, the trail of a stored contract holds exactly one
    CONTRACT_CREATED; one CONTRACT_FUNDED unless the contract is still
    CREATED, then none; one WORKER_ASSIGNED if the row has a worker,
    else none; one VERIFICATION_PASSED if the status is COMPLETED,
    else none; one MAX_RETRIES_EXCEEDED if the status is FAILED, else
    none; one DISPUTE_RAISED if the status is DISPUTED, else none.  An
    id without a contract has no events. *)
Theorem lifecycle_events_happen_once (ops : list Op) (k : uuid) :
  let s := run_all ops empty_session in
  match contracts s !! k with
  | Some c => lifecycle_counts c (events_of k s)
  | None => events_of k s = []
  end.
Proof.
  intros s. pose proof (run_all_invariant ops _ empty_invariant) as Hinv.
  destruct (contracts s !! k) as [c|] eqn:Hk.
  - by apply (run_counted ops empty_session empty_invariant empty_counted).
  - by apply events_of_absent.
Qed.

(** ** What the service answers *)

Lemma exec_answer op s cid c st :
  op_contract op = Some cid -> contracts s !! cid = Some c ->
  status c = status_value st ->
  fst (exec op s) = answer op c st.
Proof.
  intros Hop Hc Hs.
  destruct op as [b a d l sc r|cid0 tx w|cid0 w|cid0 work w|cid0|cid0 sid res|cid0 sid res|cid0 re who];
    simpl in Hop; try discriminate; injection Hop as ->;
    unfold exec, outcome, answer.
  - unfold EscrowService.fund_contract. monad_simpl. rewrite Hc. simpl.
    destruct (spec_target st on_chain_confirmed) as [t|] eqn:Ht.
    + rewrite (fire_transition_ok c _ st t s Hs Ht). simpl.
      apply spec_target_src in Ht as [-> ->]. by destruct (worker_wallet c).
    + rewrite (fire_transition_illegal c _ st s Hs Ht). simpl.
      destruct st; try discriminate; by destruct (worker_wallet c).
  - unfold EscrowService.accept_contract. monad_simpl. rewrite Hc. simpl.
    destruct (worker_wallet c); [done|]. monad_simpl.
    destruct (spec_target st worker_accepts) as [t|] eqn:Ht.
    + rewrite (fire_transition_ok c _ st t s Hs Ht). simpl.
      by apply spec_target_src in Ht as [-> ->].
    + rewrite (fire_transition_illegal c _ st s Hs Ht). simpl.
      by destruct st.
  - unfold EscrowService.submit_work. monad_simpl. rewrite Hc. simpl.
    destruct (spec_target st worker_submits) as [t|] eqn:Ht.
    + rewrite (fire_transition_ok c _ st t s Hs Ht). simpl.
      apply spec_target_src in Ht as [-> ->]. by destruct (worker_wallet c).
    + rewrite (fire_transition_illegal c _ st s Hs Ht). simpl.
      destruct st; try discriminate; by destruct (worker_wallet c).
  - unfold EscrowService.start_verification. monad_simpl. rewrite Hc. simpl.
    destruct (spec_target st auto_verify) as [t|] eqn:Ht.
    + rewrite (fire_transition_ok c _ st t s Hs Ht). simpl.
      apply spec_target_src in Ht as [-> ->]. by destruct (worker_wallet c).
    + rewrite (fire_transition_illegal c _ st s Hs Ht). simpl.
      destruct st; try discriminate; by destruct (worker_wallet c).
  - unfold EscrowService.record_verification_passed. monad_simpl. rewrite Hc. simpl.
    destruct (spec_target st verification_passed) as [t|] eqn:Ht.
    + rewrite (fire_transition_ok c _ st t s Hs Ht). simpl.
      apply spec_target_src in Ht as [-> ->].
      destruct (find _ _); simpl; by destruct (worker_wallet c).
    + rewrite (fire_transition_illegal c _ st s Hs Ht). simpl.
      destruct st; try discriminate; by destruct (worker_wallet c).
  - unfold EscrowService.record_verification_failed. monad_simpl. rewrite Hc. simpl.
    destruct (find _ _); simpl;
      destruct (Z.leb_spec (max_retries c) (retry_count c + 1)) as [Hle|Hgt];
      first [ apply Z.ltb_ge in Hle as Hb | apply Z.ltb_lt in Hgt as Hb ]; rewrite Hb;
      match goal with
      | |- context [EscrowService._fire_transition ?c1 ?e ?s1] =>
          destruct (spec_target st e) as [t|] eqn:Ht;
          [ rewrite (fire_transition_ok c1 e st t s1 Hs Ht); simpl;
            apply spec_target_src in Ht as [-> ->]; by destruct (worker_wallet c)
          | rewrite (fire_transition_illegal c1 e st s1 Hs Ht); simpl;
            destruct st; try discriminate; by destruct (worker_wallet c) ]
      end.
  - unfold EscrowService.raise_dispute. monad_simpl. rewrite Hc. simpl.
    unfold EscrowStatus_of_value. rewrite Hs, find_status_value. monad_simpl.
    destruct (spec_target st buyer_disputes) as [t|] eqn:Ht.
    + rewrite (fire_transition_ok c _ st t s Hs Ht). simpl.
      apply spec_target_src in Ht as [[-> | ->] ->]; by destruct (worker_wallet c).
    + rewrite (fire_transition_illegal c _ st s Hs Ht). simpl.
      destruct st; try discriminate; by destruct (worker_wallet c).
Qed.


Lemma op_event_fired op c e :
  op_event op c = Some e ->
  e <> timeout_expired /\ e <> dispute_resolved_for_worker
  /\ e <> dispute_resolved_for_buyer.
Proof.
  destruct op; simpl; try discriminate; try (intros [= <-]; done).
  destruct (_ <? _)%Z; intros [= <-]; done.
Qed.

Lemma settled_step op s k c st :
  trail_invariant s -> contracts s !! k = Some c ->
  status c = status_value st -> settled st = true ->
  exists c', contracts (snd (exec op s)) !! k = Some c'
             /\ status c' = status c
             /\ events_of k (snd (exec op s)) = events_of k s.
Proof.
  intros Hinv Hk Hst Hset. pose proof Hinv as (Hkeyed & Hlt & _).
  pose proof (exec_effect op s Hkeyed) as Heff.
  destruct Heff as [err s' He Hstat Hid Hn
                   |cid c0 c1 ev e st0 t s' Hop Hc Hoe Hs Ht Hc' Hid' Hs' Hoth He Hecid Hety Hold Hnew Hn
                   |c0 ev s' Hop Hcs Hid Hs He Hecid Hety Hold Hnew Hn]; simpl.
  - specialize (Hstat k). rewrite Hk in Hstat.
    destruct (contracts s' !! k) as [c'|]; [|discriminate]. exists c'.
    split; [done|]. split; [simpl in Hstat; congruence|]. unfold events_of. by rewrite He.
  - destruct (decide (k = cid)) as [->|Hne].
    + rewrite Hk in Hc. injection Hc as <-. rewrite Hst in Hs.
      apply status_value_inj in Hs as <-.
      apply op_event_fired in Hoe as (E1 & E2 & E3).
      destruct st, e; simpl in Hset, Ht; congruence.
    + exists c. rewrite Hoth by done. split; [done|]. split; [done|].
      rewrite (events_of_snoc k s s' ev He), Hecid.
      destruct (Nat.eqb_spec cid k); [congruence|]. by rewrite app_nil_r.
  - assert (k <> next_uuid s) as Hne by (apply Hlt in Hk; lia).
    exists c. rewrite Hcs, lookup_insert_ne by done. split; [done|]. split; [done|].
    rewrite (events_of_snoc k s s' ev He), Hecid.
    destruct (Nat.eqb_spec (next_uuid s) k); [congruence|]. by rewrite app_nil_r.
Qed.

Lemma settled_run ops s k c st :
  trail_invariant s -> contracts s !! k = Some c ->
  status c = status_value st -> settled st = true ->
  exists c', contracts (run_all ops s) !! k = Some c'
             /\ status c' = status c
             /\ events_of k (run_all ops s) = events_of k s.
Proof.
  revert s c. induction ops as [|op ops IH]; intros s c Hinv Hk Hst Hset.
  - by exists c.
  - destruct (settled_step op s k c st Hinv Hk Hst Hset) as (c1 & Hk1 & Hs1 & He1).
    destruct (IH _ c1 (exec_preserves op s Hinv) Hk1) as (c2 & Hk2 & Hs2 & He2);
      [congruence|done|].
    exists c2. simpl. split; [done|]. split; congruence.
Qed.

(** X4. COMPLETED, FAILED and DISPUTED are where the service stops.
    For a contract of a reachable session in one of these statuses,
    every operation addressed to it raises; and whatever operations
    follow, its status and its audit trail stay as they are.  The
    state machine declares two ways out of DISPUTED, but no operation
    of the service fires them. *)
Theorem settled_contracts_never_move (before after : list Op) (k : uuid)
    (c : EscrowContract) (st : EscrowStatus) :
  let s := run_all before empty_session in
  contracts s !! k = Some c ->
  status c = status_value st ->
  st = COMPLETED \/ st = FAILED \/ st = DISPUTED ->
  (forall op, op_contract op = Some k -> exists err, fst (exec op s) = Some err)
  /\ exists c', contracts (run_all after s) !! k = Some c'
                /\ status c' = status c
                /\ events_of k (run_all after s) = events_of k s.
Proof.
  intros s Hk Hst Hset. split.
  - intros op Hop. rewrite (exec_answer op s k c st Hop Hk Hst). unfold answer.
    destruct op; simpl in Hop; try discriminate;
      destruct Hset as [-> | [-> | ->]]; simpl;
      try (destruct (worker_wallet c)); try (destruct (_ <? _)%Z); eauto.
  - apply (settled_run after s k c st); try done.
    + apply run_all_invariant, empty_invariant.
    + by destruct Hset as [-> | [-> | ->]].
Qed.

(** The theorem on scenario 6: a dispute raised on scenario 3. *)
Lemma settled_contracts_never_move_witness :
  (forall op, op_contract op = Some 0%nat ->
              exists err, fst (exec op demo_disputed) = Some err)
  /\ exists c',
       contracts (run_all demo_after_dispute demo_disputed) !! 0%nat = Some c'
       /\ status c' = status (demo_contract DISPUTED 3)
       /\ events_of 0 (run_all demo_after_dispute demo_disputed)
          = events_of 0 demo_disputed.
Proof.
  apply (settled_contracts_never_move
           [ OpCreate "0xBUYER" 100 "Write a script that prints 'Hello, World!'"
               demo_logic None 3;
             OpFund 0 "0xFUNDING" "0xESCROW"; OpAccept 0 "0xWORKER";
             OpDispute 0 "the worker never answered" "0xBUYER" ]
           demo_after_dispute 0%nat (demo_contract DISPUTED 3) DISPUTED).
  - vm_compute. reflexivity.
  - reflexivity.
  - right. right. reflexivity.
Defined.



(** ** The workflow: submit, verify, settle *)

Lemma record_verification_passed_run s cid sid res c :
  contracts s !! cid = Some c -> c_id c = cid ->
  status c = status_value VERIFYING ->
  let c' := set_status (status_value COMPLETED) c in
  EscrowService.record_verification_passed cid sid res s =
  (inr c',
   mkSession (<[cid := c']> (contracts s))
     (mark_submission sid true res (submissions s))
     (events s ++
      [mkEvent (next_uuid s) cid (event_type_value VERIFICATION_PASSED)
         (Some (status_value VERIFYING)) (status_value COMPLETED) "SYSTEM"
         (Some res)])
     (S (next_uuid s))).
Proof.
  intros Hc Hid Hst c'. subst c'.
  unfold EscrowService.record_verification_passed, mark_submission.
  monad_simpl. rewrite Hc. simpl.
  erewrite (fire_transition_ok _ _ VERIFYING); [| exact Hst | reflexivity].
  simpl. destruct (find _ _) as [sub|]; simpl; rewrite Hid; reflexivity.
Qed.

Section Pipeline.

Variable settings : Settings.
Variable py_str : pyval -> string.
Variable py_float : string -> option pyfloat.
Variable run_in_sandbox : string -> string -> pyval -> SandboxOutcome.
Variable acompletion : nat -> string -> string + option string.
Variable json_loads : string -> string + pyval.
Variable iter_errors : gmap string pyval -> pyval -> ValidatorOutcome.

Let verify_latest :=
  verify_latest_submission settings py_str py_float run_in_sandbox acompletion
    json_loads iter_errors.
Let run_verifier :=
  verify settings py_str py_float run_in_sandbox acompletion json_loads iter_errors.

(** [verify_latest_submission] on a contract in SUBMITTED whose newest
    submission is [sub], step by step. *)
Lemma verify_latest_run s cid c sub older :
  contracts s !! cid = Some c -> c_id c = cid ->
  status c = status_value SUBMITTED ->
  rev (List.filter (fun x => Nat.eqb (s_contract_id x) cid) (submissions s))
  = sub :: older ->
  let c1 := set_status (status_value VERIFYING) c in
  let s1 :=
    mkSession (<[cid := c1]> (contracts s)) (submissions s)
      (events s ++
       [mkEvent (next_uuid s) cid (event_type_value VERIFICATION_STARTED)
          (Some (status_value SUBMITTED)) (status_value VERIFYING) "SYSTEM" None])
      (S (next_uuid s)) in
  verify_latest cid s =
  match VerifierFactory_create (verification_logic c) with
  | inl exc => (inl exc, s1)
  | inr v =>
      match run_verifier v (mkRequest (pretty cid) (s_payload sub)
                              (verification_logic c) (requirements_schema c)) with
      | inl exc => (inl exc, s1)
      | inr r =>
          if is_valid r then
            match EscrowService.record_verification_passed cid (s_id sub) (to_dict r) s1 with
            | (inr _, s2) => (inr r, s2)
            | (inl exc, s2) => (inl exc, s2)
            end
          else
            match EscrowService.record_verification_failed cid (s_id sub) (to_dict r) s1 with
            | (inr _, s2) => (inr r, s2)
            | (inl exc, s2) => (inl exc, s2)
            end
      end
  end.
Proof.
  intros Hc Hid Hst Hsub c1 s1.
  unfold verify_latest, verify_latest_submission.
  unfold bind at 1. rewrite (start_verification_run s cid c Hc Hid Hst).
  cbv zeta. unfold bind at 1.
  unfold SubmissionRepository.get_by_contract. cbn [submissions].
  rewrite Hsub. fold c1. fold s1.
  change (verification_logic c1) with (verification_logic c).
  change (requirements_schema c1) with (requirements_schema c).
  destruct (VerifierFactory_create (verification_logic c)) as [exc|v]; [reflexivity|].
  fold run_verifier.
  destruct (run_verifier v _) as [exc|r]; [reflexivity|].
  destruct (is_valid r); unfold bind, ret; reflexivity.
Qed.


Lemma mark_submission_last sid sub valid res subs :
  s_id sub = sid ->
  last (mark_submission sid valid res (subs ++ [sub]))
  = Some (set_verification valid res sub).
Proof.
  intros <-. unfold mark_submission.
  destruct (find _ _) as [found|] eqn:Hf.
  - apply List.find_some in Hf as [_ Heq]. apply Nat.eqb_eq in Heq.
    rewrite fmap_app. simpl. rewrite last_snoc, Heq, Nat.eqb_refl. reflexivity.
  - assert (In sub (subs ++ [sub])) as Hin by (apply List.in_or_app; right; by left).
    pose proof (List.find_none _ _ Hf sub Hin) as Hno. simpl in Hno.
    by rewrite Nat.eqb_refl in Hno.
Qed.

Variable uuid_hex : uuid -> string.
Variable erc20_transfer : string -> Q -> string -> Exn + string.
Variable exn_str : Exn -> string.

Let workflow :=
  run_escrow_workflow settings py_str py_float run_in_sandbox acompletion
    json_loads iter_errors uuid_hex erc20_transfer exn_str.

(** The newest submission of a contract right after [submit_work]. *)
Lemma newest_after_submit cid sub subs :
  s_contract_id sub = cid ->
  rev (List.filter (fun x => Nat.eqb (s_contract_id x) cid) (subs ++ [sub]))
  = sub :: rev (List.filter (fun x => Nat.eqb (s_contract_id x) cid) subs).
Proof.
  intros <-. rewrite List.filter_app. simpl. rewrite Nat.eqb_refl, rev_app_distr.
  reflexivity.
Qed.

(** The workflow on a contract in IN_PROGRESS, up to the verdict. *)
Lemma workflow_run s cid work worker c :
  contracts s !! cid = Some c -> c_id c = cid ->
  status c = status_value IN_PROGRESS ->
  let sub := mkSubmission (next_uuid s) cid work (py_or worker (worker_wallet c))
               None None in
  let state0 :=
    mkWorkflowState (pretty cid) (Some (pretty (next_uuid s))) work
      (default "" (py_or worker (Some ""))) false ∅ "" "" "" in
  let c1 := set_status (status_value VERIFYING) (set_status (status_value SUBMITTED) c) in
  let s1 :=
    mkSession (<[cid := c1]> (<[cid := set_status (status_value SUBMITTED) c]> (contracts s)))
      (submissions s ++ [sub])
      ((events s ++
        [mkEvent (S (next_uuid s)) cid (event_type_value WORK_SUBMITTED)
           (Some (status_value IN_PROGRESS)) (status_value SUBMITTED)
           (default "UNKNOWN"
              (py_or (py_or worker (worker_wallet c)) (Some "UNKNOWN")))
           (Some {[ "submission_id" := VStr (pretty (next_uuid s)) ]})]) ++
       [mkEvent (S (S (next_uuid s))) cid (event_type_value VERIFICATION_STARTED)
          (Some (status_value SUBMITTED)) (status_value VERIFYING) "SYSTEM" None])
      (S (S (S (next_uuid s)))) in
  workflow cid work worker s =
  match VerifierFactory_create (verification_logic c) with
  | inl exc => (inr (workflow_except exn_str exc state0), s1)
  | inr v =>
      match run_verifier v (mkRequest (pretty cid) work
                              (verification_logic c) (requirements_schema c)) with
      | inl exc => (inr (workflow_except exn_str exc state0), s1)
      | inr r =>
          let state1 := set_wf_verification (to_dict r) (is_valid r) state0 in
          if is_valid r then
            let c2 := set_status (status_value COMPLETED) c1 in
            let tx := ("0x" ++ uuid_hex (4 + next_uuid s)%nat
                       ++ py_take 2 (uuid_hex (5 + next_uuid s)%nat))%string in
            (inr (set_wf_final_status "COMPLETED" (set_wf_settlement_tx_hash tx state1)),
             mkSession
               (<[cid := set_settlement_tx_hash (Some tx) c2]>
                  (<[cid := c2]> (contracts s1)))
               (mark_submission (next_uuid s) true (to_dict r) (submissions s1))
               (events s1 ++
                [mkEvent (3 + next_uuid s)%nat cid (event_type_value VERIFICATION_PASSED)
                   (Some (status_value VERIFYING)) (status_value COMPLETED) "SYSTEM"
                   (Some (to_dict r))])
               (6 + next_uuid s)%nat)
          else
            let n := (retry_count c + 1)%Z in
            let retry := (n <? max_retries c)%Z in
            let target := if retry then IN_PROGRESS else FAILED in
            let c2 := set_status (status_value target) (set_retry_count n c1) in
            (inr (set_wf_final_status (status_value target) state1),
             mkSession
               (<[cid := c2]> (<[cid := set_retry_count n c1]> (contracts s1)))
               (mark_submission (next_uuid s) false (to_dict r) (submissions s1))
               (events s1 ++
                [mkEvent (3 + next_uuid s)%nat cid
                   (event_type_value
                      (if retry then VERIFICATION_FAILED else MAX_RETRIES_EXCEEDED))
                   (Some (status_value VERIFYING)) (status_value target) "SYSTEM"
                   (Some (dict_with_unpack "retry_count" (VInt n) (to_dict r)))])
               (4 + next_uuid s)%nat)
      end
  end.
Proof.
  intros Hc Hid Hst sub state0 c1 s1.
  unfold workflow, run_escrow_workflow.
  unfold awaited at 1. rewrite (submit_work_run s cid work worker c Hc Hid Hst).
  cbv zeta. unfold awaited at 1. fold verify_latest.
  rewrite (verify_latest_run _ cid (set_status (status_value SUBMITTED) c) sub
             (rev (List.filter (fun x => Nat.eqb (s_contract_id x) cid) (submissions s))));
    [ | simpl; apply lookup_insert_eq | exact Hid | reflexivity
      | simpl; by apply newest_after_submit ].
  cbv zeta. cbn [verification_logic requirements_schema set_status s_payload s_id
                 contracts submissions events next_uuid].
  fold sub. fold c1. fold s1.
  destruct (VerifierFactory_create (verification_logic c)) as [exc|v]; [reflexivity|].
  destruct (run_verifier v _) as [exc|r]; [reflexivity|].
  destruct (is_valid r) eqn:Hvalid.
  - rewrite (record_verification_passed_run s1 cid (s_id sub) (to_dict r) c1);
      [ | simpl; apply lookup_insert_eq | exact Hid | reflexivity ].
    cbv zeta. rewrite Hvalid.
    unfold awaited, EscrowService.get_contract, transfer_to_worker. monad_simpl.
    rewrite lookup_insert_eq. simpl. rewrite Hid. reflexivity.
  - rewrite (record_verification_failed_run s1 cid (s_id sub) (to_dict r) c1);
      [ | simpl; apply lookup_insert_eq | exact Hid | reflexivity ].
    cbv zeta. rewrite Hvalid.
    unfold awaited, EscrowService.get_contract. monad_simpl.
    rewrite lookup_insert_eq. simpl. reflexivity.
Qed.

(** X6. The workflow settles accepted work.  On a contract in
    IN_PROGRESS whose verifier returns a valid verdict for the work,
    [run_escrow_workflow] returns a state with final_status COMPLETED,
    verification_passed true, the verdict, an empty error and the
    simulated settlement hash; the contract is COMPLETED and carries
    that hash as its settlement reference, with its retry counter as
    before; other contracts are untouched; the stored submission is
    marked valid; and the log has grown by exactly WORK_SUBMITTED,
    VERIFICATION_STARTED and VERIFICATION_PASSED: the payout itself
    leaves no event. *)
Theorem workflow_settles_accepted_work (s : Session) (cid : uuid) (work : string)
    (worker : option string) (c : EscrowContract) (v : Verifier)
    (r : VerificationResult) :
  contracts s !! cid = Some c -> c_id c = cid ->
  status c = status_value IN_PROGRESS ->
  VerifierFactory_create (verification_logic c) = inr v ->
  run_verifier v (mkRequest (pretty cid) work (verification_logic c)
                    (requirements_schema c)) = inr r ->
  is_valid r = true ->
  exists st s' sub e1 e2 e3,
    workflow cid work worker s = (inr st, s')
    /\ wf_final_status st = "COMPLETED"
    /\ wf_verification_passed st = true
    /\ wf_verification_result st = to_dict r
    /\ wf_error st = ""
    /\ wf_submission_id st = Some (pretty (s_id sub))
    /\ wf_settlement_tx_hash st
       = ("0x" ++ uuid_hex (4 + next_uuid s)%nat
          ++ py_take 2 (uuid_hex (5 + next_uuid s)%nat))%string
    /\ contracts s' !! cid
       = Some (set_settlement_tx_hash (Some (wf_settlement_tx_hash st))
                 (set_status (status_value COMPLETED) c))
    /\ (forall k, k <> cid -> contracts s' !! k = contracts s !! k)
    /\ last (submissions s') = Some sub
    /\ s_payload sub = work /\ s_is_valid sub = Some true
    /\ events s' = events s ++ [e1; e2; e3]
    /\ event_type <$> [e1; e2; e3]
       = event_type_value <$> [WORK_SUBMITTED; VERIFICATION_STARTED; VERIFICATION_PASSED].
Proof.
  intros Hc Hid Hst Hv Hr Hvalid.
  pose proof (workflow_run s cid work worker c Hc Hid Hst) as Hrun.
  cbv zeta in Hrun. rewrite Hv, Hr, Hvalid in Hrun.
  eexists _, _, (set_verification true (to_dict r)
                   (mkSubmission (next_uuid s) cid work
                      (py_or worker (worker_wallet c)) None None)), _, _, _.
  split; [exact Hrun|]. cbn -[py_take pretty to_dict].
  rewrite lookup_insert_eq.
  erewrite mark_submission_last by reflexivity.
  repeat (split; [reflexivity|]).
  split; [intros k Hne; by rewrite !lookup_insert_ne by done|].
  split; [reflexivity|]. split; [reflexivity|]. split; [reflexivity|].
  split; [rewrite <- !app_assoc; reflexivity|]. reflexivity.
Qed.


(** The workflow on a contract that [submit_work] refuses. *)
Lemma workflow_refused s cid work worker exc :
  EscrowService.submit_work cid work worker s = (inl exc, s) ->
  workflow cid work worker s
  = (inr (workflow_except exn_str exc
            (mkWorkflowState (pretty cid) None work
               (default "" (py_or worker (Some ""))) false ∅ "" "" "")), s).
Proof.
  intros Hsub. unfold workflow, run_escrow_workflow. unfold awaited at 1.
  by rewrite Hsub.
Qed.

(** X8. A verifier that raises strands the contract.  When the
    factory refuses the contract's verification logic, or the verifier
    raises on the work, the workflow catches the exception and returns
    final_status ERROR with the exception's text; but the submission
    has been stored (unjudged) and the contract moved to VERIFYING,
    two events further.  From there every later run of the workflow
    on the contract returns ERROR for the illegal transition
    (VERIFYING, worker_submits) and changes nothing, and every
    operation of the service other than the two verdict recordings is
    refused and changes nothing. *)
Theorem workflow_strands_contract_when_verifier_raises (s : Session) (cid : uuid)
    (work : string) (worker : option string) (c : EscrowContract) (exc : Exn) :
  contracts s !! cid = Some c -> c_id c = cid ->
  status c = status_value IN_PROGRESS ->
  VerifierFactory_create (verification_logic c) = inl exc
  \/ (exists v, VerifierFactory_create (verification_logic c) = inr v
        /\ run_verifier v (mkRequest (pretty cid) work (verification_logic c)
                             (requirements_schema c)) = inl exc) ->
  exists st s' sub,
    workflow cid work worker s = (inr st, s')
    /\ wf_final_status st = "ERROR"
    /\ wf_error st = exn_str exc
    /\ wf_verification_passed st = false
    /\ wf_settlement_tx_hash st = ""
    /\ contracts s' !! cid = Some (set_status (status_value VERIFYING) c)
    /\ last (submissions s') = Some sub
    /\ s_payload sub = work /\ s_is_valid sub = None
    /\ length (events s') = (length (events s) + 2)%nat
    /\ (forall work' worker', exists st',
          workflow cid work' worker' s' = (inr st', s')
          /\ wf_final_status st' = "ERROR"
          /\ wf_error st'
             = exn_str (InvalidStateTransitionError (status_value VERIFYING)
                          (event_name worker_submits)))
    /\ (forall op, op_contract op = Some cid ->
          (forall sid res, op <> OpPassed cid sid res /\ op <> OpFailed cid sid res) ->
          exists err, exec op s' = (Some err, s')).
Proof.
  intros Hc Hid Hst Hraise.
  pose proof (workflow_run s cid work worker c Hc Hid Hst) as Hrun.
  cbv zeta in Hrun.
  assert (exists st s', workflow cid work worker s = (inr st, s')
            /\ st = workflow_except exn_str exc
                      (mkWorkflowState (pretty cid) (Some (pretty (next_uuid s))) work
                         (default "" (py_or worker (Some ""))) false ∅ "" "" "")
            /\ contracts s' !! cid = Some (set_status (status_value VERIFYING) c)
            /\ submissions s'
               = submissions s ++
                 [mkSubmission (next_uuid s) cid work (py_or worker (worker_wallet c))
                    None None]
            /\ length (events s') = (length (events s) + 2)%nat)
    as (st & s' & Hwf & -> & Hc' & Hsubs & Hlen).
  { destruct Hraise as [Hv|(v & Hv & Hr)].
    - rewrite Hv in Hrun. do 2 eexists. split; [exact Hrun|]. simpl.
      rewrite lookup_insert_eq, !length_app. simpl. repeat split; lia.
    - rewrite Hv, Hr in Hrun. do 2 eexists. split; [exact Hrun|]. simpl.
      rewrite lookup_insert_eq, !length_app. simpl. repeat split; lia. }
  eexists _, s', (mkSubmission (next_uuid s) cid work (py_or worker (worker_wallet c))
                    None None).
  split; [exact Hwf|]. rewrite Hsubs, last_snoc.
  do 9 (split; [done|]). split.
  - intros work' worker'. eexists. split.
    + apply workflow_refused.
      apply (submit_work_refused s' cid work' worker' _ VERIFYING Hc'); done.
    + split; reflexivity.
  - intros op Hop Hnot.
    pose proof (exec_answer op s' cid _ VERIFYING Hop Hc' eq_refl) as Ha.
    destruct (exec op s') as [[err|] s''] eqn:Hex; simpl in Ha.
    + exists err. f_equal. apply (raise_leaves_session op s' err s''); [|done].
      intros cid' sid res ->. simpl in Hop. injection Hop as ->.
      by destruct (Hnot sid res).
    + exfalso. unfold answer in Ha.
      destruct op; simpl in Hop, Ha; try discriminate; injection Hop as ->;
        try (destruct (worker_wallet c); discriminate).
      * by destruct (Hnot sid result).
      * by destruct (Hnot sid result).
Qed.

Lemma submit_work_accepted s cid work worker sub s1 :
  EscrowService.submit_work cid work worker s = (inr sub, s1) ->
  exists c, contracts s !! cid = Some c /\ status c = status_value IN_PROGRESS.
Proof.
  unfold EscrowService.submit_work. monad_simpl.
  destruct (contracts s !! cid) as [c|] eqn:Hc; simpl; [|discriminate].
  destruct (fire_transition_cases c worker_submits s)
    as [(st & t & Hs & Ht & ->)|(err & ->)]; simpl; [|discriminate].
  apply spec_target_src in Ht as [-> ->]. eauto.
Qed.


End Pipeline.

(** ** Payment references *)

Lemma string_length_app (a b : string) :
  String.length (a ++ b)%string = (String.length a + String.length b)%nat.
Proof. induction a as [|x a IH]; simpl; [done|]. by rewrite IH. Qed.

Lemma py_take_length_min n s :
  String.length (py_take n s) = Nat.min n (String.length s).
Proof.
  revert s. induction n as [|n IH]; intros [|x s]; try reflexivity.
  change (py_take (S n) (String x s)) with (String x (py_take n s)).
  simpl. by rewrite IH.
Qed.

(** X10. The references of the simulated payment service.  Given
    that an identifier has 32 hexadecimal digits, the simulated
    [create_escrow_wallet] returns "0x" followed by those 32 digits, 34
    characters (its slice [:40] finds only 32), and the simulated
    [transfer_to_worker] returns "0x" followed by 34 digits, 36
    characters; both draw fresh identifiers and touch nothing else of
    the session. *)
Theorem simulated_payment_references (uuid_hex : uuid -> string)
    (cdp_wallet_address : Exn + string)
    (erc20_transfer : string -> Q -> string -> Exn + string)
    (worker : string) (amount : Q) (wallet : string) (s : Session) :
  (forall u, String.length (uuid_hex u) = 32%nat) ->
  (exists address,
      create_escrow_wallet uuid_hex cdp_wallet_address true s
      = (inr address,
         mkSession (contracts s) (submissions s) (events s) (1 + next_uuid s))
      /\ String.length address = 34%nat
      /\ py_startswith "0x" address = true)
  /\ (exists tx_hash,
        transfer_to_worker uuid_hex erc20_transfer true worker amount wallet s
        = (inr tx_hash,
           mkSession (contracts s) (submissions s) (events s) (2 + next_uuid s))
        /\ String.length tx_hash = 36%nat
        /\ py_startswith "0x" tx_hash = true).
Proof.
  intros Hhex. split.
  - eexists. split; [reflexivity|]. split; [|reflexivity].
    rewrite string_length_app, py_take_length_min, Hhex. reflexivity.
  - eexists. split; [reflexivity|]. split; [|reflexivity].
    rewrite !string_length_app, py_take_length_min, !Hhex. reflexivity.
Qed.

Lemma demo_uuid_hex_length u : String.length (demo_uuid_hex u) = 32%nat.
Proof.
  unfold demo_uuid_hex. rewrite py_take_length_min, string_length_app.
  apply Nat.min_l. change (String.length "00000000000000000000000000000000") with 32%nat.
  lia.
Qed.

Lemma simulated_payment_references_witness :
  (exists address,
      create_escrow_wallet demo_uuid_hex (inl (ValueError "no provider")) true
        empty_session
      = (inr address, mkSession ∅ [] [] 1)
      /\ String.length address = 34%nat
      /\ py_startswith "0x" address = true)
  /\ (exists tx_hash,
        transfer_to_worker demo_uuid_hex demo_erc20_transfer true "0xWORKER" 100
          "0xESCROW" empty_session
        = (inr tx_hash, mkSession ∅ [] [] 2)
        /\ String.length tx_hash = 36%nat
        /\ py_startswith "0x" tx_hash = true).
Proof.
  exact (simulated_payment_references demo_uuid_hex (inl (ValueError "no provider"))
           demo_erc20_transfer "0xWORKER" 100 "0xESCROW" empty_session
           demo_uuid_hex_length).
Defined.

Lemma demo_in_progress_3 :
  contracts (demo_in_progress 3) !! 0%nat = Some (demo_contract IN_PROGRESS 3).
Proof. vm_compute. reflexivity. Qed.

Lemma demo_number_lookup :
  contracts demo_number_session !! 0%nat = Some demo_number_contract.
Proof. vm_compute. reflexivity. Qed.

(** Scenario 1: the greeting is what the contract expects. *)
Lemma workflow_settles_accepted_work_witness :
  exists st s',
    demo_workflow demo_sandbox_hello 0 "print('Hello, World!')" None (demo_in_progress 3)
    = (inr st, s')
    /\ wf_final_status st = "COMPLETED"
    /\ (status <$> contracts s' !! 0%nat) = Some "COMPLETED"
    /\ (settlement_tx_hash <$> contracts s' !! 0%nat)
       = Some (Some (wf_settlement_tx_hash st)).
Proof.
  destruct (workflow_settles_accepted_work
              demo_settings demo_py_str demo_py_float demo_sandbox_hello
              demo_acompletion demo_json_loads demo_iter_errors
              demo_uuid_hex demo_erc20_transfer demo_exn_str
              (demo_in_progress 3) 0 "print('Hello, World!')" None
              (demo_contract IN_PROGRESS 3) (CodeExecutionVerifier None None)
              (mkResult true (Some 1%Q)
                 "Code executed successfully. Expected output 'Hello, World!' found in stdout."
                 {[ "stdout" := VStr "Hello, World!"; "stderr" := VStr "";
                    "exit_code" := VInt 0; "timeout" := VInt 10;
                    "expected_output" := VStr "Hello, World!" ]} None)
              demo_in_progress_3 eq_refl eq_refl eq_refl eq_refl eq_refl)
    as (st & s' & sub & e1 & e2 & e3 & Hrun & Hfinal & _ & _ & _ & _ & _ & Hc & _).
  exists st, s'. split; [exact Hrun|]. split; [exact Hfinal|].
  split; [exact (f_equal (fmap status) Hc)|exact (f_equal (fmap settlement_tx_hash) Hc)].
Defined.


(** A contract whose expected output was written as the number 55:
    the first submission leaves it in VERIFYING for good. *)
Lemma workflow_strands_contract_when_verifier_raises_witness :
  exists st s',
    demo_workflow demo_sandbox_hello 0 "print(55)" None demo_number_session = (inr st, s')
    /\ wf_final_status st = "ERROR"
    /\ wf_error st = "object has no attribute 'strip'"
    /\ (status <$> contracts s' !! 0%nat) = Some "VERIFYING"
    /\ exists st', demo_workflow demo_sandbox_hello 0 "print(55)" None s' = (inr st', s')
                   /\ wf_final_status st' = "ERROR".
Proof.
  destruct (workflow_strands_contract_when_verifier_raises
              demo_settings demo_py_str demo_py_float demo_sandbox_hello
              demo_acompletion demo_json_loads demo_iter_errors
              demo_uuid_hex demo_erc20_transfer demo_exn_str
              demo_number_session 0 "print(55)" None demo_number_contract
              (AttributeError "object has no attribute 'strip'")
              demo_number_lookup eq_refl eq_refl
              (or_intror (ex_intro _ (CodeExecutionVerifier None None)
                            (conj eq_refl eq_refl))))
    as (st & s' & sub & Hrun & Hfinal & Herr & _ & _ & Hc & _ & _ & _ & _ & Hagain & _).
  exists st, s'. split; [exact Hrun|]. split; [exact Hfinal|]. split; [exact Herr|].
  split; [exact (f_equal (fmap status) Hc)|].
  destruct (Hagain "print(55)" None) as (st' & Hrun' & Hfinal' & _).
  exists st'. split; [exact Hrun'|exact Hfinal'].
Defined.


(** ** The judge, fail-closed *)






Section Judge.

Variable settings : Settings.
Variable py_str : pyval -> string.
Variable py_float : string -> option pyfloat.
Variable acompletion : nat -> string -> string + option string.

Let attempt (k : nat) (request : VerificationRequest) : string + string :=
  call_llm_once py_str acompletion k
    (dict_get (rq_config request) "criteria" (VStr "")) (rq_payload request).


End Judge.

(** ** The shape of the machine *)

(** X12. The declared machine is well formed.  No two transitions
    share event and source, so the order of the declarations never
    decides a firing; no firing leads back to CREATED; every state can
    be reached from CREATED by firing events; and from every state
    other than COMPLETED and FAILED, both COMPLETED and FAILED can be
    reached. *)
Theorem machine_is_well_formed :
  (forall t1 t2, t1 ∈ transitions -> t2 ∈ transitions ->
     t_event t1 = t_event t2 -> t_source t1 = t_source t2 -> t1 = t2)
  /\ (forall sm e sm', fire sm e = inr sm' -> current_state sm' <> CREATED)
  /\ (forall st, exists es, fire_all (mkMachine CREATED) es = inr (mkMachine st))
  /\ (forall st, st <> COMPLETED -> st <> FAILED ->
        (exists es, fire_all (mkMachine st) es = inr (mkMachine COMPLETED))
        /\ (exists es, fire_all (mkMachine st) es = inr (mkMachine FAILED))).
Proof.
  split; [|split; [|split]].
  - intros t1 t2 H1 H2.
    apply list_elem_of_In in H1, H2. simpl in H1, H2.
    repeat (destruct H1 as [<-|H1]); try done;
      repeat (destruct H2 as [<-|H2]); try done; simpl; intros; congruence.
  - intros [st] e sm'. rewrite fire_table.
    destruct (spec_target st e) as [t|] eqn:Ht; [|discriminate].
    intros [= <-]. simpl. by apply spec_target_not_created in Ht.
  - intros st.
    exists (match st with
            | CREATED => []
            | FUNDED => [on_chain_confirmed]
            | IN_PROGRESS => [on_chain_confirmed; worker_accepts]
            | SUBMITTED => [on_chain_confirmed; worker_accepts; worker_submits]
            | VERIFYING =>
                [on_chain_confirmed; worker_accepts; worker_submits; auto_verify]
            | COMPLETED =>
                [on_chain_confirmed; worker_accepts; worker_submits; auto_verify;
                 verification_passed]
            | FAILED => [timeout_expired]
            | DISPUTED => [on_chain_confirmed; buyer_disputes]
            end).
    by destruct st.
  - intros st Hc Hf. split.
    + exists (match st with
              | CREATED =>
                  [on_chain_confirmed; worker_accepts; worker_submits; auto_verify;
                   verification_passed]
              | FUNDED => [worker_accepts; worker_submits; auto_verify; verification_passed]
              | IN_PROGRESS => [worker_submits; auto_verify; verification_passed]
              | SUBMITTED => [auto_verify; verification_passed]
              | VERIFYING => [verification_passed]
              | DISPUTED => [dispute_resolved_for_worker]
              | _ => []
              end).
      by destruct st.
    + exists (match st with
              | CREATED => [timeout_expired]
              | FUNDED => [buyer_disputes; dispute_resolved_for_buyer]
              | IN_PROGRESS => [buyer_disputes; dispute_resolved_for_buyer]
              | SUBMITTED => [auto_verify; max_retries_exceeded]
              | VERIFYING => [max_retries_exceeded]
              | DISPUTED => [dispute_resolved_for_buyer]
              | _ => []
              end).
      by destruct st.
Qed.

(** ** Reports and refusals *)








(** ** Clients: operations and workflow runs *)

(** Writing the settlement reference keeps the invariant of the trail. *)
Lemma settle_preserves s cid c tx n :
  trail_invariant s -> contracts s !! cid = Some c -> (next_uuid s <= n)%nat ->
  trail_invariant
    (mkSession (<[cid := set_settlement_tx_hash tx c]> (contracts s))
       (submissions s) (events s) n).
Proof.
  intros (Hk & Hlt & Hev & Hch) Hc Hn.
  unfold trail_invariant, keyed, events_of. simpl.
  split; [|split; [|split]].
  - intros k c'. destruct (decide (k = cid)) as [->|Hne].
    + rewrite lookup_insert_eq. intros [= <-]. simpl. by apply (Hk cid).
    + rewrite lookup_insert_ne by done. apply Hk.
  - intros k c'. destruct (decide (k = cid)) as [->|Hne].
    + intros _. apply Hlt in Hc. lia.
    + rewrite lookup_insert_ne by done. intros Hx%Hlt. lia.
  - intros ev Hin. destruct (decide (e_contract_id ev = cid)) as [->|Hne].
    + rewrite lookup_insert_eq. eauto.
    + rewrite lookup_insert_ne by done. by apply Hev.
  - intros k c'. destruct (decide (k = cid)) as [->|Hne].
    + rewrite lookup_insert_eq. intros [= <-]. simpl. by apply (Hch cid).
    + rewrite lookup_insert_ne by done. apply Hch.
Qed.

Lemma submit_then_start s cid work worker c :
  contracts s !! cid = Some c -> c_id c = cid ->
  status c = status_value IN_PROGRESS ->
  run_all [OpSubmit cid work worker; OpStartVerification cid] s
  = mkSession
      (<[cid := set_status (status_value VERIFYING)
                  (set_status (status_value SUBMITTED) c)]>
         (<[cid := set_status (status_value SUBMITTED) c]> (contracts s)))
      (submissions s ++
       [mkSubmission (next_uuid s) cid work (py_or worker (worker_wallet c)) None None])
      ((events s ++
        [mkEvent (S (next_uuid s)) cid (event_type_value WORK_SUBMITTED)
           (Some (status_value IN_PROGRESS)) (status_value SUBMITTED)
           (default "UNKNOWN"
              (py_or (py_or worker (worker_wallet c)) (Some "UNKNOWN")))
           (Some {[ "submission_id" := VStr (pretty (next_uuid s)) ]})]) ++
       [mkEvent (S (S (next_uuid s))) cid (event_type_value VERIFICATION_STARTED)
          (Some (status_value SUBMITTED)) (status_value VERIFYING) "SYSTEM" None])
      (S (S (S (next_uuid s)))).
Proof.
  intros Hc Hid Hst. unfold run_all. cbn [fold_left]. unfold exec at 2, outcome.
  rewrite (submit_work_run s cid work worker c Hc Hid Hst). cbv zeta. cbn [snd].
  unfold exec, outcome.
  erewrite start_verification_run;
    [| simpl; apply lookup_insert_eq | exact Hid | reflexivity ].
  reflexivity.
Qed.

Section Steps.

Variable settings : Settings.
Variable py_str : pyval -> string.
Variable py_float : string -> option pyfloat.
Variable run_in_sandbox : string -> string -> pyval -> SandboxOutcome.
Variable acompletion : nat -> string -> string + option string.
Variable json_loads : string -> string + pyval.
Variable iter_errors : gmap string pyval -> pyval -> ValidatorOutcome.
Variable uuid_hex : uuid -> string.
Variable erc20_transfer : string -> Q -> string -> Exn + string.
Variable exn_str : Exn -> string.

Let workflow :=
  run_escrow_workflow settings py_str py_float run_in_sandbox acompletion
    json_loads iter_errors uuid_hex erc20_transfer exn_str.
Let run_verifier :=
  verify settings py_str py_float run_in_sandbox acompletion json_loads iter_errors.

(** What a run of the workflow does to a session that satisfies the
    invariant of the trail. *)
Lemma workflow_outcome s cid work worker :
  trail_invariant s ->
  let s' := snd (workflow cid work worker s) in
  trail_invariant s'
  /\ (forall k, k <> cid -> contracts s' !! k = contracts s !! k)
  /\ (forall c, contracts s !! cid = Some c ->
        exists c', contracts s' !! cid = Some c'
          /\ verification_logic c' = verification_logic c
          /\ requirements_schema c' = requirements_schema c
          /\ (status c' = status_value COMPLETED ->
              status c = status_value COMPLETED
              \/ exists v r,
                   VerifierFactory_create (verification_logic c) = inr v
                   /\ run_verifier v (mkRequest (pretty cid) work (verification_logic c)
                                        (requirements_schema c)) = inr r
                   /\ is_valid r = true)
          /\ (settlement_tx_hash c' = settlement_tx_hash c
              \/ status c' = status_value COMPLETED)).
Proof.
  intros Hinv s'. subst s'. pose proof Hinv as (Hkeyed & _).
  destruct (EscrowService.submit_work cid work worker s) as [[exc|sub] s1] eqn:Hsub.
  - assert (s1 = s) as ->.
    { apply (raise_leaves_session (OpSubmit cid work worker) s exc s1); [done|].
      unfold exec, outcome. by rewrite Hsub. }
    unfold workflow.
    rewrite (workflow_refused settings py_str py_float run_in_sandbox acompletion
               json_loads iter_errors uuid_hex erc20_transfer exn_str s cid work worker
               exc Hsub).
    simpl. split; [done|]. split; [done|]. intros c Hc. exists c. eauto 10.
  - destruct (submit_work_accepted _ _ _ _ _ _ Hsub) as (c & Hc & Hst).
    pose proof (Hkeyed _ _ Hc) as Hid.
    pose proof (workflow_run settings py_str py_float run_in_sandbox acompletion
                  json_loads iter_errors uuid_hex erc20_transfer exn_str
                  s cid work worker c Hc Hid Hst) as Hrun.
    cbv zeta in Hrun. fold workflow in Hrun. fold run_verifier in Hrun.
    pose proof (submit_then_start s cid work worker c Hc Hid Hst) as Hops.
    pose proof (run_all_invariant [OpSubmit cid work worker; OpStartVerification cid]
                  s Hinv) as Hinv1.
    rewrite Hops in Hinv1.
    match type of Hinv1 with trail_invariant ?t => set (s1' := t) in * end.
    assert (contracts s1' !! cid
            = Some (set_status (status_value VERIFYING)
                      (set_status (status_value SUBMITTED) c))) as Hc1
      by apply lookup_insert_eq.
    assert (forall x : EscrowContract,
              contracts s !! cid = Some x -> x = c) as Hsame
      by (intros x Hx; congruence).
    destruct (VerifierFactory_create (verification_logic c)) as [exc|v] eqn:Hv;
      [|destruct (run_verifier v _) as [exc|r] eqn:Hr;
        [|destruct (is_valid r) eqn:Hvalid]];
      rewrite Hrun; cbn [snd].
    + split; [done|]. split.
      { intros k Hne. subst s1'. simpl. by rewrite !lookup_insert_ne. }
      intros x ->%Hsame. eexists. split; [exact Hc1|]. simpl.
      split; [done|]. split; [done|]. split; [discriminate|by left].
    + split; [done|]. split.
      { intros k Hne. subst s1'. simpl. by rewrite !lookup_insert_ne. }
      intros x ->%Hsame. eexists. split; [exact Hc1|]. simpl.
      split; [done|]. split; [done|]. split; [discriminate|by left].
    + pose proof (exec_preserves (OpPassed cid (next_uuid s) (to_dict r)) s1' Hinv1)
        as Hinv2.
      unfold exec, outcome in Hinv2.
      rewrite (record_verification_passed_run s1' cid (next_uuid s) (to_dict r) _
                 Hc1 Hid eq_refl) in Hinv2.
      cbv zeta in Hinv2. cbn [snd] in Hinv2.
      split.
      { match type of Hinv2 with trail_invariant ?t =>
          apply (settle_preserves t cid _ _ (6 + next_uuid s)%nat Hinv2) end.
        - simpl. apply lookup_insert_eq.
        - simpl. lia. }
      split.
      { intros k Hne. subst s1'. simpl. by rewrite !lookup_insert_ne. }
      intros x ->%Hsame. eexists. split; [simpl; apply lookup_insert_eq|]. simpl.
      split; [done|]. split; [done|]. split; [|by right]. intros _. right. eauto.
    + pose proof (exec_preserves (OpFailed cid (next_uuid s) (to_dict r)) s1' Hinv1)
        as Hinv2.
      unfold exec, outcome in Hinv2.
      rewrite (record_verification_failed_run s1' cid (next_uuid s) (to_dict r) _
                 Hc1 Hid eq_refl) in Hinv2.
      cbv zeta in Hinv2. cbn [snd] in Hinv2.
      split; [exact Hinv2|]. split.
      { intros k Hne. subst s1'. simpl. by rewrite !lookup_insert_ne. }
      intros x ->%Hsame. eexists. split; [simpl; apply lookup_insert_eq|]. simpl.
      split; [done|]. split; [done|]. split; [|by left].
      destruct (_ <? _)%Z; discriminate.
Qed.

Lemma step_preserves st s :
  trail_invariant s -> trail_invariant (step workflow st s).
Proof.
  intros Hinv. destruct st as [op|cid work worker]; simpl.
  - by apply exec_preserves.
  - by apply (workflow_outcome s cid work worker Hinv).
Qed.

Lemma run_steps_invariant steps s :
  trail_invariant s -> trail_invariant (run_steps workflow steps s).
Proof.
  revert s. induction steps as [|st steps IH]; intros s Hinv; [done|].
  apply IH. by apply step_preserves.
Qed.

(** X15. The audit trail stays chained through the workflow.  After
    any sequence of service operations and workflow runs on an empty
    store, settlement writes included, every contract sits under its
    own id and the trail of every contract is chained from nothing to
    the contract's current status. *)
Theorem trail_stays_chained_through_workflows (steps : list Step) (k : uuid) :
  let s := run_steps workflow steps empty_session in
  chained None (events_of k s)
  /\ forall c, contracts s !! k = Some c ->
       c_id c = k /\ trail_end None (events_of k s) = Some (status c).
Proof.
  intros s. subst s.
  pose proof (run_steps_invariant steps _ empty_invariant) as Hinv. split.
  - by apply trail_chained.
  - intros c Hc. split; [by apply (proj1 Hinv)|].
    by apply (proj2 (proj2 (proj2 Hinv)) k c).
Qed.

Lemma unsatisfiable_verdict (cid : uuid) work c :
  unsatisfiable c ->
  VerifierFactory_create (verification_logic c) = inr SchemaVerifier
  /\ exists r,
       run_verifier SchemaVerifier
         (mkRequest (pretty cid) work (verification_logic c) (requirements_schema c))
       = inr r
       /\ is_valid r = false /\ error r = Some "MISSING_SCHEMA".
Proof.
  intros [Hty Hschema]. split.
  - unfold VerifierFactory_create, dict_get. by rewrite Hty.
  - unfold run_verifier, verify, SchemaVerifier_verify. cbn [rq_schema].
    rewrite Hschema. eauto.
Qed.

Lemma exec_not_completed op s k c c' :
  trail_invariant s -> contracts s !! k = Some c ->
  (forall sid res, op <> OpPassed k sid res) ->
  contracts (snd (exec op s)) !! k = Some c' ->
  status c' = status_value COMPLETED -> status c = status_value COMPLETED.
Proof.
  intros Hinv Hk Hop Hk' Hdone. pose proof Hinv as (Hkeyed & Hlt & _).
  pose proof (exec_effect op s Hkeyed) as Heff.
  destruct Heff as [err s' He Hstat Hid Hn
                   |cid c0 c1 ev e st t s' Hop0 Hc Hoe Hs Ht Hc' Hid' Hs' Hoth He Hecid Hety Hold Hnew Hn
                   |c0 ev s' Hop0 Hcs Hid Hs He Hecid Hety Hold Hnew Hn]; simpl in Hk'.
  - specialize (Hstat k). rewrite Hk, Hk' in Hstat. simpl in Hstat. congruence.
  - destruct (decide (k = cid)) as [->|Hne].
    + rewrite Hc' in Hk'. injection Hk' as <-. rewrite Hs' in Hdone.
      apply status_value_inj in Hdone as ->.
      apply op_event_fired in Hoe as Hfired. destruct Hfired as (_ & E2 & _).
      destruct op; simpl in Hop0, Hoe; try discriminate; injection Hop0 as ->;
        try (injection Hoe as <-); try (destruct (_ <? _)%Z; injection Hoe as <-);
        try (by destruct st).
      by destruct (Hop sid result).
    + rewrite Hoth, Hk in Hk' by done. congruence.
  - rewrite Hcs, lookup_insert_ne, Hk in Hk' by (apply Hlt in Hk; lia). congruence.
Qed.

(** One step on a session that holds an unsatisfiable contract. *)
Lemma step_unsatisfiable st s k c :
  trail_invariant s -> contracts s !! k = Some c -> unsatisfiable c ->
  status c <> status_value COMPLETED -> settlement_tx_hash c = None ->
  (forall sid res, st <> StepOp (OpPassed k sid res)) ->
  exists c', contracts (step workflow st s) !! k = Some c'
             /\ unsatisfiable c'
             /\ status c' <> status_value COMPLETED
             /\ settlement_tx_hash c' = None.
Proof.
  intros Hinv Hk Hun Hst Hset Hnot. pose proof Hinv as (Hkeyed & Hlt & _).
  destruct st as [op|cid work worker]; simpl.
  - destruct (exec_keeps op s k c Hk) as [c' Hk']. exists c'. split; [done|].
    pose proof (exec_frame op s k c c' Hkeyed Hlt Hk Hk')
      as ((_ & _ & _ & _ & Hsch & Hlog & _ & Hsettle) & _).
    split; [by unfold unsatisfiable; rewrite Hlog, Hsch|]. split; [|congruence].
    intros Hdone. apply Hst.
    apply (exec_not_completed op s k c c' Hinv Hk); [|done|done].
    intros sid res ->. by apply (Hnot sid res).
  - destruct (workflow_outcome s cid work worker Hinv) as (_ & Hoth & Hcid).
    destruct (decide (k = cid)) as [->|Hne]; [|exists c; by rewrite Hoth].
    destruct (Hcid c Hk) as (c' & Hk' & Hlog & Hsch & Hdone & Hsettle).
    assert (status c' <> status_value COMPLETED) as Hst'.
    { intros [Hc|(v & r & Hv & Hr & Hvalid)]%Hdone; [done|].
      destruct (unsatisfiable_verdict cid work c Hun) as (Hv' & r' & Hr' & Hinvalid & _).
      rewrite Hv' in Hv. injection Hv as <-. rewrite Hr' in Hr. injection Hr as <-.
      congruence. }
    exists c'. split; [done|]. split; [by unfold unsatisfiable; rewrite Hlog, Hsch|].
    split; [done|]. destruct Hsettle as [->|Hc]; done.
Qed.

Lemma run_steps_unsatisfiable steps s k c :
  trail_invariant s -> contracts s !! k = Some c -> unsatisfiable c ->
  status c <> status_value COMPLETED -> settlement_tx_hash c = None ->
  Forall (fun st => forall sid res, st <> StepOp (OpPassed k sid res)) steps ->
  exists c', contracts (run_steps workflow steps s) !! k = Some c'
             /\ unsatisfiable c'
             /\ status c' <> status_value COMPLETED
             /\ settlement_tx_hash c' = None.
Proof.
  revert s c. induction steps as [|st steps IH]; intros s c Hinv Hk Hun Hst Hset Hall.
  - by exists c.
  - apply Forall_cons in Hall as [Hst1 Hall].
    destruct (step_unsatisfiable st s k c Hinv Hk Hun Hst Hset Hst1)
      as (c1 & Hk1 & Hun1 & Hst' & Hset1).
    apply (IH _ c1); try done. by apply step_preserves.
Qed.

(** The workflow on an unsatisfiable contract never reports success. *)
Lemma workflow_unsatisfiable s k c work worker :
  keyed s -> contracts s !! k = Some c -> unsatisfiable c ->
  exists st s', workflow k work worker s = (inr st, s')
                /\ wf_verification_passed st = false
                /\ wf_settlement_tx_hash st = "".
Proof.
  intros Hkeyed Hk Hun.
  destruct (EscrowService.submit_work k work worker s) as [[exc|sub] s1] eqn:Hsub.
  - assert (s1 = s) as ->.
    { apply (raise_leaves_session (OpSubmit k work worker) s exc s1); [done|].
      unfold exec, outcome. by rewrite Hsub. }
    do 2 eexists. split; [by apply workflow_refused|]. done.
  - destruct (submit_work_accepted _ _ _ _ _ _ Hsub) as (c0 & Hc0 & Hst).
    assert (c0 = c) as -> by congruence.
    pose proof (workflow_run settings py_str py_float run_in_sandbox acompletion
                  json_loads iter_errors uuid_hex erc20_transfer exn_str
                  s k work worker c Hk (Hkeyed _ _ Hk) Hst) as Hrun.
    cbv zeta in Hrun. fold workflow in Hrun. fold run_verifier in Hrun.
    destruct (unsatisfiable_verdict k work c Hun) as (Hv & r & Hr & Hinvalid & _).
    rewrite Hv, Hr, Hinvalid in Hrun. do 2 eexists. split; [exact Hrun|]. done.
Qed.

Variable decimal_of_float : Q -> Q.
Variable decimal_str : Q -> string.

(** X16. A schema contract made with the [create_escrow] tool can
    never be completed.  The tool has no parameter for a requirements
    schema, so the contract it creates for verification type "schema"
    has none.  Whatever service operations and workflow runs follow,
    other than a direct call of [record_verification_passed] on that
    contract, the contract never reaches COMPLETED and never gets a
    settlement reference, and every run of the workflow on it reports
    verification_passed false and no settlement hash. *)
Theorem tool_made_schema_contracts_never_complete (before after : list Step)
    (buyer : string) (amount : Q) (descr : string) (timeout : Z)
    (expected_output criteria : string) (retries : Z) :
  let s0 := run_steps workflow before empty_session in
  let k := next_uuid s0 in
  let s1 := snd (create_escrow decimal_of_float decimal_str exn_str buyer amount descr
                   "schema" timeout expected_output criteria retries s0) in
  let s2 := run_steps workflow after s1 in
  Forall (fun st => forall sid res, st <> StepOp (OpPassed k sid res)) after ->
  (exists c, contracts s1 !! k = Some c
             /\ status c = status_value CREATED
             /\ verification_logic c = {[ "type" := VStr "schema" ]}
             /\ requirements_schema c = None)
  /\ (exists c, contracts s2 !! k = Some c
                /\ requirements_schema c = None
                /\ status c <> status_value COMPLETED
                /\ settlement_tx_hash c = None)
  /\ (forall work worker, exists st s',
        workflow k work worker s2 = (inr st, s')
        /\ wf_verification_passed st = false
        /\ wf_settlement_tx_hash st = "").
Proof.
  intros s0 k s1 s2 Hafter.
  pose proof (run_steps_invariant before _ empty_invariant) as Hinv0. fold s0 in Hinv0.
  assert (s1 = snd (exec (OpCreate buyer (decimal_of_float amount) descr
                            {[ "type" := VStr "schema" ]} None retries) s0)) as Hs1.
  { subst s1. unfold create_escrow, exec, outcome.
    change (String.eqb "schema" "code_execution") with false.
    change (String.eqb "schema" "semantic") with false. cbv iota zeta.
    unfold EscrowService.create_contract. monad_simpl. reflexivity. }
  assert (trail_invariant s1) as Hinv1 by (rewrite Hs1; by apply exec_preserves).
  assert (contracts s1 !! k
          = Some (mkContract k buyer None (decimal_of_float amount) None None None
                    (status_value CREATED) (Some descr) None
                    {[ "type" := VStr "schema" ]} retries 0)) as Hk1.
  { rewrite Hs1. unfold exec, outcome, EscrowService.create_contract. monad_simpl.
    apply lookup_insert_eq. }
  split; [eexists; split; [exact Hk1|]; done|].
  assert (unsatisfiable
            (mkContract k buyer None (decimal_of_float amount) None None None
               (status_value CREATED) (Some descr) None
               {[ "type" := VStr "schema" ]} retries 0)) as Hun1.
  { split; [|reflexivity]. simpl. apply lookup_singleton_eq. }
  destruct (run_steps_unsatisfiable after s1 k _ Hinv1 Hk1 Hun1)
    as (c & Hk2 & Hun & Hst & Hset); [discriminate|reflexivity|exact Hafter|].
  fold s2 in Hk2. split.
  - exists c. split; [done|]. split; [apply Hun|]. done.
  - intros work worker.
    apply (workflow_unsatisfiable s2 k c work worker); try done.
    apply (run_steps_invariant after s1 Hinv1).
Qed.

End Steps.

Lemma demo_schema_steps_public :
  Forall (fun st => forall sid res, st <> StepOp (OpPassed 0 sid res)) demo_schema_steps.
Proof. repeat constructor; intros sid res; discriminate. Qed.

Lemma tool_made_schema_contracts_never_complete_witness :
  let s0 := run_steps (demo_workflow demo_sandbox_hello) [] empty_session in
  let k := next_uuid s0 in
  let s1 := snd (create_escrow demo_decimal_of_float demo_decimal_str demo_exn_str
                   "0xBUYER" 50 "Return the user record as JSON." "schema" 30 "" ""
                   3 s0) in
  let s2 := run_steps (demo_workflow demo_sandbox_hello) demo_schema_steps s1 in
  (exists c, contracts s1 !! k = Some c
             /\ status c = status_value CREATED
             /\ verification_logic c = {[ "type" := VStr "schema" ]}
             /\ requirements_schema c = None)
  /\ (exists c, contracts s2 !! k = Some c
                /\ requirements_schema c = None
                /\ status c <> status_value COMPLETED
                /\ settlement_tx_hash c = None)
  /\ (forall work worker, exists st s',
        demo_workflow demo_sandbox_hello k work worker s2 = (inr st, s')
        /\ wf_verification_passed st = false
        /\ wf_settlement_tx_hash st = "").
Proof.
  exact (tool_made_schema_contracts_never_complete
           demo_settings demo_py_str demo_py_float demo_sandbox_hello
           demo_acompletion demo_json_loads demo_iter_errors
           demo_uuid_hex demo_erc20_transfer demo_exn_str
           demo_decimal_of_float demo_decimal_str
           [] demo_schema_steps "0xBUYER" 50 "Return the user record as JSON." 30 "" "" 3
           demo_schema_steps_public).
Defined.

(** The same run, computed: three submissions use up the
    three retries. *)
Example schema_contract_burns_its_retries :
  let s1 := snd (create_escrow demo_decimal_of_float demo_decimal_str demo_exn_str
                   "0xBUYER" 50 "Return the user record as JSON." "schema" 30 "" ""
                   3 empty_session) in
  let s2 := run_steps (demo_workflow demo_sandbox_hello) demo_schema_steps s1 in
  (status <$> contracts s2 !! 0%nat) = Some "FAILED"
  /\ (retry_count <$> contracts s2 !! 0%nat) = Some 3%Z.
Proof. vm_compute. split; reflexivity. Qed.

(** ** Dry runs and sandboxes *)

Section DryRun.

Variable settings : Settings.
Variable py_str : pyval -> string.
Variable py_float : string -> option pyfloat.
Variable run_in_sandbox : string -> string -> pyval -> SandboxOutcome.
Variable acompletion : nat -> string -> string + option string.
Variable json_loads : string -> string + pyval.
Variable iter_errors : gmap string pyval -> pyval -> ValidatorOutcome.
Variable uuid_hex : uuid -> string.
Variable erc20_transfer : string -> Q -> string -> Exn + string.
Variable exn_str : Exn -> string.

Let workflow :=
  run_escrow_workflow settings py_str py_float run_in_sandbox acompletion
    json_loads iter_errors uuid_hex erc20_transfer exn_str.

(** X17. A contract of type "mock" accepts any work.  The factory
    that serves the workflow hands out the dry-run verifier for the
    type name "mock".  On a contract in IN_PROGRESS with that type
    whose should_pass is absent or truthy, the workflow completes the
    contract and writes a settlement reference whatever work is
    submitted, and whatever the sandbox, the judge and the validator
    would say. *)
Theorem mock_contracts_accept_any_work (s : Session) (cid : uuid) (work : string)
    (worker : option string) (c : EscrowContract) :
  contracts s !! cid = Some c -> c_id c = cid ->
  status c = status_value IN_PROGRESS ->
  verification_logic c !! "type" = Some (VStr "mock") ->
  py_truthy (dict_get (verification_logic c) "should_pass" (VBool true)) = true ->
  VerifierFactory_create (verification_logic c) = inr MockVerifier
  /\ exists st s' tx,
       workflow cid work worker s = (inr st, s')
       /\ wf_final_status st = "COMPLETED"
       /\ wf_verification_passed st = true
       /\ wf_settlement_tx_hash st = tx
       /\ tx <> ""
       /\ contracts s' !! cid
          = Some (set_settlement_tx_hash (Some tx)
                    (set_status (status_value COMPLETED) c)).
Proof.
  intros Hc Hid Hst Hty Hpass.
  assert (VerifierFactory_create (verification_logic c) = inr MockVerifier) as Hv.
  { unfold VerifierFactory_create, dict_get. by rewrite Hty. }
  split; [exact Hv|].
  pose proof (workflow_run settings py_str py_float run_in_sandbox acompletion
                json_loads iter_errors uuid_hex erc20_transfer exn_str
                s cid work worker c Hc Hid Hst) as Hrun.
  cbv zeta in Hrun. fold workflow in Hrun. rewrite Hv in Hrun.
  unfold verify, MockVerifier_verify in Hrun. cbv zeta in Hrun.
  cbn [rq_config is_valid] in Hrun. rewrite Hpass in Hrun.
  do 3 eexists. split; [exact Hrun|]. cbn -[py_take pretty to_dict].
  rewrite lookup_insert_eq. repeat split. discriminate.
Qed.

End DryRun.

Section Sandbox.

Variable settings : Settings.
Variable py_str : pyval -> string.
Variable run_in_sandbox : string -> string -> pyval -> SandboxOutcome.

Let code_execution := CodeExecutionVerifier_verify settings py_str run_in_sandbox.

(** X18. The code-execution verifier fails closed.  When the
    descriptor's expected_output is present and not a string, [verify]
    raises, whether or not a sandbox key is configured.  Otherwise it
    returns a result: without a key it is the MISSING_E2B_API_KEY result
    whatever the sandbox would do; a valid result needs a key and a
    sandbox run that completed with exit code 0 and, unless the
    expected output is blank, printed it, and has score 1.0 and no
    error; a run that timed out gives EXECUTION_TIMEOUT with the time
    limit in the logs; a run that raised gives SANDBOX_ERROR with the
    text of the exception in details and logs. *)
Theorem code_execution_fails_closed (api_key : option string) (timeout : option Z)
    (request : VerificationRequest) :
  let key := default (e2b_api_key settings) api_key in
  let limit := dict_get (rq_config request) "timeout"
                 (VInt (default (e2b_timeout_seconds settings) timeout)) in
  let expected_output := dict_get (rq_config request) "expected_output" (VStr "") in
  let run := run_in_sandbox (rq_payload request) key limit in
  match expected_output with
  | VStr raw =>
      exists r,
        code_execution api_key timeout request = inr r
        /\ (key = "" ->
            r = mkResult false None "E2B API key not configured." ∅
                  (Some "MISSING_E2B_API_KEY"))
        /\ (is_valid r = true ->
            key <> "" /\ score r = Some 1%Q /\ error r = None
            /\ exists stdout stderr,
                 run = Completed stdout stderr 0
                 /\ (py_strip raw = ""
                     \/ py_contains (py_strip raw) (py_strip stdout) = true))
        /\ (key <> "" -> run = TimedOut ->
            error r = Some "EXECUTION_TIMEOUT" /\ logs r = {[ "timeout" := limit ]})
        /\ (key <> "" -> forall text, run = Crashed text ->
            error r = Some "SANDBOX_ERROR"
            /\ logs r = {[ "exception" := VStr text ]}
            /\ details r = ("Sandbox execution failed: " ++ text)%string)
  | _ => exists msg, code_execution api_key timeout request = inl (AttributeError msg)
  end.
Proof.
  intros key limit expected_output run.
  unfold code_execution, CodeExecutionVerifier_verify. cbv zeta.
  fold key. fold limit. fold expected_output. fold run.
  destruct expected_output as [| | | |raw| |]; eauto.
  destruct (String.eqb_spec key "") as [Hk|Hk].
  { eexists. split; [reflexivity|]. split; [done|]. split; [discriminate|].
    split; [done|]. done. }
  destruct run as [stdout stderr exit_code| |text] eqn:Hrun.
  - destruct (Z.eqb_spec exit_code 0) as [->|Hne]; cbn [negb].
    + destruct (String.eqb_spec (py_strip raw) "") as [He|He]; cbn [negb].
      * eexists. split; [reflexivity|]. split; [done|]. cbn.
        split; [eauto 10|]. split; [done|]. done.
      * destruct (py_contains _ _) eqn:Hc;
          (eexists; split; [reflexivity|]); (split; [done|]); cbn;
          (split; [|split; done]); [eauto 10|discriminate].
    + eexists. split; [reflexivity|]. split; [done|]. cbn.
      split; [discriminate|]. split; done.
  - eexists. split; [reflexivity|]. split; [done|]. cbn.
    split; [discriminate|]. split; done.
  - eexists. split; [reflexivity|]. split; [done|]. cbn.
    split; [discriminate|]. split; [done|]. intros _ text' [= <-]. done.
Qed.

End Sandbox.

Lemma demo_mock_lookup : contracts demo_mock_session !! 0%nat = Some demo_mock_contract.
Proof. vm_compute. reflexivity. Qed.

Lemma mock_contracts_accept_any_work_witness :
  VerifierFactory_create (verification_logic demo_mock_contract) = inr MockVerifier
  /\ exists st s' tx,
       demo_workflow demo_sandbox 0 "no work was done" None demo_mock_session = (inr st, s')
       /\ wf_final_status st = "COMPLETED"
       /\ wf_verification_passed st = true
       /\ wf_settlement_tx_hash st = tx
       /\ tx <> ""
       /\ contracts s' !! (0 : uuid)
          = Some (set_settlement_tx_hash (Some tx)
                    (set_status (status_value COMPLETED) demo_mock_contract)).
Proof.
  exact (mock_contracts_accept_any_work
           demo_settings demo_py_str demo_py_float demo_sandbox
           demo_acompletion demo_json_loads demo_iter_errors
           demo_uuid_hex demo_erc20_transfer demo_exn_str
           demo_mock_session 0 "no work was done" None demo_mock_contract
           demo_mock_lookup eq_refl eq_refl eq_refl eq_refl).
Defined.

(** ** Errors of the workflow *)

Section Errors.

Variable settings : Settings.
Variable py_str : pyval -> string.
Variable py_float : string -> option pyfloat.
Variable run_in_sandbox : string -> string -> pyval -> SandboxOutcome.
Variable acompletion : nat -> string -> string + option string.
Variable json_loads : string -> string + pyval.
Variable iter_errors : gmap string pyval -> pyval -> ValidatorOutcome.
Variable uuid_hex : uuid -> string.
Variable erc20_transfer : string -> Q -> string -> Exn + string.
Variable exn_str : Exn -> string.

Let workflow :=
  run_escrow_workflow settings py_str py_float run_in_sandbox acompletion
    json_loads iter_errors uuid_hex erc20_transfer exn_str.


End Errors.

